(** * PDF-to-structured-data pipeline: extraction, cache keys, chunking,
      response cleaning and reconciliation gates

    A shallow embedding of the Python sources
      curriculum-mappin/index.py, curriculum-mappin/v1/index2.py,
      curriculum-mappin/v1/index2_backup.py, curriculum-mappin/v2/index_v2.py,
      curriculum-mappin/v3/app.py and pdftocsv/test.py
    and the properties of the specification that are stated about them,
    followed by properties of the same code that the specification does
    not state: what is cached after a failure, what a repeated request
    costs, how the handlers of one file work together, and what the
    mapping loops do to the records they are given.

    Conventions.
    - A Python [str] is a list of Unicode code points ([N]); [len] is
      [length], [+] is [++], [s[i:j]] is [slice s i j].
    - Bytes are numbers below 256.
    - Library calls whose code is not part of the repository (pdfplumber,
      pytesseract, the generative model, [json.loads]) are oracles. *)

From Stdlib Require Import NArith ZArith QArith Ascii String List Lia.
From Stdlib Require Import DecimalString.
From stdpp Require Import base gmap strings list.
Import ListNotations.

Local Open Scope N_scope.
Local Open Scope nat_scope.
Local Open Scope list_scope.

(* ================================================================== *)
(** ** Python strings                                                   *)
(* ================================================================== *)

Definition char := N.
Definition str := list char.

(** An ASCII literal of the source, as a Python string. *)
Definition py (s : string) : str :=
  List.map N_of_ascii (list_ascii_of_string s).

Arguments py : simpl never.

(** [str.isspace] of one character, which is also what the [\s] class of
    [re] matches on [str] patterns and what [str.strip()] removes
    (CPython's [Py_UNICODE_ISSPACE]). *)
Definition is_space (c : char) : bool :=
  ((0x09 <=? c) && (c <=? 0x0D))%N || ((0x1C <=? c) && (c <=? 0x20))%N
  || (c =? 0x85)%N || (c =? 0xA0)%N || (c =? 0x1680)%N
  || ((0x2000 <=? c) && (c <=? 0x200A))%N
  || (c =? 0x2028)%N || (c =? 0x2029)%N || (c =? 0x202F)%N
  || (c =? 0x205F)%N || (c =? 0x3000)%N.

(** The regular-expression class [[a-zA-Z0-9]]. *)
Definition is_ascii_alpha (c : char) : bool :=
  ((0x41 <=? c) && (c <=? 0x5A))%N || ((0x61 <=? c) && (c <=? 0x7A))%N.

Definition is_ascii_digit (c : char) : bool :=
  ((0x30 <=? c) && (c <=? 0x39))%N.

Definition is_ascii_alnum (c : char) : bool :=
  is_ascii_alpha c || is_ascii_digit c.

(** Python's [string.punctuation]: the ASCII characters from [!] to [~]
    that are neither letters nor digits. *)
Definition is_punctuation (c : char) : bool :=
  ((0x21 <=? c) && (c <=? 0x7E))%N && negb (is_ascii_alnum c).

Fixpoint lstrip_with (p : char -> bool) (s : str) : str :=
  match s with
  | [] => []
  | c :: s' => if p c then lstrip_with p s' else s
  end.

Definition rstrip_with (p : char -> bool) (s : str) : str :=
  rev (lstrip_with p (rev s)).

Definition strip_with (p : char -> bool) (s : str) : str :=
  rstrip_with p (lstrip_with p s).

(** [s.strip()] *)
Definition strip (s : str) : str := strip_with is_space s.

(** [s.strip(chars)] *)
Definition strip_chars (chars : str) (s : str) : str :=
  strip_with (fun c => existsb (N.eqb c) chars) s.

(** [s.startswith(p)] *)
Fixpoint startswith (s p : str) : bool :=
  match p, s with
  | [], _ => true
  | _ :: _, [] => false
  | a :: p', b :: s' => (a =? b)%N && startswith s' p'
  end.

(** [s.endswith(p)] *)
Definition endswith (s p : str) : bool := startswith (rev s) (rev p).

(** [s[i:j]] for [0 <= i] and [0 <= j]: both ends are clamped to the
    length, and the slice is empty when [j <= i]. *)
Definition slice (s : str) (i j : nat) : str := firstn (j - i) (skipn i s).

(** [s[i:]] *)
Definition slice_from (s : str) (i : nat) : str := skipn i s.

(** [s[:j]] for [0 <= j] *)
Definition slice_to (s : str) (j : nat) : str := firstn j s.

(** [s[:-k]] for [k > 0]: everything but the last [k] characters, empty
    when the string is shorter than [k]. *)
Definition slice_to_neg (s : str) (k : nat) : str :=
  firstn (length s - k) s.

(** [s.replace(a, b)] for one-character [a]. *)
Definition replace_char (a : char) (b : str) (s : str) : str :=
  flat_map (fun c => if (c =? a)%N then b else [c]) s.

(** [str(n)] of a non-negative integer, as in an f-string field [{i}]. *)
Definition str_of_nat (n : nat) : str :=
  py (NilZero.string_of_uint (Nat.to_uint n)).

Definition NL : char := 0x0A%N.
Definition CR : char := 0x0D%N.

(* ================================================================== *)
(** ** Chunker: [[text[i:i + M] for i in range(0, len(text), M)]]       *)
(* ================================================================== *)

(** [ceil(a / b)] on naturals, [0] when [b = 0]. *)
Definition ceil_div (a b : nat) : nat := (a + (b - 1)) / b.

(** [range(0, stop, step)] for [step > 0] has [ceil(stop / step)]
    elements [0, step, 2 * step, ...]. ([range] raises [ValueError] for
    [step = 0]; the sources only use positive constants.) *)
Definition py_range0 (stop step : nat) : list nat :=
  List.map (fun k => k * step) (seq 0 (ceil_div stop step)).

(** The list comprehension of [extract_pdf_data]. *)
Definition chunk_text (M : nat) (pdf_text : str) : list str :=
  List.map (fun i => slice pdf_text i (i + M)) (py_range0 (length pdf_text) M).

(** index2.py: the step is the literal [150000]. *)
Definition CHUNK_CHARS_V1 : nat := 150 * 1000.
(** index2_backup.py: [MAX_CHARS = 180000]. *)
Definition MAX_CHARS : nat := 180 * 1000.

(* ================================================================== *)
(** ** QualityGate: [looks_like_bad_text] (index.py, test.py)           *)
(* ================================================================== *)

(** [len(re.findall(r"[^a-zA-Z0-9\s]", text))]: the matches of a
    one-character class are the characters in the class. *)
Definition count_non_alnum_space (text : str) : nat :=
  length (List.filter (fun c => negb (is_ascii_alnum c || is_space c)) text).

(** [non_alpha_ratio]. Python divides two ints into a float; the quotient
    is kept exact here. For lengths below 2^53 the float comparison with
    [0.5] and the exact one agree, since [0.5] is a float and a quotient
    above it exceeds it by at least [1 / (2 * len)]. *)
Definition non_alpha_ratio (text : str) : Q :=
  Z.of_nat (count_non_alnum_space text)
  # Pos.of_nat (Nat.max (length text) 1).

Definition looks_like_bad_text (text : str) : bool :=
  if length (strip text) <? 50 then true
  else negb (Qle_bool (non_alpha_ratio text) (1 # 2)).

(* ================================================================== *)
(** ** Exceptions and results                                           *)
(* ================================================================== *)

(** The exceptions the sources raise or catch. All of them are caught by
    [except Exception]. [LibraryError] stands for whatever an external
    library raises; the payload is [str(e)]. *)
Inductive exn : Type :=
| FileNotFoundError (msg : str)
| ValueError (msg : str)
| TypeError (msg : str)
| UnicodeEncodeError (msg : str)
| LibraryError (msg : str).

(** [str(e)] *)
Definition exn_str (e : exn) : str :=
  match e with
  | FileNotFoundError m | ValueError m | TypeError m
  | UnicodeEncodeError m | LibraryError m => m
  end.

Inductive result (A : Type) : Type :=
| Return (a : A)
| Raise (e : exn).
Arguments Return {A} a.
Arguments Raise {A} e.

(* ================================================================== *)
(** ** ContentHasher: UTF-8 and SHA-256                                 *)
(* ================================================================== *)

Definition bytes := list N.

(** [chr(c).encode("utf-8")]; lone surrogates cannot be encoded. *)
Definition utf8_char (c : char) : option bytes :=
  if (c <? 0x80)%N then Some [c]
  else if (c <? 0x800)%N then
    Some [0xC0 + c / 64; 0x80 + c mod 64]%N
  else if (c <? 0x10000)%N then
    if ((0xD800 <=? c) && (c <? 0xE000))%N then None
    else Some [0xE0 + c / 4096; 0x80 + (c / 64) mod 64; 0x80 + c mod 64]%N
  else if (c <? 0x110000)%N then
    Some [0xF0 + c / 262144; 0x80 + (c / 4096) mod 64;
          0x80 + (c / 64) mod 64; 0x80 + c mod 64]%N
  else None.

Fixpoint utf8 (s : str) : option bytes :=
  match s with
  | [] => Some []
  | c :: s' =>
      match utf8_char c, utf8 s' with
      | Some b, Some bs => Some (b ++ bs)
      | _, _ => None
      end
  end.

Definition is_surrogate (c : char) : bool :=
  ((0xD800 <=? c) && (c <? 0xE000))%N.

(** The longest prefix that can be encoded. *)
Fixpoint encodable_prefix (s : str) : str :=
  match s with
  | [] => []
  | c :: s' =>
      match utf8_char c with
      | Some _ => c :: encodable_prefix s'
      | None => []
      end
  end.

(** [format(c, "0{width}x")] for [c] below [16 ^ width]. *)
Fixpoint hex_fixed (width : nat) (c : N) : str :=
  match width with
  | O => []
  | S k =>
      let d := (c mod 16)%N in
      hex_fixed k (c / 16)
      ++ [if (d <? 10)%N then (0x30 + d)%N else (0x61 + (d - 10))%N]
  end.

(** [str(e)] of the [UnicodeEncodeError] that [s.encode("utf-8")] raises.
    The error covers the first lone surrogate and the surrogates that
    follow it directly: one character is shown with its escape and its
    position, a run by its first and last position. (Numbers above
    [0x10FFFF] are no characters of a Python string; [utf8] refuses them
    like surrogates.) *)
Definition utf8_error_message (s : str) : str :=
  let start := length (encodable_prefix s) in
  match skipn start s with
  | [] => []
  | c :: rest =>
      let last := start + (length rest - length (lstrip_with is_surrogate rest)) in
      if last =? start then
        py "'utf-8' codec can't encode character '"
        ++ (if (c <? 0x10000)%N then py "\u" ++ hex_fixed 4 c
            else py "\U" ++ hex_fixed 8 c)
        ++ py "' in position " ++ str_of_nat start
        ++ py ": surrogates not allowed"
      else
        py "'utf-8' codec can't encode characters in position "
        ++ str_of_nat start ++ py "-" ++ str_of_nat last
        ++ py ": surrogates not allowed"
  end.

(** [s.encode("utf-8")] *)
Definition encode_utf8 (s : str) : result bytes :=
  match utf8 s with
  | Some b => Return b
  | None => Raise (UnicodeEncodeError (utf8_error_message s))
  end.

(** SHA-256 (FIPS 180-4) on 32-bit words held in [N]. *)
Module SHA256.
Local Open Scope N_scope.

Definition mask32 : N := 0xFFFFFFFF.
Definition add32 (a b : N) : N := N.land (a + b) mask32.
Definition rotr (n x : N) : N :=
  N.lor (N.shiftr x n) (N.land (N.shiftl x (32 - n)) mask32).
Definition shr (n x : N) : N := N.shiftr x n.
Definition not32 (x : N) : N := N.lxor x mask32.
Definition xor3 (a b c : N) : N := N.lxor (N.lxor a b) c.

Definition Ch (x y z : N) : N := N.lxor (N.land x y) (N.land (not32 x) z).
Definition Maj (x y z : N) : N :=
  xor3 (N.land x y) (N.land x z) (N.land y z).
Definition Sigma0 (x : N) : N := xor3 (rotr 2 x) (rotr 13 x) (rotr 22 x).
Definition Sigma1 (x : N) : N := xor3 (rotr 6 x) (rotr 11 x) (rotr 25 x).
Definition sigma0 (x : N) : N := xor3 (rotr 7 x) (rotr 18 x) (shr 3 x).
Definition sigma1 (x : N) : N := xor3 (rotr 17 x) (rotr 19 x) (shr 10 x).

Definition K : list N :=
 [0x428A2F98; 0x71374491; 0xB5C0FBCF; 0xE9B5DBA5; 0x3956C25B; 0x59F111F1;
  0x923F82A4; 0xAB1C5ED5; 0xD807AA98; 0x12835B01; 0x243185BE; 0x550C7DC3;
  0x72BE5D74; 0x80DEB1FE; 0x9BDC06A7; 0xC19BF174; 0xE49B69C1; 0xEFBE4786;
  0x0FC19DC6; 0x240CA1CC; 0x2DE92C6F; 0x4A7484AA; 0x5CB0A9DC; 0x76F988DA;
  0x983E5152; 0xA831C66D; 0xB00327C8; 0xBF597FC7; 0xC6E00BF3; 0xD5A79147;
  0x06CA6351; 0x14292967; 0x27B70A85; 0x2E1B2138; 0x4D2C6DFC; 0x53380D13;
  0x650A7354; 0x766A0ABB; 0x81C2C92E; 0x92722C85; 0xA2BFE8A1; 0xA81A664B;
  0xC24B8B70; 0xC76C51A3; 0xD192E819; 0xD6990624; 0xF40E3585; 0x106AA070;
  0x19A4C116; 0x1E376C08; 0x2748774C; 0x34B0BCB5; 0x391C0CB3; 0x4ED8AA4A;
  0x5B9CCA4F; 0x682E6FF3; 0x748F82EE; 0x78A5636F; 0x84C87814; 0x8CC70208;
  0x90BEFFFA; 0xA4506CEB; 0xBEF9A3F7; 0xC67178F2].

Definition H0 : list N :=
 [0x6A09E667; 0xBB67AE85; 0x3C6EF372; 0xA54FF53A; 0x510E527F; 0x9B05688C;
  0x1F83D9AB; 0x5BE0CD19].

(** [width] bytes of [x], most significant first. *)
Definition be_bytes (width : nat) (x : N) : bytes :=
  List.map (fun i => N.land (N.shiftr x (8 * N.of_nat i)) 0xFF)
           (rev (seq 0 width)).

Definition be_word (b : bytes) : N :=
  fold_left (fun acc x => N.lor (N.shiftl acc 8) x) b 0.

(** Padding: a [1] bit, zeros up to 56 mod 64, the bit length on 8 bytes. *)
Definition pad (msg : bytes) : bytes :=
  let l := length msg in
  let zeros := ((64 - (l + 9) mod 64) mod 64)%nat in
  msg ++ [0x80] ++ repeat 0 zeros ++ be_bytes 8 (8 * N.of_nat l).

(** Cuts a list into consecutive groups of [n] elements. *)
Fixpoint groups_of {A} (fuel n : nat) (l : list A) : list (list A) :=
  match fuel, l with
  | _, [] => []
  | O, _ => []
  | S fuel', _ => firstn n l :: groups_of fuel' n (skipn n l)
  end.

Definition words_of_block (block : bytes) : list N :=
  List.map be_word (groups_of 16 4 block).

(** The message schedule: [w] holds the sixteen most recent words. *)
Fixpoint schedule (rounds : nat) (w : list N) : list N :=
  match rounds with
  | O => []
  | S r =>
      let next :=
        add32 (add32 (add32 (sigma1 (nth 14 w 0)) (nth 9 w 0))
                     (sigma0 (nth 1 w 0))) (nth 0 w 0) in
      next :: schedule r (tl w ++ [next])
  end.

Definition round (st : list N) (kw : N * N) : list N :=
  match st with
  | [a; b; c; d; e; f; g; h] =>
      let t1 := add32 (add32 (add32 (add32 h (Sigma1 e)) (Ch e f g))
                             (fst kw)) (snd kw) in
      let t2 := add32 (Sigma0 a) (Maj a b c) in
      [add32 t1 t2; a; b; c; add32 d t1; e; f; g]
  | _ => st
  end.

Definition compress (h : list N) (block : bytes) : list N :=
  let w16 := words_of_block block in
  let w := w16 ++ schedule 48 w16 in
  let st := fold_left round (combine K w) h in
  List.map (fun p => add32 (fst p) (snd p)) (combine h st).

Definition digest_words (msg : bytes) : list N :=
  let padded := pad msg in
  fold_left compress (groups_of (length padded) 64 padded) H0.

(** [hashlib.sha256(msg).digest()] *)
Definition digest (msg : bytes) : bytes :=
  flat_map (be_bytes 4) (digest_words msg).

Definition hex_digit (n : N) : ascii :=
  ascii_of_N (if n <? 10 then 0x30 + n else 0x61 + (n - 10)).

(** [hashlib.sha256(msg).hexdigest()]: 64 lowercase hexadecimal digits. *)
Definition hexdigest (msg : bytes) : string :=
  string_of_list_ascii
    (flat_map (fun b => [hex_digit (b / 16); hex_digit (b mod 16)])
              (digest msg)).
End SHA256.

Arguments SHA256.hexdigest : simpl never.

(** The form of a digest that [hexdigest] gives: 64 characters, each a
    digit or a letter from [a] to [f]. *)
Definition is_hex_char (a : ascii) : bool :=
  let c := N_of_ascii a in
  ((0x30 <=? c) && (c <=? 0x39))%N || ((0x61 <=? c) && (c <=? 0x66))%N.

Definition is_hex_digest (h : string) : bool :=
  (String.length h =? 64) && forallb is_hex_char (list_ascii_of_string h).

(** The cache file of a document: [f"{pdf_hash}.txt"]. *)
Definition text_cache_file (pdf_bytes : bytes) : string :=
  (SHA256.hexdigest pdf_bytes +:+ ".txt")%string.

(** Two different byte strings with one SHA-256 digest. *)
Definition sha256_collision (b1 b2 : bytes) : Prop :=
  b1 <> b2 /\ SHA256.hexdigest b1 = SHA256.hexdigest b2.

(** The cache key of [generate_csv_from_text] (index.py, test.py):
    [hashlib.sha256((pdf_text + user_prompt).encode("utf-8")).hexdigest()]. *)
Definition request_hash (pdf_text user_prompt : str) : result string :=
  match encode_utf8 (pdf_text ++ user_prompt) with
  | Return b => Return (SHA256.hexdigest b)
  | Raise e => Raise e
  end.

(** The bytes that [request_hash] digests. *)
Definition request_hash_input (pdf_text user_prompt : str) : option bytes :=
  utf8 (pdf_text ++ user_prompt).

(* ================================================================== *)
(** ** The world: files, cache directory and external capabilities      *)
(* ================================================================== *)

Definition DQ : char := 0x22%N.

(** What [open(..., "r")] does to line ends when a text file is read
    (universal newlines, the default of [Path.read_text]): ["\r\n"] and a
    lone ["\r"] become ["\n"]. *)
Fixpoint universal_newlines (s : str) : str :=
  match s with
  | [] => []
  | c :: s' =>
      if (c =? CR)%N then
        NL :: match s' with
              | d :: s'' =>
                  if (d =? NL)%N then universal_newlines s''
                  else universal_newlines s'
              | [] => []
              end
      else c :: universal_newlines s'
  end.

(** The line boundaries of [str.splitlines]. *)
Definition is_linebreak (c : char) : bool :=
  ((0x0A <=? c) && (c <=? 0x0D))%N || ((0x1C <=? c) && (c <=? 0x1E))%N
  || (c =? 0x85)%N || (c =? 0x2028)%N || (c =? 0x2029)%N.

(** [s.splitlines()], with the line being read in [cur] (reversed). *)
Fixpoint splitlines_from (cur : str) (s : str) : list str :=
  match s with
  | [] => match cur with [] => [] | _ => [rev cur] end
  | c :: s' =>
      if is_linebreak c then
        rev cur :: match s' with
                   | d :: s'' =>
                       if ((c =? CR) && (d =? NL))%N
                       then splitlines_from [] s''
                       else splitlines_from [] s'
                   | [] => []
                   end
      else splitlines_from (c :: cur) s'
  end.

Definition splitlines (s : str) : list str := splitlines_from [] s.

(** The state that the functions read and change. [pdf_files] are the
    documents on disk by path: regular files that can be read, with
    their bytes. [cache_dir] are the text files of [CACHE_DIR] by file
    name, each held as the text its bytes decode to. The counters record
    how often each external capability was invoked.

    A path that exists and cannot be read as a file (a directory, a file
    without read permission) has no place in this state: [exists()] is
    true of it and [read_bytes()] raises [OSError]. What is proved about
    a document on disk is proved under [pdf_files w !! path = Some b],
    that is, for a document that [read_bytes] reads as [b]. *)
Record world : Type := World {
  pdf_files : gmap string bytes;
  cache_dir : gmap string str;
  plumber_calls : nat;
  ocr_calls : nat;
  generate_calls : nat
}.

(** The external capabilities. Each one sees how many times it was
    invoked before, so that two calls with the same argument may answer
    differently.
    - [pdfplumber_pages]: [pdfplumber.open] and [page.extract_text()] of
      every page ([None] for a page without text), or the exception that
      one of them raises.
    - [ocr_pages]: [convert_from_path] and [pytesseract.image_to_string]
      of every page, or the exception.
    - [generate_content]: [model.generate_content(prompt)] and the text of
      the response, or the exception. *)
Record capabilities : Type := Capabilities {
  pdfplumber_pages : nat -> bytes -> result (list (option str));
  ocr_pages : nat -> bytes -> result (list str);
  generate_content : nat -> str -> result str
}.

(** Computations that read and change the world and may raise. *)
Definition M (A : Type) : Type := world -> result A * world.

Definition ret {A} (a : A) : M A := fun w => (Return a, w).
Definition raise {A} (e : exn) : M A := fun w => (Raise e, w).
Definition bind {A B} (m : M A) (k : A -> M B) : M B :=
  fun w => match m w with
           | (Return a, w') => k a w'
           | (Raise e, w') => (Raise e, w')
           end.
(** [try: m except Exception as e: ...], with the outcome made a value. *)
Definition attempt {A} (m : M A) : M (result A) :=
  fun w => let (r, w') := m w in (Return r, w').
Definition lift {A} (r : result A) : M A := fun w => (r, w).

Declare Scope py_scope.
Delimit Scope py_scope with py.
Notation "x <- m ;; k" := (bind m (fun x => k))
  (at level 100, m at level 99, k at level 200, right associativity)
  : py_scope.
Notation "m ;;; k" := (bind m (fun _ => k))
  (at level 100, k at level 200, right associativity) : py_scope.
Local Open Scope py_scope.

(** [path.exists()] of a path that is absent or a document that can be
    read. *)
Definition pdf_exists (path : string) : M bool :=
  fun w => (Return (match pdf_files w !! path with
                    | Some _ => true
                    | None => false
                    end), w).

(** [path.read_bytes()] of a path that is absent or a document that can
    be read. *)
Definition read_bytes (path : string) : M bytes :=
  fun w => match pdf_files w !! path with
           | Some b => (Return b, w)
           | None => (Raise (FileNotFoundError (py path)), w)
           end.

(** [path.write_bytes(b)] *)
Definition write_bytes (path : string) (b : bytes) : M unit :=
  fun w => (Return tt,
            World (<[path := b]> (pdf_files w)) (cache_dir w)
                  (plumber_calls w) (ocr_calls w) (generate_calls w)).

(** [cache_file.exists()] *)
Definition cache_exists (name : string) : M bool :=
  fun w => (Return (match cache_dir w !! name with
                    | Some _ => true
                    | None => false
                    end), w).

(** [cache_file.read_text("utf-8")] *)
Definition read_text (name : string) : M str :=
  fun w => match cache_dir w !! name with
           | Some t => (Return (universal_newlines t), w)
           | None => (Raise (FileNotFoundError (py name)), w)
           end.

Definition set_cache (name : string) (t : str) (w : world) : world :=
  World (pdf_files w) (<[name := t]> (cache_dir w))
        (plumber_calls w) (ocr_calls w) (generate_calls w).

(** [cache_file.write_text(t, "utf-8")] where [os.linesep] is ["\n"]. The
    file is opened, which empties or creates it, before the text is
    encoded: a text that cannot be encoded leaves an empty file. *)
Definition write_text (name : string) (t : str) : M unit :=
  fun w => match encode_utf8 t with
           | Return _ => (Return tt, set_cache name t w)
           | Raise e => (Raise e, set_cache name [] w)
           end.

(** One use of the text-layer capability on the document at [path]. *)
Definition plumber_open (cap : capabilities) (path : string)
  : M (list (option str)) :=
  fun w =>
    let w' := World (pdf_files w) (cache_dir w)
                    (S (plumber_calls w)) (ocr_calls w) (generate_calls w) in
    match pdf_files w !! path with
    | Some b => (pdfplumber_pages cap (plumber_calls w) b, w')
    | None => (Raise (FileNotFoundError (py path)), w')
    end.

(** One use of the OCR capability on the document at [path]. *)
Definition ocr_convert (cap : capabilities) (path : string) : M (list str) :=
  fun w =>
    let w' := World (pdf_files w) (cache_dir w)
                    (plumber_calls w) (S (ocr_calls w)) (generate_calls w) in
    match pdf_files w !! path with
    | Some b => (ocr_pages cap (ocr_calls w) b, w')
    | None => (Raise (FileNotFoundError (py path)), w')
    end.

(** One call of the generative model. *)
Definition generate (cap : capabilities) (prompt : str) : M str :=
  fun w =>
    (generate_content cap (generate_calls w) prompt,
     World (pdf_files w) (cache_dir w)
           (plumber_calls w) (ocr_calls w) (S (generate_calls w))).

(** [text += header(i, page)] over [enumerate(pages, i)]. *)
Fixpoint join_pages {A} (block : nat -> A -> str) (i : nat) (pages : list A)
  : str :=
  match pages with
  | [] => []
  | p :: ps => block i p ++ join_pages block (S i) ps
  end.

(** [x or ""] *)
Definition or_empty (x : option str) : str :=
  match x with Some t => t | None => [] end.

(* ================================================================== *)
(** ** TextExtractor and CSV generation: curriculum-mappin/index.py     *)
(* ================================================================== *)

(** The removal of code fences that both [generate_csv_from_text]
    functions apply to [response.text]. *)
Definition clean_csv_output (response_text : str) : str :=
  let csv_output := strip response_text in
  let csv_output :=
    if startswith csv_output (py "```csv")
    then strip (slice_from csv_output 5) else csv_output in
  let csv_output :=
    if endswith csv_output (py "```")
    then strip (slice_to_neg csv_output 3) else csv_output in
  csv_output.

(** The response [```csv\na,b\n1,2\n```]. *)
Definition fenced_csv_response : str :=
  py "```csv" ++ [NL] ++ py "a,b" ++ [NL] ++ py "1,2" ++ [NL] ++ py "```".

Module Index.
Section WithCapabilities.
Variable cap : capabilities.

(** f"--- OCR Page {i} Content ---\n{extracted}\n\n" *)
Definition ocr_block (i : nat) (extracted : str) : str :=
  py "--- OCR Page " ++ str_of_nat i ++ py " Content ---" ++ [NL]
  ++ extracted ++ [NL; NL].

(** f"--- Page {i} Content ---\n{extracted}\n\n" *)
Definition page_block (i : nat) (page : option str) : str :=
  py "--- Page " ++ str_of_nat i ++ py " Content ---" ++ [NL]
  ++ or_empty page ++ [NL; NL].

Definition extract_text_with_ocr (pdf_path : string) : M str :=
  r <- attempt (pages <- ocr_convert cap pdf_path ;;
                ret (join_pages ocr_block 1 pages)) ;;
  match r with
  | Return text => ret text
  | Raise e => ret (py "OCR processing failed: " ++ exn_str e)
  end.

Definition get_pdf_text (pdf_path : string) : M str :=
  found <- pdf_exists pdf_path ;;
  if negb found then
    raise (FileNotFoundError
             ([0x1F534%N] ++ py " ERROR: File not found -> " ++ py pdf_path))
  else
    pdf_bytes <- read_bytes pdf_path ;;
    let pdf_hash := SHA256.hexdigest pdf_bytes in
    let cache_file := (pdf_hash +:+ ".txt")%string in
    hit <- cache_exists cache_file ;;
    if hit then read_text cache_file
    else
      r <- attempt (pages <- plumber_open cap pdf_path ;;
                    ret (join_pages page_block 1 pages)) ;;
      match r with
      | Raise e =>
          text <- extract_text_with_ocr pdf_path ;;
          write_text cache_file text ;;;
          ret text
      | Return text =>
          text <- (if looks_like_bad_text text
                   then extract_text_with_ocr pdf_path else ret text) ;;
          write_text cache_file text ;;;
          ret text
      end.

Definition csv_prompt (pdf_text user_prompt : str) : str :=
  [NL] ++
  py "    You are an expert data analyst AI. Your task is to extract information from the provided PDF text and format it as valid CSV data based on the user's request." ++
  [NL] ++
  [NL] ++
  py "    **User Request:** " ++ [DQ] ++ user_prompt ++ [DQ] ++ [NL] ++
  [NL] ++
  py "    **Rules:**" ++ [NL] ++
  py "    1.  **CSV Only:** Your entire output must be in valid CSV format (RFC 4180)." ++
  [NL] ++
  py "    2.  **Header Row:** The first line must be a descriptive header row." ++
  [NL] ++
  py "    3.  **No Extra Text:** Do not include any explanations, notes, or markdown formatting like ```csv ... ``` in your response. Only output the raw CSV data." ++
  [NL] ++
  [NL] ++
  py "    **--- PDF Text ---**" ++ [NL] ++
  py "    " ++ pdf_text ++ [NL] ++
  py "    **--- End PDF Text ---**" ++ [NL] ++
  py "    ".

Definition generate_csv_from_text (pdf_text user_prompt : str) : M str :=
  request_hash <- lift (request_hash pdf_text user_prompt) ;;
  let cache_file := (request_hash +:+ ".csv")%string in
  hit <- cache_exists cache_file ;;
  if hit then read_text cache_file
  else
    let prompt := csv_prompt pdf_text user_prompt in
    r <- attempt
           (response_text <- generate cap prompt ;;
            let csv_output := clean_csv_output response_text in
            if (match csv_output with [] => true | _ => false end)
               || (length (splitlines csv_output) <? 1)
            then raise (ValueError (py "Generated CSV is empty."))
            else
              write_text cache_file csv_output ;;;
              ret csv_output) ;;
    match r with
    | Return csv_output => ret csv_output
    | Raise e =>
        raise (ValueError
                 (py "Failed to generate content from AI model: "
                  ++ exn_str e))
    end.
End WithCapabilities.
End Index.

(* ================================================================== *)
(** ** TextExtractor and CSV generation: pdftocsv/test.py               *)
(* ================================================================== *)

Module PdfToCsv.
Section WithCapabilities.
Variable cap : capabilities.

Definition ocr_block (i : nat) (extracted : str) : str :=
  py "--- OCR Page " ++ str_of_nat i ++ py " Content ---" ++ [NL]
  ++ extracted ++ [NL; NL].

Definition page_block (i : nat) (page : option str) : str :=
  py "--- Page " ++ str_of_nat i ++ py " Content ---" ++ [NL]
  ++ or_empty page ++ [NL; NL].

Definition extract_text_with_ocr (pdf_path : string) : M str :=
  pages <- ocr_convert cap pdf_path ;;
  ret (join_pages ocr_block 1 pages).

Definition get_pdf_text (pdf_path : string) : M str :=
  found <- pdf_exists pdf_path ;;
  if negb found then
    raise (FileNotFoundError
             ([0x1F534%N] ++ py " ERROR: File not found -> " ++ py pdf_path))
  else
    pdf_bytes <- read_bytes pdf_path ;;
    let pdf_hash := SHA256.hexdigest pdf_bytes in
    let cache_file := (pdf_hash +:+ ".txt")%string in
    hit <- cache_exists cache_file ;;
    if hit then read_text cache_file
    else
      pages <- plumber_open cap pdf_path ;;
      let text := join_pages page_block 1 pages in
      text <- (if looks_like_bad_text text
               then extract_text_with_ocr pdf_path else ret text) ;;
      write_text cache_file text ;;;
      ret text.

Definition csv_prompt (pdf_text user_prompt : str) : str :=
  [NL] ++
  py "    You are a data analyst AI." ++ [NL] ++
  py "    Task: Based on the following PDF text, generate CSV data according to the request:" ++
  [NL] ++
  [NL] ++
  py "    Request: " ++ [DQ] ++ user_prompt ++ [DQ] ++ [NL] ++
  [NL] ++
  py "    Rules:" ++ [NL] ++
  py "    - Output valid CSV only (RFC 4180)." ++ [NL] ++
  py "    - Include a header row with descriptive column names." ++ [NL] ++
  py "    - No markdown, no explanations, only CSV." ++ [NL] ++
  [NL] ++
  py "    --- PDF Text ---" ++ [NL] ++
  py "    " ++ pdf_text ++ [NL] ++
  py "    --- End PDF Text ---" ++ [NL] ++
  py "    ".

Definition generate_csv_from_text (pdf_text user_prompt : str) : M str :=
  request_hash <- lift (request_hash pdf_text user_prompt) ;;
  let cache_file := (request_hash +:+ ".csv")%string in
  hit <- cache_exists cache_file ;;
  if hit then read_text cache_file
  else
    let prompt := csv_prompt pdf_text user_prompt in
    response_text <- generate cap prompt ;;
    let csv_output := clean_csv_output response_text in
    write_text cache_file csv_output ;;;
    ret csv_output.
End WithCapabilities.
End PdfToCsv.

(* ================================================================== *)
(** ** Example documents and capabilities                               *)
(* ================================================================== *)

Module Examples.
(** A document on disk. *)
Definition doc_bytes : bytes := [0x25; 0x50; 0x44; 0x46; 0x2D; 0x31]%N.

Definition fresh_world : world :=
  World {[ "doc.pdf"%string := doc_bytes ]} ∅ 0 0 0.

Definition page_plain : str :=
  py "Chapter 1: Introduction to thermodynamics and heat transfer.".

(** The same page with a carriage return in its text layer. *)
Definition page_cr : str :=
  py "Chapter 1: Introduction to thermodynamics" ++ [CR]
  ++ py "and heat transfer.".

Definition no_ocr : nat -> bytes -> result (list str) :=
  fun _ _ => Raise (LibraryError (py "tesseract is not installed")).

Definition no_model : nat -> str -> result str :=
  fun _ _ => Raise (LibraryError (py "deadline exceeded")).

(** One page with a usable text layer. *)
Definition cap_plain : capabilities :=
  Capabilities (fun _ _ => Return [Some page_plain]) no_ocr no_model.

Definition cap_cr : capabilities :=
  Capabilities (fun _ _ => Return [Some page_cr]) no_ocr no_model.

(** Every capability fails. *)
Definition cap_down : capabilities :=
  Capabilities (fun _ _ => Raise (LibraryError (py "no text layer")))
               no_ocr no_model.


(** A text layer with half of a surrogate pair in it, as a broken
    font table gives, after six characters of a page long enough to
    pass the gate. *)
Definition page_lone_surrogate : str :=
  py "Area: " ++ [0xD835%N] ++ py " denotes the domain of integration here.".

Definition cap_lone_surrogate : capabilities :=
  Capabilities (fun _ _ => Return [Some page_lone_surrogate]) no_ocr no_model.



(** The model answers every prompt with a fenced CSV. *)
Definition cap_fenced : capabilities :=
  Capabilities (fun _ _ => Return [Some page_plain]) no_ocr
               (fun _ _ => Return fenced_csv_response).
End Examples.

(* ================================================================== *)
(** ** JSON values and the tolerant normalizer (v1/index2.py)           *)
(* ================================================================== *)

(** A Python [float]: [(-1)^neg * mantissa * 2^exponent], an infinity or
    a NaN. *)
Inductive pyfloat : Type :=
| FFinite (neg : bool) (mantissa : N) (exponent : Z)
| FInf (neg : bool)
| FNaN.

(** The Python values that [json.loads] returns. An object keeps its
    keys in the order of first appearance. *)
#[warnings="-register-all"]
Inductive json : Type :=
| JNull
| JBool (b : bool)
| JInt (z : Z)
| JFloat (f : pyfloat)
| JStr (s : str)
| JArr (items : list json)
| JObj (fields : list (str * json)).

(** [bool(x)], the test of [if x:] and [if not x:]. *)
Definition truthy (x : json) : bool :=
  match x with
  | JNull => false
  | JBool b => b
  | JInt z => negb (z =? 0)%Z
  | JFloat (FFinite _ m _) => negb (m =? 0)%N
  | JFloat _ => true
  | JStr s => match s with [] => false | _ => true end
  | JArr l => match l with [] => false | _ => true end
  | JObj l => match l with [] => false | _ => true end
  end.

(** [type(x).__name__] *)
Definition type_name (x : json) : str :=
  match x with
  | JNull => py "NoneType"
  | JBool _ => py "bool"
  | JInt _ => py "int"
  | JFloat _ => py "float"
  | JStr _ => py "str"
  | JArr _ => py "list"
  | JObj _ => py "dict"
  end.

(** [list(x)]: what iterating over [x] yields. A list yields its items, a
    dict its keys, a string its characters; the other values are not
    iterable. *)
Definition iterate (x : json) : result (list json) :=
  match x with
  | JArr l => Return l
  | JObj l => Return (List.map (fun kv => JStr (fst kv)) l)
  | JStr s => Return (List.map (fun c => JStr [c]) s)
  | _ => Raise (TypeError ([0x27%N] ++ type_name x ++ [0x27%N]
                           ++ py " object is not iterable"))
  end.

(** [all_results.extend(data)] *)
Definition extend (all_results : list json) (data : json)
  : result (list json) :=
  match iterate data with
  | Return items => Return (all_results ++ items)
  | Raise e => Raise e
  end.

(** [isinstance(data, list)] *)
Definition is_list (x : json) : bool :=
  match x with JArr _ => true | _ => false end.

(** Where [$] matches, given what follows: at the end of the string or
    before a newline, which without [re.MULTILINE] has to be the last
    character. *)
Definition at_line_end (multiline : bool) (rest : str) : bool :=
  match rest with
  | [] => true
  | d :: rest' =>
      (d =? NL)%N && (multiline || match rest' with [] => true | _ => false end)
  end.

(** [re.sub(r"^```json|```$", "", s)], with [flags=re.MULTILINE] when
    [multiline]. The scan goes left to right; [skip] characters of the
    match being removed are still to drop, and [bol] tells whether [^]
    matches here. *)
Fixpoint sub_fences_from (multiline : bool) (skip : nat) (bol : bool)
  (s : str) : str :=
  match s with
  | [] => []
  | c :: s' =>
      match skip with
      | S k => sub_fences_from multiline k false s'
      | O =>
          if bol && startswith s (py "```json") then
            sub_fences_from multiline 6 false s'
          else if startswith s (py "```")
                  && at_line_end multiline (skipn 3 s) then
            sub_fences_from multiline 2 false s'
          else c :: sub_fences_from multiline 0 (multiline && (c =? NL)%N) s'
      end
  end.

Definition sub_fences (multiline : bool) (s : str) : str :=
  sub_fences_from multiline 0 true s.

(** [re.sub(r",\s*X", "X", s)] for a closing bracket [X]: a comma that is
    followed by white space and [X] goes away together with the white
    space. *)
Fixpoint sub_trailing_comma_from (close : char) (skip : nat) (s : str)
  : str :=
  match s with
  | [] => []
  | c :: s' =>
      match skip with
      | S k => sub_trailing_comma_from close k s'
      | O =>
          if (c =? 0x2C)%N
             && match lstrip_with is_space s' with
                | d :: _ => (d =? close)%N
                | [] => false
                end
          then close :: sub_trailing_comma_from close
                          (S (length s' - length (lstrip_with is_space s'))) s'
          else c :: sub_trailing_comma_from close 0 s'
      end
  end.

Definition sub_trailing_comma (close : char) (s : str) : str :=
  sub_trailing_comma_from close 0 s.

(** [re.search(r"\[.*\]", s, re.DOTALL)] and [m.group(0)]: from the first
    opening bracket to the last closing bracket after it. *)
Definition search_array (s : str) : option str :=
  match lstrip_with (fun c => negb (c =? 0x5B)%N) s with
  | [] => None
  | open :: rest =>
      if existsb (fun c => (c =? 0x5D)%N) rest
      then Some (open :: rstrip_with (fun c => negb (c =? 0x5D)%N) rest)
      else None
  end.

(** [re.search(r",\s*X", s) is not None] for a closing bracket [X]:
    somewhere in [s] a comma is followed by white space and [X]. *)
Fixpoint has_comma_before (close : char) (s : str) : bool :=
  match s with
  | [] => false
  | c :: s' =>
      ((c =? 0x2C)%N
       && match lstrip_with is_space s' with
          | d :: _ => (d =? close)%N
          | [] => false
          end)
      || has_comma_before close s'
  end.

(** The cleaning steps of [safe_json_loads], before parsing. *)
Definition json_clean (raw : str) : str :=
  let clean := strip (strip_chars (py "`") (strip raw)) in
  let clean := strip (sub_fences true clean) in
  let clean := sub_trailing_comma 0x7D%N clean in
  let clean := sub_trailing_comma 0x5D%N clean in
  replace_char NL (py " ") clean.

(** [try: return f() except Exception: h] on results. *)
Definition try_except {A} (r : result A) (handler : exn -> result A)
  : result A :=
  match r with
  | Return a => Return a
  | Raise e => handler e
  end.

Section Normalizer.
(** [json.loads], which returns a value or raises. *)
Variable json_loads : str -> result json.

(** index2.py. Python's [None] is [JNull]. *)
Definition safe_json_loads (raw : str) : result json :=
  let clean := json_clean raw in
  try_except (json_loads clean) (fun _ =>
    match search_array clean with
    | Some span =>
        try_except (json_loads span) (fun _ => Return JNull)
    | None => Return JNull
    end).
End Normalizer.

(* ================================================================== *)
(** ** HTTP responses                                                   *)
(* ================================================================== *)

(** [jsonify(body), status]; the status is 200 when the source gives
    none. *)
Record response : Type := Response { status : nat; body : json }.

(** [jsonify({"error": msg}), status] *)
Definition error_response (msg : str) (code : nat) : response :=
  Response code (JObj [(py "error", JStr msg)]).

(** [jsonify({"message": msg, "data": data})] *)
Definition data_response (msg : str) (data : json) : response :=
  Response 200 (JObj [(py "message", JStr msg); (py "data", data)]).

(** The [try: ... except Exception as e: return jsonify({"error":
    str(e)}), 500] around a request handler. *)
Definition handle_errors (handler : M response) : M response :=
  r <- attempt handler ;;
  match r with
  | Return resp => ret resp
  | Raise e => ret (error_response (exn_str e) 500)
  end.

(** The cache files of an uploaded document. *)
Definition pdf_cache_file (pdf_bytes : bytes) : string :=
  (SHA256.hexdigest pdf_bytes +:+ ".pdf")%string.
Definition json_cache_file (pdf_bytes : bytes) : string :=
  (SHA256.hexdigest pdf_bytes +:+ ".json")%string.

(* ================================================================== *)
(** ** Reference datasets                                               *)
(* ================================================================== *)

(** [c.lower()] of one character, exact where the letters [u], [i] and
    [d] are concerned, which is all that the column tests below look at:
    [A-Z] go to [a-z], U+0130 goes to [i] followed by U+0307, and no other
    character lower-cases to a text with one of these letters (other
    characters are kept as they are). *)
Definition lower_char (c : char) : str :=
  if ((0x41 <=? c) && (c <=? 0x5A))%N then [(c + 32)%N]
  else if (c =? 0x130)%N then [0x69; 0x307]%N
  else [c].

(** [s.lower()] *)
Definition lower (s : str) : str := flat_map lower_char s.

(** [p in s] for strings. *)
Fixpoint contains (s p : str) : bool :=
  startswith s p
  || match s with
     | [] => false
     | _ :: s' => contains s' p
     end.

(** [a == b] for strings. *)
Definition str_eqb (a b : str) : bool := bool_decide (a = b).

(** What [pd.read_csv] makes of a reference file: the column names and
    the rows ([to_dict(orient="records")]). *)
Record dataframe : Type := DataFrame {
  columns : list str;
  records : list json
}.

(** [next((c for c in columns if test(c)), None)] *)
Definition next_column (test : str -> bool) (cols : list str) : option str :=
  List.find test cols.

(** [if not uuid_col:] on a column name or [None]. *)
Definition no_column (uuid_col : option str) : bool :=
  match uuid_col with
  | None | Some [] => true
  | Some (_ :: _) => false
  end.

(** [rows[:n]] *)
Definition slice_rows (rows : list json) (n : nat) : list json := firstn n rows.

(* ================================================================== *)
(** ** Chunked extraction: curriculum-mappin/v1/index2.py               *)
(* ================================================================== *)

Module V1.
Section WithCapabilities.
Variable cap : capabilities.
(** [json.loads] *)
Variable json_loads : str -> result json.
(** [json.dumps(x, indent=2)], which writes ASCII only. *)
Variable json_dumps : json -> string.

(** f"\n--- OCR Page {i} ---\n" + ocr + "\n" *)
Definition ocr_block (i : nat) (extracted : str) : str :=
  [NL] ++ py "--- OCR Page " ++ str_of_nat i ++ py " ---" ++ [NL]
  ++ extracted ++ [NL].

(** f"\n--- Page {i} ---\n" + (page.extract_text() or "") + "\n" *)
Definition page_block (i : nat) (page : option str) : str :=
  [NL] ++ py "--- Page " ++ str_of_nat i ++ py " ---" ++ [NL]
  ++ or_empty page ++ [NL].

Definition extract_text_with_ocr (pdf_path : string) : M str :=
  r <- attempt (pages <- ocr_convert cap pdf_path ;;
                ret (join_pages ocr_block 1 pages)) ;;
  match r with
  | Return text => ret text
  | Raise e => ret (py "OCR failed: " ++ exn_str e)
  end.

Definition get_pdf_text (pdf_path : string) : M str :=
  pdf_bytes <- read_bytes pdf_path ;;
  let pdf_hash := SHA256.hexdigest pdf_bytes in
  let cache_file := (pdf_hash +:+ ".txt")%string in
  hit <- cache_exists cache_file ;;
  if hit then read_text cache_file
  else
    r <- attempt (pages <- plumber_open cap pdf_path ;;
                  ret (join_pages page_block 1 pages)) ;;
    text <- match r with
            | Return text => ret text
            | Raise _ => extract_text_with_ocr pdf_path
            end ;;
    write_text cache_file text ;;;
    ret text.

Definition chunk_prompt (i : nat) (chunk : str) : str :=
  [NL] ++
  py "Extract structured data from this textbook text as JSON array only." ++
  [NL] ++
  py "Each object must contain:" ++ [NL] ++
  py "- chapter" ++ [NL] ++
  py "- title" ++ [NL] ++
  py "- topic" ++ [NL] ++
  py "- description" ++ [NL] ++
  py "NO extra commentary, NO markdown. Only JSON array." ++ [NL] ++
  [NL] ++
  py "Chunk " ++ str_of_nat i ++ py ":" ++ [NL] ++
  chunk ++ [NL].

(** The loop [for i, chunk in enumerate(chunks, 1)] with the list
    [all_results] that it fills. *)
Fixpoint chunk_loop (i : nat) (chunks : list str) (all_results : list json)
  : M (list json) :=
  match chunks with
  | [] => ret all_results
  | chunk :: rest =>
      text_output <- generate cap (chunk_prompt i chunk) ;;
      data <- lift (safe_json_loads json_loads text_output) ;;
      if truthy data then
        all_results <- lift (extend all_results data) ;;
        chunk_loop (S i) rest all_results
      else chunk_loop (S i) rest all_results
  end.

(** [file] is [request.files["file"]] read to the end, [None] when the
    request has no such part. *)
Definition extract_pdf_data (file : option bytes) : M response :=
  handle_errors
    match file with
    | None => ret (error_response (py "Missing file") 400)
    | Some pdf_bytes =>
        let pdf_path := pdf_cache_file pdf_bytes in
        write_bytes pdf_path pdf_bytes ;;;
        let cache_json_path := json_cache_file pdf_bytes in
        hit <- cache_exists cache_json_path ;;
        if hit then
          text <- read_text cache_json_path ;;
          cached <- lift (json_loads text) ;;
          ret (data_response (py "Loaded from cache") cached)
        else
          pdf_text <- get_pdf_text pdf_path ;;
          let chunks := chunk_text CHUNK_CHARS_V1 pdf_text in
          all_results <- chunk_loop 1 chunks [] ;;
          if negb (truthy (JArr all_results)) then
            ret (error_response (py "No valid structured data returned") 500)
          else
            write_text cache_json_path (py (json_dumps (JArr all_results))) ;;;
            ret (data_response (py "Extracted successfully")
                               (JArr all_results))
    end.
End WithCapabilities.
End V1.

(* ================================================================== *)
(** ** Chunked extraction: curriculum-mappin/v1/index2_backup.py        *)
(* ================================================================== *)

Module V1Backup.
Section WithCapabilities.
Variable cap : capabilities.
Variable json_loads : str -> result json.
Variable json_dumps : json -> string.

Definition ocr_block (i : nat) (extracted : str) : str :=
  [NL] ++ py "--- OCR Page " ++ str_of_nat i ++ py " ---" ++ [NL]
  ++ extracted ++ [NL].

Definition page_block (i : nat) (page : option str) : str :=
  [NL] ++ py "--- Page " ++ str_of_nat i ++ py " ---" ++ [NL]
  ++ or_empty page ++ [NL].

Definition extract_text_with_ocr (pdf_path : string) : M str :=
  r <- attempt (pages <- ocr_convert cap pdf_path ;;
                ret (join_pages ocr_block 1 pages)) ;;
  match r with
  | Return text => ret text
  | Raise e => ret (py "OCR failed: " ++ exn_str e)
  end.

Definition get_pdf_text (pdf_path : string) : M str :=
  pdf_bytes <- read_bytes pdf_path ;;
  let pdf_hash := SHA256.hexdigest pdf_bytes in
  let cache_file := (pdf_hash +:+ ".txt")%string in
  hit <- cache_exists cache_file ;;
  if hit then read_text cache_file
  else
    r <- attempt (pages <- plumber_open cap pdf_path ;;
                  ret (join_pages page_block 1 pages)) ;;
    text <- match r with
            | Return text => ret text
            | Raise _ => extract_text_with_ocr pdf_path
            end ;;
    write_text cache_file text ;;;
    ret text.

Definition chunk_prompt (idx : nat) (chunk : str) : str :=
  [NL] ++
  py "Extract structured educational data from the following text." ++
  [NL] ++
  py "Return ONLY JSON array of objects like:" ++ [NL] ++
  py "[" ++ [NL] ++
  py "  {" ++ [DQ] ++ py "title" ++ [DQ] ++ py ": " ++ [DQ] ++ py "..." ++
  [DQ] ++ py ", " ++ [DQ] ++ py "chapter" ++ [DQ] ++ py ": " ++ [DQ] ++
  py "..." ++ [DQ] ++ py ", " ++ [DQ] ++ py "topic" ++ [DQ] ++ py ": " ++
  [DQ] ++ py "..." ++ [DQ] ++ py ", " ++ [DQ] ++ py "description" ++ [DQ] ++
  py ": " ++ [DQ] ++ py "..." ++ [DQ] ++ py "}" ++ [NL] ++
  py "]" ++ [NL] ++
  py "Chunk " ++ str_of_nat idx ++ py ":" ++ [NL] ++
  chunk ++ [NL].

(** [re.sub(r"^```json|```$", "", text_output.strip()).strip()] *)
Definition clean_response (text_output : str) : str :=
  strip (sub_fences false (strip text_output)).

Fixpoint chunk_loop (idx : nat) (chunks : list str)
  (all_results : list json) : M (list json) :=
  match chunks with
  | [] => ret all_results
  | chunk :: rest =>
      text_output <- generate cap (chunk_prompt idx chunk) ;;
      let clean := clean_response text_output in
      match json_loads clean with
      | Return data =>
          if is_list data then
            all_results <- lift (extend all_results data) ;;
            chunk_loop (S idx) rest all_results
          else chunk_loop (S idx) rest all_results
      | Raise _ => chunk_loop (S idx) rest all_results
      end
  end.

Definition extract_pdf_data (file : option bytes) : M response :=
  handle_errors
    match file with
    | None => ret (error_response (py "Missing file") 400)
    | Some pdf_bytes =>
        let pdf_path := pdf_cache_file pdf_bytes in
        write_bytes pdf_path pdf_bytes ;;;
        let cache_json_path := json_cache_file pdf_bytes in
        hit <- cache_exists cache_json_path ;;
        if hit then
          text <- read_text cache_json_path ;;
          cached_data <- lift (json_loads text) ;;
          ret (data_response (py "Loaded from cache") cached_data)
        else
          pdf_text <- get_pdf_text pdf_path ;;
          let chunks := chunk_text MAX_CHARS pdf_text in
          all_results <- chunk_loop 1 chunks [] ;;
          if negb (truthy (JArr all_results)) then
            ret (error_response
                   (py "Gemini returned no valid structured data") 500)
          else
            write_text cache_json_path (py (json_dumps (JArr all_results))) ;;;
            ret (data_response (py "Extracted successfully")
                               (JArr all_results))
    end.

(** [pd.read_csv] of the uploaded reference file. *)
Variable read_csv : bytes -> result dataframe.

(** The column test of [map_extracted_data]:
    ["uuid" in c.lower() or "id" == c.lower()]. *)
Definition is_uuid_column (c : str) : bool :=
  contains (lower c) (py "uuid") || str_eqb (py "id") (lower c).

Definition map_prompt (csv_data : list json) (extracted_data : json) : str :=
  [NL] ++
  py "You are an intelligent data mapping assistant." ++ [NL] ++
  [NL] ++
  py "You are given two datasets:" ++ [NL] ++
  py "1. **Extracted Data** " ++ [0x2014%N] ++
  py " from a PDF (list of objects with title, description, etc.)" ++ [NL] ++
  py "2. **Reference Data** " ++ [0x2014%N] ++
  py " from a CSV (list of objects with a UUID column and other metadata)" ++
  [NL] ++
  py "    " ++ [NL] ++
  py "Your goal:" ++ [NL] ++
  py "- For each extracted object, find the **best matching reference record**." ++
  [NL] ++
  py "- Match primarily based on semantic meaning of title/description." ++
  [NL] ++
  py "- If no good match is found, set `matched_uuid` to null." ++ [NL] ++
  py "- Return **ONLY** a valid JSON list of objects, where each item includes:" ++
  [NL] ++
  py "  - All original extracted fields" ++ [NL] ++
  py "  - `matched_uuid`: the UUID from reference data (or null)" ++ [NL] ++
  py "  - `match_reason`: a short reason why it matched" ++ [NL] ++
  py "  - `match_confidence`: a number from 0" ++ [0x2013%N] ++
  py "100 estimating confidence" ++ [NL] ++
  [NL] ++
  py "Here is the reference dataset (shortened form):" ++ [NL] ++
  py (json_dumps (JArr (slice_rows csv_data 50))) ++
  py "  # limit to 50 rows to fit safely" ++ [NL] ++
  [NL] ++
  py "Now map the following extracted data:" ++ [NL] ++
  py (json_dumps extracted_data) ++ [NL].

(** [csv] is [request.files["csv"]] and [data] is
    [request.form["data"]], [None] when the request lacks them;
    [ref_uuid] is the value of [uuid.uuid4().hex] in this call. *)
Definition map_extracted_data (csv : option bytes) (data : option str)
  (ref_uuid : string) : M response :=
  handle_errors
    match csv, data with
    | Some ref_file, Some form_data =>
        let ref_path := ("ref_" +:+ ref_uuid +:+ ".csv")%string in
        write_bytes ref_path ref_file ;;;
        ref_df <- lift (read_csv ref_file) ;;
        let uuid_col := next_column is_uuid_column (columns ref_df) in
        if no_column uuid_col then
          ret (error_response (py "CSV must contain a UUID or ID column") 400)
        else
          extracted_data <- lift (json_loads form_data) ;;
          let csv_data := records ref_df in
          let prompt := map_prompt csv_data extracted_data in
          text_output <- generate cap prompt ;;
          let clean := clean_response text_output in
          match json_loads clean with
          | Return mapped_data =>
              ret (data_response (py "AI Mapping complete") mapped_data)
          | Raise _ =>
              ret (Response 500
                     (JObj [(py "error",
                             JStr (py "AI mapping failed, invalid JSON returned"));
                            (py "raw_output", JStr text_output)]))
          end
    | _, _ => ret (error_response (py "Missing CSV or extracted data") 400)
    end.
End WithCapabilities.
End V1Backup.

(* ================================================================== *)
(** ** Single-prompt extraction and mapping: curriculum-mappin/v3/app.py *)
(* ================================================================== *)

Module V3.
Section WithCapabilities.
Variable cap : capabilities.
Variable json_loads : str -> result json.
Variable json_dumps : json -> string.
Variable read_csv : bytes -> result dataframe.

(** f"\n--- Page {i} ---\n{extracted}\n" *)
Definition page_block (i : nat) (page : option str) : str :=
  [NL] ++ py "--- Page " ++ str_of_nat i ++ py " ---" ++ [NL]
  ++ or_empty page ++ [NL].

Definition get_pdf_text (pdf_path : string) : M str :=
  pages <- plumber_open cap pdf_path ;;
  ret (join_pages page_block 1 pages).

Definition extract_prompt (pdf_text : str) : str :=
  [NL] ++
  py "Extract structured educational data from this PDF text." ++ [NL] ++
  py "Return JSON list in this exact format:" ++ [NL] ++
  py "[{" ++ [DQ] ++ py "chapter" ++ [DQ] ++ py ": " ++ [DQ] ++ py "..." ++
  [DQ] ++ py ", " ++ [DQ] ++ py "title" ++ [DQ] ++ py ": " ++ [DQ] ++
  py "..." ++ [DQ] ++ py ", " ++ [DQ] ++ py "topic" ++ [DQ] ++ py ": " ++
  [DQ] ++ py "..." ++ [DQ] ++ py ", " ++ [DQ] ++ py "description" ++ [DQ] ++
  py ": " ++ [DQ] ++ py "..." ++ [DQ] ++ py "}]" ++ [NL] ++
  [NL] ++
  py "Text:" ++ [NL] ++
  slice_to pdf_text (180 * 1000) ++ [NL].

(** [re.sub(r"^```json|```$", "", text_output.strip()).strip()] *)
Definition clean_response (text_output : str) : str :=
  strip (sub_fences false (strip text_output)).

(** The record that stands for a response that does not parse. *)
Definition parsing_error_data : json :=
  JArr [JObj [(py "chapter", JStr (py "-")); (py "title", JStr (py "-"));
              (py "topic", JStr (py "-"));
              (py "description", JStr (py "Parsing error"))]].

Definition extract_pdf_data (file : option bytes) : M response :=
  handle_errors
    match file with
    | None => ret (error_response (py "Missing file") 400)
    | Some pdf_bytes =>
        let pdf_hash := SHA256.hexdigest pdf_bytes in
        let pdf_path := pdf_cache_file pdf_bytes in
        write_bytes pdf_path pdf_bytes ;;;
        let cache_json_path := json_cache_file pdf_bytes in
        hit <- cache_exists cache_json_path ;;
        if hit then
          text <- read_text cache_json_path ;;
          cached <- lift (json_loads text) ;;
          ret (Response 200
                 (JObj [(py "message", JStr (py "Loaded from cache"));
                        (py "hash", JStr (py pdf_hash));
                        (py "data", cached)]))
        else
          pdf_text <- get_pdf_text pdf_path ;;
          text_output <- generate cap (extract_prompt pdf_text) ;;
          let clean := clean_response text_output in
          let data := match json_loads clean with
                      | Return data => data
                      | Raise _ => parsing_error_data
                      end in
          write_text cache_json_path (py (json_dumps data)) ;;;
          ret (Response 200
                 (JObj [(py "message", JStr (py "Extracted successfully"));
                        (py "hash", JStr (py pdf_hash));
                        (py "data", data)]))
    end.

(** The column test of [map_extracted]:
    ["uuid" in c.lower() or "id" in c.lower()]. *)
Definition is_uuid_column (c : str) : bool :=
  contains (lower c) (py "uuid") || contains (lower c) (py "id").

Definition map_prompt (csv_data : list json) (extracted_data : json) : str :=
  [NL] ++
  py "You are analyzing extracted PDF data and a CSV reference file." ++
  [NL] ++
  [NL] ++
  py "Task:" ++ [NL] ++
  py "1. Match extracted PDF topics with CSV topics based on meaning and similarity." ++
  [NL] ++
  py "2. For each extracted item, output:" ++ [NL] ++
  py "   - " ++ [DQ] ++ py "chapter" ++ [DQ] ++ [NL] ++
  py "   - " ++ [DQ] ++ py "title" ++ [DQ] ++ [NL] ++
  py "   - " ++ [DQ] ++ py "topic" ++ [DQ] ++ [NL] ++
  py "   - " ++ [DQ] ++ py "description" ++ [DQ] ++ [NL] ++
  py "   - " ++ [DQ] ++ py "matched_uuid" ++ [DQ] ++
  py " (UUID from CSV or null)" ++ [NL] ++
  py "   - " ++ [DQ] ++ py "confidence_score" ++ [DQ] ++
  py " (as percentage how well it matched)" ++ [NL] ++
  py "   - " ++ [DQ] ++ py "why_it_lesser" ++ [DQ] ++
  py " (list topics or points missing from the CSV side)" ++ [NL] ++
  py "3. Add at the end ONE extra row (key: " ++ [DQ] ++ py "pdf_summary" ++
  [DQ] ++ py ") that contains a **very short summary** (1" ++ [0x2013%N] ++
  py "2 sentences) of what this PDF is about." ++ [NL] ++
  [NL] ++
  py "Return JSON list in this format:" ++ [NL] ++
  py "[" ++ [NL] ++
  py "  {" ++ [NL] ++
  py "    " ++ [DQ] ++ py "chapter" ++ [DQ] ++ py ": " ++ [DQ] ++ py "..." ++
  [DQ] ++ py "," ++ [NL] ++
  py "    " ++ [DQ] ++ py "title" ++ [DQ] ++ py ": " ++ [DQ] ++ py "..." ++
  [DQ] ++ py "," ++ [NL] ++
  py "    " ++ [DQ] ++ py "topic" ++ [DQ] ++ py ": " ++ [DQ] ++ py "..." ++
  [DQ] ++ py "," ++ [NL] ++
  py "    " ++ [DQ] ++ py "description" ++ [DQ] ++ py ": " ++ [DQ] ++
  py "..." ++ [DQ] ++ py "," ++ [NL] ++
  py "    " ++ [DQ] ++ py "matched_uuid" ++ [DQ] ++ py ": " ++ [DQ] ++
  py "..." ++ [DQ] ++ py "," ++ [NL] ++
  py "    " ++ [DQ] ++ py "confidence_score" ++ [DQ] ++ py ": " ++ [DQ] ++
  py "85%" ++ [DQ] ++ py "," ++ [NL] ++
  py "    " ++ [DQ] ++ py "why_it_lesser" ++ [DQ] ++ py ": " ++ [DQ] ++
  py "missing topics: ..." ++ [DQ] ++ py "," ++ [NL] ++
  py "    " ++ [DQ] ++ py "pdf_summary" ++ [DQ] ++ py ": null" ++ [NL] ++
  py "  }," ++ [NL] ++
  py "  {" ++ [NL] ++
  py "    " ++ [DQ] ++ py "pdf_summary" ++ [DQ] ++ py ": " ++ [DQ] ++
  py "This PDF explains thermodynamics laws briefly..." ++ [DQ] ++ [NL] ++
  py "  }" ++ [NL] ++
  py "]" ++ [NL] ++
  [NL] ++
  py "Reference CSV (truncated to 50 rows):" ++ [NL] ++
  py (json_dumps (JArr (slice_rows csv_data 50))) ++ [NL] ++
  [NL] ++
  py "Extracted PDF data:" ++ [NL] ++
  py (json_dumps extracted_data) ++ [NL].

(** [csv] is [request.files["csv"]] and [hash] is
    [request.form["hash"]], [None] when the request lacks them;
    [ref_uuid] is the value of [uuid.uuid4().hex] in this call.

    The cache file is looked up by its name [hash + ".json"]. That is
    the file that [CACHE_DIR / f"{pdf_hash}.json"] names when [hash] is
    a plain file name, as the hex digests are that [extract_pdf_data]
    returns. A hash with a path separator in it, or one too long for a
    file name, goes through the file system in the source and is not
    covered: what is proved about this handler is proved for hex
    digests. *)
Definition map_extracted (csv : option bytes) (hash : option string)
  (ref_uuid : string) : M response :=
  handle_errors
    match csv, hash with
    | Some ref_file, Some pdf_hash =>
        let cache_json_path := (pdf_hash +:+ ".json")%string in
        found <- cache_exists cache_json_path ;;
        if negb found then
          ret (error_response (py "Extracted data not found") 404)
        else
          text <- read_text cache_json_path ;;
          extracted_data <- lift (json_loads text) ;;
          let ref_path := ("ref_" +:+ ref_uuid +:+ ".csv")%string in
          write_bytes ref_path ref_file ;;;
          ref_df <- lift (read_csv ref_file) ;;
          let uuid_col := next_column is_uuid_column (columns ref_df) in
          if no_column uuid_col then
            ret (error_response (py "CSV must contain a UUID column") 400)
          else
            let csv_data := records ref_df in
            let prompt := map_prompt csv_data extracted_data in
            text_output <- generate cap prompt ;;
            let clean := clean_response text_output in
            mapped_data <- lift (json_loads clean) ;;
            ret (data_response (py "Mapping complete") mapped_data)
    | _, _ => ret (error_response (py "Missing file or hash") 400)
    end.
End WithCapabilities.
End V3.

(* ================================================================== *)
(** ** Single-prompt extraction: curriculum-mappin/v2/index_v2.py       *)
(* ================================================================== *)

Module V2.
Section WithCapabilities.
Variable cap : capabilities.
Variable json_loads : str -> result json.

(** [text += page.extract_text() or ""] *)
Definition get_pdf_text (pdf_path : string) : M str :=
  pages <- plumber_open cap pdf_path ;;
  ret (join_pages (fun _ page => or_empty page) 1 pages).

Definition extract_prompt (pdf_text : str) : str :=
  [NL] ++
  py "Extract structured educational data from this PDF text." ++ [NL] ++
  py "Return only a JSON array of objects with keys:" ++ [NL] ++
  py "[" ++ [DQ] ++ py "title" ++ [DQ] ++ py ", " ++ [DQ] ++ py "chapter" ++
  [DQ] ++ py ", " ++ [DQ] ++ py "topic" ++ [DQ] ++ py ", " ++ [DQ] ++
  py "description" ++ [DQ] ++ py "]" ++ [NL] ++
  [NL] ++
  py "PDF Content:" ++ [NL] ++
  slice_to pdf_text (15 * 1000) ++ [NL].

(** [re.sub(r"^```json|```$", "", result_text.strip(),
    flags=re.MULTILINE).strip()] *)
Definition clean_response (result_text : str) : str :=
  strip (sub_fences true (strip result_text)).

(** [[{"title": "Parsing Error", "chapter": "N/A", "topic": "N/A",
    "description": description}]] *)
Definition parsing_error_data (description : str) : json :=
  JArr [JObj [(py "title", JStr (py "Parsing Error"));
              (py "chapter", JStr (py "N/A"));
              (py "topic", JStr (py "N/A"));
              (py "description", JStr description)]].

(** [file] is [request.files["file"]]; [upload_uuid] is the value of
    [uuid.uuid4().hex] in this call. *)
Definition extract_pdf_data (file : option bytes) (upload_uuid : string)
  : M response :=
  handle_errors
    match file with
    | None => ret (error_response (py "No PDF file uploaded") 400)
    | Some pdf_bytes =>
        let pdf_path := (upload_uuid +:+ ".pdf")%string in
        write_bytes pdf_path pdf_bytes ;;;
        pdf_text <- get_pdf_text pdf_path ;;
        if negb (truthy (JStr (strip pdf_text))) then
          ret (error_response (py "PDF has no readable text") 400)
        else
          result_text <- generate cap (extract_prompt pdf_text) ;;
          let clean := clean_response result_text in
          let data :=
            match json_loads clean with
            | Return data =>
                if negb (is_list data) then parsing_error_data clean
                else data
            | Raise _ =>
                parsing_error_data
                  (if truthy (JStr clean) then clean else py "No data")
            end in
          ret (Response 200 (JObj [(py "data", data)]))
    end.
End WithCapabilities.
End V2.


(* ================================================================== *)
(** ** Jobs: what the model answers, chunk by chunk                     *)
(* ================================================================== *)

(** The outcomes of the generation calls of a chunk loop that starts
    with chunk number [idx] when the model has been called [n] times. *)
Fixpoint generation_outcomes (cap : capabilities)
  (prompt : nat -> str -> str) (n idx : nat) (chunks : list str)
  : list (result str) :=
  match chunks with
  | [] => []
  | chunk :: rest =>
      generate_content cap n (prompt idx chunk)
      :: generation_outcomes cap prompt (S n) (S idx) rest
  end.

(** The records that index2_backup.py takes from one response: the items
    of the array that it parses to, none when it does not parse or
    parses to something else. *)
Definition backup_chunk_records (json_loads : str -> result json)
  (text_output : str) : list json :=
  match json_loads (V1Backup.clean_response text_output) with
  | Return (JArr items) => items
  | _ => []
  end.

(** The records that index2.py is meant to take from one response. *)
Definition v1_chunk_records (json_loads : str -> result json)
  (text_output : str) : list json :=
  match safe_json_loads json_loads text_output with
  | Return (JArr items) => items
  | _ => []
  end.

(** The responses that the loop of index2.py merges as C9 says: those
    that the normalizer turns into an array or into a falsy value
    ([None], [0], an empty string or object). *)
Definition array_or_falsy (json_loads : str -> result json)
  (text_output : str) : Prop :=
  exists v, safe_json_loads json_loads text_output = Return v
            /\ (is_list v = true \/ truthy v = false).

Module JobExamples.
(** One page of 180000 letters: with its header the text has 180015
    characters, two chunks in index2.py and in index2_backup.py. *)
Definition long_page : str := repeat 0x61%N (180 * 1000).

Definition records_response : str :=
  py "[{" ++ [DQ] ++ py "title" ++ [DQ] ++ py ": " ++ [DQ] ++ py "Heat"
  ++ [DQ] ++ py "}]".

Definition heat_record : json := JObj [(py "title", JStr (py "Heat"))].

(** The model answers the first call with an array of one record and
    every later call with the number 5. *)
Definition cap_scalar : capabilities :=
  Capabilities (fun _ _ => Return [Some long_page])
               Examples.no_ocr
               (fun n _ => match n with
                           | O => Return records_response
                           | S _ => Return (py "5")
                           end).

(** [json.loads] on the two texts it is given in these examples; it
    raises on every other text. *)
Definition json_loads_table (s : str) : result json :=
  if bool_decide (s = records_response) then Return (JArr [heat_record])
  else if bool_decide (s = py "5") then Return (JInt 5)
  else Raise (ValueError (py "Expecting value")).

Definition json_dumps_stub (x : json) : string := "[...]"%string.

Definition upload : bytes := Examples.doc_bytes.
Definition empty_world : world := World ∅ ∅ 0 0 0.
End JobExamples.

Module BoundExamples.
(** Two documents whose text layers agree on 180000 letters and end
    differently. *)
Definition cap_ending_one : capabilities :=
  Capabilities
    (fun _ _ => Return [Some (JobExamples.long_page ++ py " Chapter 9: Optics")])
    Examples.no_ocr
    (fun _ _ => Return JobExamples.records_response).

Definition cap_ending_two : capabilities :=
  Capabilities
    (fun _ _ => Return [Some (JobExamples.long_page ++ py " Chapter 9: Sound")])
    Examples.no_ocr
    (fun _ _ => Return JobExamples.records_response).
End BoundExamples.


Module MapExamples.
(** A reference file whose columns are [video] and [title]: no column
    name has "uuid" in it and none is "id". *)
Definition video_csv : bytes :=
  [0x76; 0x69; 0x64; 0x65; 0x6F; 0x2C; 0x74; 0x69; 0x74; 0x6C; 0x65; 0x0A;
   0x76; 0x31; 0x2C; 0x48; 0x65; 0x61; 0x74; 0x0A]%N.

Definition video_frame : dataframe :=
  DataFrame [py "video"; py "title"]
            [JObj [(py "video", JStr (py "v1")); (py "title", JStr (py "Heat"))]].

(** A reference file whose identifier column is named [id]. *)
Definition id_csv : bytes :=
  [0x69; 0x64; 0x2C; 0x74; 0x69; 0x74; 0x6C; 0x65; 0x0A;
   0x37; 0x2C; 0x48; 0x65; 0x61; 0x74; 0x0A]%N.

Definition id_frame : dataframe :=
  DataFrame [py "id"; py "title"]
            [JObj [(py "id", JInt 7); (py "title", JStr (py "Heat"))]].

Definition read_csv_table (b : bytes) : result dataframe :=
  if bool_decide (b = video_csv) then Return video_frame
  else if bool_decide (b = id_csv) then Return id_frame
  else Raise (ValueError (py "No columns to parse from file")).

(** The model answers every prompt with an array of one record. *)
Definition cap_records : capabilities :=
  Capabilities (fun _ _ => Return [Some Examples.page_plain]) Examples.no_ocr
               (fun _ _ => Return JobExamples.records_response).

(** The extraction of a document is in the cache under this hash. *)
Definition pdf_hash : string := "5f2b9c"%string.

Definition extracted_world : world :=
  World ∅ {[ (pdf_hash +:+ ".json")%string := JobExamples.records_response ]}
        0 0 0.
End MapExamples.

Module CacheExamples.
(** [json.dumps] and [json.loads] on the one array of these examples:
    the array is written as the text of [JobExamples.records_response]
    and that text is read back as the array. *)
Definition json_dumps_records (x : json) : string :=
  string_of_list_ascii (List.map ascii_of_N JobExamples.records_response).

(** One page; the model answers every prompt with the array. *)
Definition cap_records : capabilities :=
  Capabilities (fun _ _ => Return [Some Examples.page_plain]) Examples.no_ocr
               (fun _ _ => Return JobExamples.records_response).

(** A document without pages. *)
Definition cap_no_pages : capabilities :=
  Capabilities (fun _ _ => Return []) Examples.no_ocr
               (fun _ _ => Return JobExamples.records_response).
End CacheExamples.

Module AnswerExamples.
(** The model answers every prompt with a sentence, which is no JSON. *)
Definition prose_response : str := py "Sorry, I cannot read this document.".

Definition cap_prose : capabilities :=
  Capabilities (fun _ _ => Return [Some Examples.page_plain]) Examples.no_ocr
               (fun _ _ => Return prose_response).
End AnswerExamples.

(* ================================================================== *)
(** ** Python dicts and item assignment on JSON values                  *)
(* ================================================================== *)

(** The value of [key] in the fields of an object, if it has the key. *)
Fixpoint dict_get (fields : list (str * json)) (key : str) : option json :=
  match fields with
  | [] => None
  | (k, v) :: rest => if str_eqb k key then Some v else dict_get rest key
  end.

(** [d[key] = value] on the fields of [d]: a key that is there keeps its
    place, a new key goes to the end. *)
Fixpoint dict_set (fields : list (str * json)) (key : str) (value : json)
  : list (str * json) :=
  match fields with
  | [] => [(key, value)]
  | (k, v) :: rest =>
      if str_eqb k key then (k, value) :: rest
      else (k, v) :: dict_set rest key value
  end.

(** The fields of [d] after [d.pop(key)]. *)
Fixpoint dict_remove (fields : list (str * json)) (key : str)
  : list (str * json) :=
  match fields with
  | [] => []
  | (k, v) :: rest =>
      if str_eqb k key then rest else (k, v) :: dict_remove rest key
  end.

(** [item[key] = value] for a string [key] (the messages are those of
    CPython 3.11). Only a dict takes the assignment. *)
Definition setitem (item : json) (key : str) (value : json) : result json :=
  match item with
  | JObj fields => Return (JObj (dict_set fields key value))
  | JArr _ =>
      Raise (TypeError (py "list indices must be integers or slices, not str"))
  | _ =>
      Raise (TypeError ([0x27%N] ++ type_name item ++ [0x27%N]
                        ++ py " object does not support item assignment"))
  end.

(* ================================================================== *)
(** ** Item-by-item matching: [process_mapping] of v2/index_v2.py       *)
(* ================================================================== *)

Module V2Mapping.
Section WithCapabilities.
Variable cap : capabilities.
Variable json_loads : str -> result json.
(** [json.dumps(x, indent=2)] *)
Variable json_dumps : json -> string.
Variable read_csv : bytes -> result dataframe.

Definition item_prompt (csv_records : list json) (item : json) : str :=
  [NL] ++
  py "Match the following extracted item with one of these CSV entries." ++
  [NL] ++
  [NL] ++
  py "Item:" ++ [NL] ++
  py (json_dumps item) ++ [NL] ++
  [NL] ++
  py "CSV entries:" ++ [NL] ++
  py (json_dumps (JArr (slice_rows csv_records 40))) ++ [NL] ++
  [NL] ++
  py "Return only JSON:" ++ [NL] ++
  py "{ " ++ [DQ] ++ py "matched_uuid" ++ [DQ] ++ py ": " ++ [DQ] ++
  py "<uuid from CSV or null>" ++ [DQ] ++ py " }" ++ [NL].

(** [re.sub(r"^```json|```$", "", res_text.strip()).strip()] *)
Definition clean_response (res_text : str) : str :=
  strip (sub_fences false (strip res_text)).

(** [matched.get("matched_uuid", None)]: the value of the key, [None]
    when a dict lacks it; a value that is no dict has no [get], and the
    [AttributeError] is one of the exceptions that the [except:] of the
    loop takes, shown here by the outer [None]. *)
Definition get_matched_uuid (matched : json) : option json :=
  match matched with
  | JObj fields =>
      Some (match dict_get fields (py "matched_uuid") with
            | Some v => v
            | None => JNull
            end)
  | _ => None
  end.

(** The [try: ... except: item["uuid"] = None] of the loop: the item
    with its [uuid], or the exception of the second assignment. *)
Definition assign_uuid (item : json) (clean : str) : result json :=
  let tried :=
    match json_loads clean with
    | Return matched =>
        match get_matched_uuid matched with
        | Some v =>
            match setitem item (py "uuid") v with
            | Return item' => Some item'
            | Raise _ => None
            end
        | None => None
        end
    | Raise _ => None
    end in
  match tried with
  | Some item' => Return item'
  | None => setitem item (py "uuid") JNull
  end.

(** The loop [for item in pdf_data] with the list [results]. *)
Fixpoint mapping_loop (csv_records : list json) (items : list json)
  (results : list json) : M (list json) :=
  match items with
  | [] => ret results
  | item :: rest =>
      res_text <- generate cap (item_prompt csv_records item) ;;
      let clean := clean_response res_text in
      item <- lift (assign_uuid item clean) ;;
      mapping_loop csv_records rest (results ++ [item])
  end.

(** [pdf_data] is [request.form["pdf_data"]] and [csv_file] is
    [request.files["csv_file"]], [None] when the request lacks them. *)
Definition process_mapping (pdf_data : option str) (csv_file : option bytes)
  : M response :=
  handle_errors
    match pdf_data, csv_file with
    | Some form_data, Some csv =>
        pdf_data <- lift (json_loads form_data) ;;
        df_csv <- lift (read_csv csv) ;;
        let csv_records := records df_csv in
        items <- lift (iterate pdf_data) ;;
        results <- mapping_loop csv_records items [] ;;
        ret (Response 200 (JObj [(py "mapped_data", JArr results)]))
    | _, _ => ret (error_response (py "Missing data or CSV file") 400)
    end.
End WithCapabilities.
End V2Mapping.

(** The outcomes of the generation calls of a loop over [items] that
    begins when the model has been called [n] times. *)
Fixpoint item_outcomes (cap : capabilities) (prompt : json -> str) (n : nat)
  (items : list json) : list (result str) :=
  match items with
  | [] => []
  | item :: rest =>
      generate_content cap n (prompt item) :: item_outcomes cap prompt (S n) rest
  end.

(** The [uuid] that [process_mapping] gives an item for the answer
    [res_text]: the [matched_uuid] of the object that the cleaned answer
    parses to, [None] in every other case. *)
Definition answered_uuid (json_loads : str -> result json) (res_text : str)
  : json :=
  match json_loads (V2Mapping.clean_response res_text) with
  | Return (JObj fields) =>
      match dict_get fields (py "matched_uuid") with
      | Some v => v
      | None => JNull
      end
  | _ => JNull
  end.

Module MappingExamples.
(** The answer [{"matched_uuid": 7}] of the model. *)
Definition matched_response : str :=
  py "{" ++ [DQ] ++ py "matched_uuid" ++ [DQ] ++ py ": 7}".

(** [json.loads] on the texts of these examples. *)
Definition json_loads_table (s : str) : result json :=
  if bool_decide (s = matched_response)
  then Return (JObj [(py "matched_uuid", JInt 7)])
  else JobExamples.json_loads_table s.

(** A request whose second item is a number. *)
Definition mixed_items : str := py "[{}, 5]".

Definition json_loads_mixed (s : str) : result json :=
  if bool_decide (s = mixed_items) then Return (JArr [JObj []; JInt 5])
  else json_loads_table s.

(** The model answers every prompt with [matched_response]. *)
Definition cap_match : capabilities :=
  Capabilities (fun _ _ => Return [Some Examples.page_plain]) Examples.no_ocr
               (fun _ _ => Return matched_response).
End MappingExamples.

(* ================================================================== *)
(** ** Reconciliation without a gate: [map_extracted_data] of index2.py *)
(* ================================================================== *)

(** [AttributeError] and [KeyError]. A handler turns whatever is raised
    into [str(e)] and does not tell the classes apart; the two are held
    as [LibraryError] with their message ([str] of a [KeyError] is the
    [repr] of the key, which for the keys of the sources is the key in
    single quotes). *)
Definition AttributeError (msg : str) : exn := LibraryError msg.
Definition KeyError (key : str) : exn :=
  LibraryError ([0x27%N] ++ key ++ [0x27%N]).

(** [key in d] for a string [key] (the messages are those of CPython
    3.11): a key of a dict, a part of a string, an item of a list. *)
Definition contains_key (d : json) (key : str) : result bool :=
  match d with
  | JObj fields =>
      Return (match dict_get fields key with Some _ => true | None => false end)
  | JStr s => Return (contains s key)
  | JArr items =>
      Return (existsb (fun x => match x with
                                | JStr s => str_eqb s key
                                | _ => false
                                end) items)
  | _ =>
      Raise (TypeError (py "argument of type " ++ [0x27%N] ++ type_name d
                        ++ [0x27%N] ++ py " is not iterable"))
  end.

(** [d.pop(key)] for a string [key]: the value, and [d] afterwards. *)
Definition pop_key (d : json) (key : str) : result (json * json) :=
  match d with
  | JObj fields =>
      match dict_get fields key with
      | Some v => Return (v, JObj (dict_remove fields key))
      | None => Raise (KeyError key)
      end
  | JArr _ =>
      Raise (TypeError
               ([0x27%N] ++ py "str" ++ [0x27%N]
                ++ py " object cannot be interpreted as an integer"))
  | _ =>
      Raise (AttributeError
               ([0x27%N] ++ type_name d ++ [0x27%N]
                ++ py " object has no attribute " ++ [0x27%N] ++ py "pop"
                ++ [0x27%N]))
  end.

(** [x[:n]] on a JSON value (CPython 3.11 messages). *)
Definition slice_value (x : json) (n : nat) : result json :=
  match x with
  | JArr items => Return (JArr (firstn n items))
  | JStr s => Return (JStr (firstn n s))
  | JObj _ =>
      Raise (TypeError (py "unhashable type: " ++ [0x27%N] ++ py "slice"
                        ++ [0x27%N]))
  | _ =>
      Raise (TypeError ([0x27%N] ++ type_name x ++ [0x27%N]
                        ++ py " object is not subscriptable"))
  end.

Module V1Mapping.
Section WithCapabilities.
Variable cap : capabilities.
Variable json_loads : str -> result json.
(** [json.dumps(x, indent=2)] *)
Variable json_dumps : json -> string.
Variable read_csv : bytes -> result dataframe.

Definition map_prompt (csv_data : list json) (shown_data : json) : str :=
  [NL] ++
  py "Map the following PDF-extracted data with this CSV dataset by meaning." ++
  [NL] ++
  [NL] ++
  py "Return JSON list where each object includes:" ++ [NL] ++
  py "- all fields from extracted data" ++ [NL] ++
  py "- matched_uuid (UUID from CSV if found)" ++ [NL] ++
  py "- match_confidence (0" ++ [0x2013%N] ++ py "100)" ++ [NL] ++
  py "- match_reason (why it matched)" ++ [NL] ++
  py "- why_lesser (missing concepts)" ++ [NL] ++
  py "- pdf_summary (only once, summarizing PDF in 2" ++ [0x2013%N] ++
  py "3 sentences at the end)" ++ [NL] ++
  [NL] ++
  py "Reference CSV (trimmed):" ++ [NL] ++
  py (json_dumps (JArr (slice_rows csv_data 40))) ++ [NL] ++
  [NL] ++
  py "Extracted data:" ++ [NL] ++
  py (json_dumps shown_data) ++ [NL].

(** [key in d and "pdf_summary" not in d]; [and] evaluates its second
    operand only when the first is true. *)
Definition wants_rename (d : json) (key : str) : result bool :=
  match contains_key d key with
  | Return true =>
      match contains_key d (py "pdf_summary") with
      | Return has => Return (negb has)
      | Raise e => Raise e
      end
  | Return false => Return false
  | Raise e => Raise e
  end.

(** [d["pdf_summary"] = d.pop(key)]: the right-hand side first. *)
Definition move_to_pdf_summary (d : json) (key : str) : result json :=
  match pop_key d key with
  | Return (v, d') => setitem d' (py "pdf_summary") v
  | Raise e => Raise e
  end.

(** The body of the loop [for d in mapped_data]. *)
Definition rename_summary (d : json) : result json :=
  match wants_rename d (py "summary") with
  | Return true => move_to_pdf_summary d (py "summary")
  | Return false =>
      match wants_rename d (py "overview") with
      | Return true => move_to_pdf_summary d (py "overview")
      | Return false => Return d
      | Raise e => Raise e
      end
  | Raise e => Raise e
  end.

(** The loop over what [mapped_data] yields, up to the first exception. *)
Fixpoint rename_each (items : list json) : result (list json) :=
  match items with
  | [] => Return []
  | d :: rest =>
      match rename_summary d with
      | Return d' =>
          match rename_each rest with
          | Return rest' => Return (d' :: rest')
          | Raise e => Raise e
          end
      | Raise e => Raise e
      end
  end.

(** [mapped_data] after the loop. The dicts of a list are changed in
    place; the keys of a dict and the characters of a string are
    strings, which the loop leaves alone or fails on. *)
Definition rename_all (mapped_data : json) : result json :=
  match iterate mapped_data with
  | Return items =>
      match rename_each items with
      | Return items' =>
          Return match mapped_data with
                 | JArr _ => JArr items'
                 | _ => mapped_data
                 end
      | Raise e => Raise e
      end
  | Raise e => Raise e
  end.

(** [csv] is [request.files["csv"]] and [data] is [request.form["data"]],
    [None] when the request lacks them; [ref_uuid] is the value of
    [uuid.uuid4().hex] in this call. *)
Definition map_extracted_data (csv : option bytes) (data : option str)
  (ref_uuid : string) : M response :=
  handle_errors
    match csv, data with
    | Some csv_file, Some form_data =>
        let ref_path := ("ref_" +:+ ref_uuid +:+ ".csv")%string in
        write_bytes ref_path csv_file ;;;
        ref_df <- lift (read_csv csv_file) ;;
        extracted_data <- lift (json_loads form_data) ;;
        let csv_data := records ref_df in
        shown_data <- lift (slice_value extracted_data 60) ;;
        let prompt := map_prompt csv_data shown_data in
        text_output <- generate cap prompt ;;
        mapped_data <- lift (safe_json_loads json_loads text_output) ;;
        if negb (truthy mapped_data) then
          ret (Response 500
                 (JObj [(py "error",
                         JStr (py "AI mapping failed, invalid JSON returned"));
                        (py "raw_output", JStr text_output)]))
        else
          mapped_data <- lift (rename_all mapped_data) ;;
          ret (data_response (py "AI Mapping complete") mapped_data)
    | _, _ => ret (error_response (py "Missing CSV or extracted data") 400)
    end.
End WithCapabilities.
End V1Mapping.

(** What the loop of [map_extracted_data] (index2.py) does to a record
    with the fields [fields]: a record that has a [pdf_summary], or
    neither a [summary] nor an [overview], stays as it is; otherwise the
    value of [summary], or else of [overview], is found under
    [pdf_summary] and no longer under its old key. The number of fields
    and all other keys stay. *)
Definition summary_moved (fields fields' : list (str * json)) : Prop :=
  length fields' = length fields
  /\ (forall key, key <> py "summary" -> key <> py "overview" ->
        key <> py "pdf_summary" -> dict_get fields' key = dict_get fields key)
  /\ match dict_get fields (py "pdf_summary"),
           dict_get fields (py "summary"),
           dict_get fields (py "overview") with
     | Some _, _, _ => fields' = fields
     | None, Some v, overview =>
         dict_get fields' (py "pdf_summary") = Some v
         /\ dict_get fields' (py "summary") = None
         /\ dict_get fields' (py "overview") = overview
     | None, None, Some v =>
         dict_get fields' (py "pdf_summary") = Some v
         /\ dict_get fields' (py "summary") = None
         /\ dict_get fields' (py "overview") = None
     | None, None, None => fields' = fields
     end.

Module RenameExamples.
(** The answer [[{"title": "Heat", "summary": "On heat."}]] of the
    model, as it is and as [json.loads] reads it. *)
Definition summary_response : str :=
  py "[{" ++ [DQ] ++ py "title" ++ [DQ] ++ py ": " ++ [DQ] ++ py "Heat"
  ++ [DQ] ++ py ", " ++ [DQ] ++ py "summary" ++ [DQ] ++ py ": " ++ [DQ]
  ++ py "On heat." ++ [DQ] ++ py "}]".

Definition summary_record : list (str * json) :=
  [(py "title", JStr (py "Heat")); (py "summary", JStr (py "On heat."))].

Definition json_loads_table (s : str) : result json :=
  if bool_decide (s = summary_response) then Return (JArr [JObj summary_record])
  else JobExamples.json_loads_table s.

Definition cap_summary : capabilities :=
  Capabilities (fun _ _ => Return [Some Examples.page_plain]) Examples.no_ocr
               (fun _ _ => Return summary_response).
End RenameExamples.

(* ================================================================== *)
(** ** File names in index.py: upload, saved CSV and download           *)
(* ================================================================== *)

(** The class [[a-zA-Z0-9_.-]]. *)
Definition is_filename_char (c : char) : bool :=
  is_ascii_alnum c || (c =? 0x5F)%N || (c =? 0x2E)%N || (c =? 0x2D)%N.

(** [re.sub(r'[^a-zA-Z0-9_.-]', '_', file.filename)] of [process_pdf]. *)
Definition safe_filename (filename : str) : str :=
  List.map (fun c => if is_filename_char c then c else 0x5F%N) filename.

(** The test of [download_file]:
    [".." in filename or filename.startswith("/")]. *)
Definition download_refused (filename : str) : bool :=
  contains filename (py "..") || startswith filename (py "/").

Section SaveCsv.
(** Outside ASCII, [str.isalnum] and [str.lower] are those of the Unicode
    tables of the interpreter. *)
Variable unicode_alnum : char -> bool.
Variable unicode_lower : str -> str.

(** The class [\w] of [re] on a [str] pattern: what [isalnum] accepts,
    and the underscore. *)
Definition is_word (c : char) : bool :=
  if (c <? 0x80)%N then is_ascii_alnum c || (c =? 0x5F)%N
  else unicode_alnum c.

(** [s.lower()]: in an ASCII text, [A-Z] become [a-z] and nothing else
    changes. *)
Definition str_lower (s : str) : str :=
  if forallb (fun c => (c <? 0x80)%N) s
  then List.map (fun c => if ((0x41 <=? c) && (c <=? 0x5A))%N
                          then (c + 32)%N else c) s
  else unicode_lower s.

(** [re.sub(r"[^\w\s-]", "", user_prompt).strip().lower().replace(" ", "_")]
    of [save_csv_file] (index.py, test.py). *)
Definition safe_prompt (user_prompt : str) : str :=
  replace_char 0x20%N (py "_")
    (str_lower
       (strip (List.filter (fun c => is_word c || is_space c || (c =? 0x2D)%N)
                           user_prompt))).

(** [f"{base_name}_{safe_prompt[:30]}.csv"], where [base_name] is
    [pdf_path.stem]. *)
Definition csv_filename (base_name user_prompt : str) : str :=
  base_name ++ py "_" ++ slice_to (safe_prompt user_prompt) 30 ++ py ".csv".
End SaveCsv.

(** The characters that the request leaves in the name of a saved CSV
    when the request is ASCII: lower-case letters, digits, [_], [-] and
    white space other than the space. *)
Definition is_saved_name_char (c : char) : bool :=
  ((0x61 <=? c) && (c <=? 0x7A))%N || is_ascii_digit c
  || (c =? 0x5F)%N || (c =? 0x2D)%N || (is_space c && negb (c =? 0x20)%N).

(* ================================================================== *)
(** * Properties                                                        *)
(* ================================================================== *)

(** ** Chunk coverage *)

Lemma ceil_div_0 (M : nat) : ceil_div 0 M = 0.
Proof.
  unfold ceil_div. destruct M as [|M]; [reflexivity|].
  apply Nat.div_small. lia.
Qed.

Lemma ceil_div_step (L M : nat) :
  0 < M -> 0 < L -> ceil_div L M = S (ceil_div (L - M) M).
Proof.
  intros HM HL. unfold ceil_div.
  destruct (Nat.le_gt_cases M L) as [Hle|Hgt].
  - replace (L + (M - 1)) with ((L - M + (M - 1)) + 1 * M) by lia.
    rewrite Nat.div_add by lia. lia.
  - replace (L - M) with 0 by lia. simpl.
    rewrite (Nat.div_small (M - 1) M) by lia.
    replace (L + (M - 1)) with ((L - 1) + 1 * M) by lia.
    rewrite Nat.div_add by lia.
    rewrite Nat.div_small by lia. reflexivity.
Qed.

Lemma ceil_div_bounds (L M : nat) :
  0 < M -> L <= ceil_div L M * M /\ ceil_div L M * M < L + M.
Proof.
  intros HM. unfold ceil_div.
  pose proof (Nat.div_mod_eq (L + (M - 1)) M) as E.
  pose proof (Nat.mod_upper_bound (L + (M - 1)) M ltac:(lia)) as B.
  nia.
Qed.

(** The chunks of a text, by the number of chunks still to cut. *)
Lemma chunks_shift (M : nat) (t : str) (n : nat) :
  List.map (fun i => slice t i (i + M)) (List.map (fun k => k * M) (seq 1 n))
  = List.map (fun i => slice (skipn M t) i (i + M))
      (List.map (fun k => k * M) (seq 0 n)).
Proof.
  rewrite <- seq_shift. rewrite !List.map_map.
  apply List.map_ext. intros k. unfold slice.
  replace (S k * M + M - S k * M) with (k * M + M - k * M) by lia.
  f_equal. rewrite skipn_skipn. f_equal. lia.
Qed.

Lemma chunk_text_unfold (M : nat) (t : str) :
  0 < M -> 0 < length t ->
  chunk_text M t = firstn M t :: chunk_text M (skipn M t).
Proof.
  intros HM HL. unfold chunk_text, py_range0.
  rewrite (ceil_div_step (length t) M HM HL).
  rewrite length_skipn.
  change (seq 0 (S (ceil_div (length t - M) M)))
    with (0 :: seq 1 (ceil_div (length t - M) M)).
  cbn [List.map]. f_equal.
  - unfold slice. simpl. f_equal. lia.
  - apply chunks_shift.
Qed.

Lemma chunk_text_nil (M : nat) : chunk_text M [] = [].
Proof. unfold chunk_text, py_range0. simpl. rewrite ceil_div_0. reflexivity. Qed.

Lemma chunk_text_ind (M : nat) (P : str -> list str -> Prop) :
  0 < M ->
  P [] [] ->
  (forall t, 0 < length t -> P (skipn M t) (chunk_text M (skipn M t)) ->
             P t (firstn M t :: chunk_text M (skipn M t))) ->
  forall t, P t (chunk_text M t).
Proof.
  intros HM Hnil Hcons t.
  remember (length t) as n eqn:Hn.
  revert t Hn. induction n as [n IH] using lt_wf_ind. intros t Hn.
  destruct t as [|c t'].
  - rewrite chunk_text_nil. exact Hnil.
  - rewrite chunk_text_unfold by (simpl; lia).
    apply Hcons; [simpl; lia|].
    apply (IH (length (skipn M (c :: t')))); [|reflexivity].
    rewrite length_skipn. simpl in *. lia.
Qed.

Lemma chunk_text_concat (M : nat) (t : str) :
  0 < M -> concat (chunk_text M t) = t.
Proof.
  intros HM. apply (chunk_text_ind M (fun t cs => concat cs = t) HM).
  - reflexivity.
  - intros t0 _ IH. simpl. rewrite IH. apply firstn_skipn.
Qed.

Lemma chunk_text_bounded (M : nat) (t : str) :
  0 < M -> Forall (fun c => length c <= M) (chunk_text M t).
Proof.
  intros HM.
  apply (chunk_text_ind M (fun _ cs => Forall (fun c => length c <= M) cs) HM).
  - constructor.
  - intros t0 _ IH. constructor; [|exact IH].
    rewrite length_firstn. lia.
Qed.

Lemma chunk_text_count (M : nat) (t : str) :
  length (chunk_text M t) = ceil_div (length t) M.
Proof. unfold chunk_text, py_range0. rewrite !length_map, length_seq. reflexivity. Qed.

(** C3. For every text [T] and every maximum size [M > 0], the chunking
    step yields exactly [ceil(len(T) / M)] chunks (the least [n] with
    [len(T) <= n * M]), every chunk has at most [M] characters, and the
    chunks concatenated in order are [T]: no overlap and no gap. *)
Theorem chunk_text_covers (M : nat) (T : str) :
  0 < M ->
  length (chunk_text M T) = ceil_div (length T) M
  /\ (length T <= ceil_div (length T) M * M
      /\ ceil_div (length T) M * M < length T + M)
  /\ Forall (fun c => length c <= M) (chunk_text M T)
  /\ concat (chunk_text M T) = T.
Proof.
  intros HM. repeat split.
  - apply chunk_text_count.
  - apply (ceil_div_bounds _ _ HM).
  - apply (ceil_div_bounds _ _ HM).
  - apply chunk_text_bounded, HM.
  - apply chunk_text_concat, HM.
Qed.

Lemma chunk_text_covers_witness :
  chunk_text 3 (py "abcdefgh") = [py "abc"; py "def"; py "gh"]
  /\ length (chunk_text 3 (py "abcdefgh")) = ceil_div 8 3
  /\ concat (chunk_text 3 (py "abcdefgh")) = py "abcdefgh".
Proof.
  split; [reflexivity|].
  pose proof (chunk_text_covers 3 (py "abcdefgh") ltac:(lia)) as H.
  split; [apply H | apply H].
Defined.

(** ** Quality gate *)

Ltac char_class :=
  repeat match goal with
  | H : _ && _ = true |- _ => apply andb_true_iff in H; destruct H
  | H : _ || _ = true |- _ => apply orb_true_iff in H; destruct H
  | H : negb _ = true |- _ => apply negb_true_iff in H
  | H : (_ <=? _)%N = true |- _ => apply N.leb_le in H
  | H : (_ =? _)%N = true |- _ => apply N.eqb_eq in H
  end.

Lemma punctuation_not_alnum_space (c : char) :
  is_punctuation c = true -> negb (is_ascii_alnum c || is_space c) = true.
Proof.
  unfold is_punctuation. intros H. char_class.
  apply negb_true_iff, orb_false_iff. split; [assumption|].
  unfold is_space.
  repeat (apply orb_false_iff; split);
    try (apply andb_false_iff);
    rewrite ?N.leb_gt, ?N.eqb_neq; lia.
Qed.

Lemma alpha_not_space (c : char) : is_ascii_alpha c = true -> is_space c = false.
Proof.
  unfold is_ascii_alpha. intros H. unfold is_space.
  char_class;
    repeat (apply orb_false_iff; split);
    try (apply andb_false_iff);
    rewrite ?N.leb_gt, ?N.eqb_neq; lia.
Qed.

Lemma filter_length_mono {A} (q r : A -> bool) (l : list A) :
  (forall x, q x = true -> r x = true) ->
  length (List.filter q l) <= length (List.filter r l).
Proof.
  intros Hqr. induction l as [|x l IH]; simpl; [lia|].
  destruct (q x) eqn:Hq.
  - rewrite (Hqr x Hq). simpl. lia.
  - destruct (r x); simpl; lia.
Qed.

Lemma filter_length_le {A} (q : A -> bool) (l : list A) :
  length (List.filter q l) <= length l.
Proof. induction l as [|x l IH]; simpl; [lia|]. destruct (q x); simpl; lia. Qed.

Lemma filter_rev {A} (q : A -> bool) (l : list A) :
  List.filter q (rev l) = rev (List.filter q l).
Proof.
  induction l as [|x l IH]; simpl; [reflexivity|].
  rewrite List.filter_app, IH. simpl.
  destruct (q x); simpl; [reflexivity | apply List.app_nil_r].
Qed.

Section Strip.
Variables (p q : char -> bool).
Hypothesis kept : forall c, q c = true -> p c = false.

Lemma lstrip_with_filter (s : str) :
  List.filter q (lstrip_with p s) = List.filter q s.
Proof.
  induction s as [|c s IH]; simpl; [reflexivity|].
  destruct (p c) eqn:Hp; [|reflexivity].
  rewrite IH. destruct (q c) eqn:Hq; [|reflexivity].
  rewrite (kept c Hq) in Hp. discriminate.
Qed.

Lemma strip_with_filter (s : str) :
  List.filter q (strip_with p s) = List.filter q s.
Proof.
  unfold strip_with, rstrip_with.
  rewrite filter_rev, lstrip_with_filter, <- filter_rev, rev_involutive.
  apply lstrip_with_filter.
Qed.

Lemma strip_with_keeps (s : str) :
  length (List.filter q s) <= length (strip_with p s).
Proof. rewrite <- strip_with_filter. apply filter_length_le. Qed.
End Strip.

Lemma lstrip_with_length (p : char -> bool) (s : str) :
  length (lstrip_with p s) <= length s.
Proof. induction s as [|c s IH]; simpl; [lia|]. destruct (p c); simpl; lia. Qed.

Lemma strip_with_length (p : char -> bool) (s : str) :
  length (strip_with p s) <= length s.
Proof.
  unfold strip_with, rstrip_with. rewrite length_rev.
  etransitivity; [apply lstrip_with_length|].
  rewrite length_rev. apply lstrip_with_length.
Qed.

Lemma strip_length (s : str) : length (strip s) <= length s.
Proof. apply strip_with_length. Qed.

Lemma filter_all {A} (q : A -> bool) (l : list A) :
  forallb q l = true -> List.filter q l = l.
Proof.
  induction l as [|x l IH]; simpl; [reflexivity|].
  intros H. apply andb_true_iff in H as [Hx Hl]. rewrite Hx, IH; auto.
Qed.

Lemma filter_none {A} (q r : A -> bool) (l : list A) :
  (forall x, q x = true -> r x = false) ->
  forallb q l = true -> List.filter r l = [].
Proof.
  intros Hqr. induction l as [|x l IH]; simpl; [reflexivity|].
  intros H. apply andb_true_iff in H as [Hx Hl].
  rewrite (Hqr x Hx). auto.
Qed.

(** The ratio test, without the division. *)
Lemma ratio_exceeds_half (text : str) :
  negb (Qle_bool (non_alpha_ratio text) (1 # 2)) = true
  <-> Nat.max (length text) 1 < 2 * count_non_alnum_space text.
Proof.
  unfold non_alpha_ratio, Qle_bool. cbn [Qnum Qden].
  rewrite negb_true_iff, Z.leb_gt.
  assert (E : Z.pos (Pos.of_nat (Nat.max (length text) 1))
              = Z.of_nat (Nat.max (length text) 1)).
  { rewrite <- positive_nat_Z. rewrite Nat2Pos.id by lia. reflexivity. }
  rewrite E. lia.
Qed.

Lemma ratio_exceeds_half_Q (text : str) :
  negb (Qle_bool (non_alpha_ratio text) (1 # 2)) = true
  <-> (1 # 2 < non_alpha_ratio text)%Q.
Proof.
  rewrite negb_true_iff. split.
  - intros H. apply Qnot_le_lt. intros Hle.
    apply Qle_bool_iff in Hle. congruence.
  - intros H. destruct (Qle_bool _ _) eqn:E; [|reflexivity].
    apply Qle_bool_iff in E. exfalso. exact (Qlt_not_le _ _ H E).
Qed.

(** C4. The gate rejects every text whose stripped length is below 50;
    every other text is rejected exactly when the characters outside
    [[a-zA-Z0-9]] and whitespace are more than half of its length. So a
    49-character string is rejected, 50 ASCII letters are accepted, and
    a 100-character string with 60 punctuation characters is rejected. *)
Theorem quality_gate_policy :
  (forall t : str, length (strip t) < 50 -> looks_like_bad_text t = true)
  /\ (forall t : str, 50 <= length (strip t) ->
        (looks_like_bad_text t = true
         <-> (1 # 2 < Z.of_nat (count_non_alnum_space t)
                      # Pos.of_nat (length t))%Q))
  /\ (forall t : str, length t = 49 -> looks_like_bad_text t = true)
  /\ (forall t : str, length t = 50 -> forallb is_ascii_alpha t = true ->
        looks_like_bad_text t = false)
  /\ (forall t : str, length t = 100 ->
        length (List.filter is_punctuation t) = 60 ->
        looks_like_bad_text t = true).
Proof.
  assert (Hshort : forall t : str,
             length (strip t) < 50 -> looks_like_bad_text t = true).
  { intros t H. unfold looks_like_bad_text.
    apply Nat.ltb_lt in H. rewrite H. reflexivity. }
  split; [exact Hshort|]. split; [|split; [|split]].
  - intros t Hlen. pose proof (strip_length t) as Hle.
    assert (Hmax : Nat.max (length t) 1 = length t) by lia.
    unfold looks_like_bad_text.
    apply Nat.ltb_ge in Hlen. rewrite Hlen.
    rewrite ratio_exceeds_half_Q. unfold non_alpha_ratio.
    rewrite Hmax. reflexivity.
  - intros t Ht. apply Hshort. pose proof (strip_length t). lia.
  - intros t Ht Halpha. unfold looks_like_bad_text.
    assert (Hs : length (strip t) = 50).
    { pose proof (strip_length t).
      pose proof (strip_with_keeps is_space is_ascii_alpha alpha_not_space t) as K.
      rewrite (filter_all _ _ Halpha) in K. unfold strip in *. lia. }
    rewrite Hs. simpl.
    apply not_true_iff_false. intros K. apply ratio_exceeds_half in K.
    unfold count_non_alnum_space in K.
    rewrite (filter_none is_ascii_alpha) in K; [simpl in K; lia| |exact Halpha].
    intros x Hx. unfold is_ascii_alnum. rewrite Hx. reflexivity.
  - intros t Ht Hp. unfold looks_like_bad_text.
    assert (Hs : 60 <= length (strip t)).
    { rewrite <- Hp. apply strip_with_keeps.
      intros c Hc. apply punctuation_not_alnum_space in Hc.
      apply negb_true_iff, orb_false_iff in Hc. apply Hc. }
    destruct (length (strip t) <? 50) eqn:E; [reflexivity|].
    apply ratio_exceeds_half. rewrite Ht.
    pose proof (filter_length_mono is_punctuation
                  (fun c => negb (is_ascii_alnum c || is_space c)) t
                  punctuation_not_alnum_space) as K.
    unfold count_non_alnum_space. rewrite Hp in K. simpl Nat.max. lia.
Qed.

Lemma quality_gate_policy_witness :
  looks_like_bad_text (repeat 0x61%N 49) = true
  /\ looks_like_bad_text (repeat 0x61%N 50) = false
  /\ looks_like_bad_text (repeat 0x21%N 60 ++ repeat 0x61%N 40) = true.
Proof.
  destruct quality_gate_policy as (_ & _ & H49 & H50 & H100).
  split; [apply H49; reflexivity|].
  split; [apply H50; reflexivity|].
  apply H100; reflexivity.
Defined.

(** ** Cache keys *)

Example sha256_abc :
  SHA256.hexdigest (List.map N_of_ascii (list_ascii_of_string "abc"))
  = "ba7816bf8f01cfea414140de5dae2223b00361a396177a9cb410ff61f20015ad"%string.
Proof. vm_compute. reflexivity. Qed.

Example sha256_empty :
  SHA256.hexdigest []
  = "e3b0c44298fc1c149afbf4c8996fb92427ae41e4649b934ca495991b7852b855"%string.
Proof. vm_compute. reflexivity. Qed.

Example sha256_two_blocks :
  SHA256.hexdigest (repeat 0x61%N 119)
  = "31eba51c313a5c08226adf18d4a359cfdfd8d2e816b13f4af952f7ea6584dcfb"%string.
Proof. vm_compute. reflexivity. Qed.

(** A request with two-, three- and four-byte characters:
    U+00E9 in the payload, U+20AC and U+1F600 in the instruction. *)
Example request_hash_unicode :
  request_hash [0x68; 0xE9; 0x6C; 0x6C; 0x6F; 0x20]%N [0x20AC; 0x20; 0x1F600]%N
  = Return "83643b4928cf4914ee6352fed94ef1d9cacb5a843c45544627c6593db3548d74"%string.
Proof. vm_compute. reflexivity. Qed.

(** UTF-8 is a prefix code: the first byte fixes the length, the bytes
    fix the code point. *)
Lemma utf8_char_spec (c : char) (b : bytes) :
  utf8_char c = Some b ->
  ((c < 0x80)%N /\ b = [c])
  \/ ((0x80 <= c < 0x800)%N /\ b = [0xC0 + c / 64; 0x80 + c mod 64]%N)
  \/ ((0x800 <= c < 0x10000)%N
      /\ b = [0xE0 + c / 4096; 0x80 + (c / 64) mod 64; 0x80 + c mod 64]%N)
  \/ ((0x10000 <= c < 0x110000)%N
      /\ b = [0xF0 + c / 262144; 0x80 + (c / 4096) mod 64;
              0x80 + (c / 64) mod 64; 0x80 + c mod 64]%N).
Proof.
  unfold utf8_char. intros E.
  destruct (N.ltb_spec c 0x80); [left; split; congruence|].
  destruct (N.ltb_spec c 0x800); [right; left; split; [lia|congruence]|].
  destruct (N.ltb_spec c 0x10000).
  { destruct (_ && _); [discriminate|].
    right; right; left; split; [lia|congruence]. }
  destruct (N.ltb_spec c 0x110000); [|discriminate].
  right; right; right; split; [lia|congruence].
Qed.

Lemma utf8_char_prefix_free (c1 c2 : char) (b1 b2 r1 r2 : bytes) :
  utf8_char c1 = Some b1 -> utf8_char c2 = Some b2 ->
  b1 ++ r1 = b2 ++ r2 -> c1 = c2 /\ r1 = r2.
Proof.
  intros E1 E2 E.
  apply utf8_char_spec in E1, E2.
  assert (D64 := N.div_mod' c1 64). assert (D64' := N.div_mod' c2 64).
  assert (M64 := N.mod_lt c1 64 ltac:(lia)).
  assert (M64' := N.mod_lt c2 64 ltac:(lia)).
  assert (D4k := N.div_mod' (c1 / 64) 64).
  assert (D4k' := N.div_mod' (c2 / 64) 64).
  assert (M4k := N.mod_lt (c1 / 64) 64 ltac:(lia)).
  assert (M4k' := N.mod_lt (c2 / 64) 64 ltac:(lia)).
  assert (Q4k : (c1 / 4096 = c1 / 64 / 64)%N)
    by (rewrite N.Div0.div_div; reflexivity).
  assert (Q4k' : (c2 / 4096 = c2 / 64 / 64)%N)
    by (rewrite N.Div0.div_div; reflexivity).
  assert (D256k := N.div_mod' (c1 / 4096) 64).
  assert (D256k' := N.div_mod' (c2 / 4096) 64).
  assert (M256k := N.mod_lt (c1 / 4096) 64 ltac:(lia)).
  assert (M256k' := N.mod_lt (c2 / 4096) 64 ltac:(lia)).
  assert (Q256k : (c1 / 262144 = c1 / 4096 / 64)%N)
    by (rewrite N.Div0.div_div; reflexivity).
  assert (Q256k' : (c2 / 262144 = c2 / 4096 / 64)%N)
    by (rewrite N.Div0.div_div; reflexivity).
  rewrite Q4k in *. rewrite Q4k' in *.
  rewrite Q256k in *. rewrite Q256k' in *.
  destruct E1 as [[B1 ->]|[[B1 ->]|[[B1 ->]|[B1 ->]]]];
  destruct E2 as [[B2 ->]|[[B2 ->]|[[B2 ->]|[B2 ->]]]];
  simpl in E;
  repeat match goal with
         | H : _ :: _ = _ :: _ |- _ => injection H as ? H
         end;
  first [ split; [lia | assumption] | exfalso; lia ].
Qed.

Lemma utf8_char_nonempty (c : char) (b : bytes) :
  utf8_char c = Some b -> b <> [].
Proof.
  intros E. apply utf8_char_spec in E.
  destruct E as [[_ ->]|[[_ ->]|[[_ ->]|[_ ->]]]]; discriminate.
Qed.

Lemma utf8_cons (c : char) (s : str) (b : bytes) :
  utf8 (c :: s) = Some b ->
  exists b1 bs, utf8_char c = Some b1 /\ utf8 s = Some bs /\ b = b1 ++ bs.
Proof.
  simpl. destruct (utf8_char c) as [b1|]; [|discriminate].
  destruct (utf8 s) as [bs|]; [|discriminate].
  intros [= <-]. eauto.
Qed.

(** Encoding is injective: two strings with the same UTF-8 bytes are the
    same string. *)
Lemma utf8_injective (s1 s2 : str) (b : bytes) :
  utf8 s1 = Some b -> utf8 s2 = Some b -> s1 = s2.
Proof.
  revert s2 b. induction s1 as [|c1 s1 IH]; intros [|c2 s2] b E1 E2.
  - reflexivity.
  - simpl in E1. injection E1 as <-.
    apply utf8_cons in E2 as (b2 & bs & Ec & _ & Eb).
    apply utf8_char_nonempty in Ec. destruct b2; [congruence|discriminate].
  - simpl in E2. injection E2 as <-.
    apply utf8_cons in E1 as (b1 & bs & Ec & _ & Eb).
    apply utf8_char_nonempty in Ec. destruct b1; [congruence|discriminate].
  - apply utf8_cons in E1 as (b1 & bs1 & Ec1 & Es1 & ->).
    apply utf8_cons in E2 as (b2 & bs2 & Ec2 & Es2 & Eb).
    destruct (utf8_char_prefix_free _ _ _ _ _ _ Ec1 Ec2 Eb) as [-> ->].
    f_equal. exact (IH _ _ Es1 Es2).
Qed.

Lemma request_hash_return (p i : str) (k : string) :
  request_hash p i = Return k ->
  exists b, request_hash_input p i = Some b /\ k = SHA256.hexdigest b.
Proof.
  unfold request_hash, request_hash_input, encode_utf8.
  destruct (utf8 (p ++ i)) as [b|]; [|discriminate].
  intros [= <-]. eauto.
Qed.

(** C1 (as amended). When the concatenations payload + instruction of two
    requests differ, which is the case whenever the requests differ in
    exactly one component, the bytes that are digested differ: the two
    cache keys are different unless SHA-256 itself collides on these two
    inputs. In particular a changed instruction with the payload held
    fixed gives a different digest input. *)
Theorem request_hash_sensitive (p1 i1 p2 i2 : str) (k1 k2 : string) :
  request_hash p1 i1 = Return k1 ->
  request_hash p2 i2 = Return k2 ->
  p1 ++ i1 <> p2 ++ i2
  \/ (p1 = p2 /\ i1 <> i2)
  \/ (i1 = i2 /\ p1 <> p2) ->
  k1 <> k2
  \/ exists b1 b2,
       request_hash_input p1 i1 = Some b1
       /\ request_hash_input p2 i2 = Some b2
       /\ sha256_collision b1 b2.
Proof.
  intros E1 E2 Hdiff.
  assert (Hcat : p1 ++ i1 <> p2 ++ i2).
  { destruct Hdiff as [H|[[-> H]|[-> H]]]; [exact H| |].
    - intros E. apply H. exact (app_inv_head _ _ _ E).
    - intros E. apply H. exact (app_inv_tail _ _ _ E). }
  apply request_hash_return in E1 as (b1 & Hb1 & ->).
  apply request_hash_return in E2 as (b2 & Hb2 & ->).
  destruct (string_dec (SHA256.hexdigest b1) (SHA256.hexdigest b2)) as [E|NE];
    [right|left; exact NE].
  exists b1, b2. repeat split; try assumption.
  intros ->. apply Hcat.
  exact (utf8_injective _ _ _ Hb1 Hb2).
Qed.

Lemma request_hash_sensitive_witness :
  request_hash (py "a") (py "b")
  = Return "fb8e20fc2e4c3f248c60c39bd652f3c1347298bb977b8b4d5903b85055620603"%string
  /\ request_hash (py "a") (py "c")
     = Return "f45de51cdef30991551e41e882dd7b5404799648a0a00753f44fc966e6153fc1"%string
  /\ ("fb8e20fc2e4c3f248c60c39bd652f3c1347298bb977b8b4d5903b85055620603"%string
      <> "f45de51cdef30991551e41e882dd7b5404799648a0a00753f44fc966e6153fc1"%string
      \/ exists b1 b2,
           request_hash_input (py "a") (py "b") = Some b1
           /\ request_hash_input (py "a") (py "c") = Some b2
           /\ sha256_collision b1 b2).
Proof.
  assert (E1 : request_hash (py "a") (py "b")
    = Return "fb8e20fc2e4c3f248c60c39bd652f3c1347298bb977b8b4d5903b85055620603"%string)
    by (vm_compute; reflexivity).
  assert (E2 : request_hash (py "a") (py "c")
    = Return "f45de51cdef30991551e41e882dd7b5404799648a0a00753f44fc966e6153fc1"%string)
    by (vm_compute; reflexivity).
  split; [exact E1|]. split; [exact E2|].
  apply (request_hash_sensitive (py "a") (py "b") (py "a") (py "c") _ _ E1 E2).
  right; left. split; [reflexivity|discriminate].
Defined.

(** C1 as stated fails: the requests ("ab", "c") and ("a", "bc") differ in
    both components and have the same concatenation, so they are given
    the same cache key. *)
Lemma request_hash_concat_clash :
  (py "ab", py "c") <> (py "a", py "bc")
  /\ request_hash (py "ab") (py "c") = request_hash (py "a") (py "bc")
  /\ request_hash (py "ab") (py "c")
     = Return "ba7816bf8f01cfea414140de5dae2223b00361a396177a9cb410ff61f20015ad"%string.
Proof.
  split; [discriminate|]. split; vm_compute; reflexivity.
Qed.

(** ** Fence removal of the CSV contract *)

Example clean_csv_output_fenced :
  clean_csv_output fenced_csv_response
  = py "v" ++ [NL] ++ py "a,b" ++ [NL] ++ py "1,2".
Proof. vm_compute. reflexivity. Qed.

Example clean_csv_output_plain :
  clean_csv_output ([NL] ++ py "a,b" ++ [NL] ++ py "1,2" ++ [NL])
  = py "a,b" ++ [NL] ++ py "1,2".
Proof. vm_compute. reflexivity. Qed.

Example clean_csv_output_bare_fence :
  clean_csv_output (py "```" ++ [NL] ++ py "a,b" ++ [NL] ++ py "```")
  = py "```" ++ [NL] ++ py "a,b".
Proof. vm_compute. reflexivity. Qed.

(** ** Text extraction and its cache *)

Lemma universal_newlines_length_ind (P : str -> Prop) :
  P [] ->
  (forall c s, c <> CR -> P s -> P (c :: s)) ->
  P [CR] ->
  (forall s, P s -> P (CR :: NL :: s)) ->
  (forall d s, d <> NL -> P (d :: s) -> P (CR :: d :: s)) ->
  forall s, P s.
Proof.
  intros Hnil Hc Hcr Hcrnl Hcrd s.
  remember (length s) as n eqn:Hn. revert s Hn.
  induction n as [n IH] using lt_wf_ind. intros s Hn.
  destruct s as [|c s]; [exact Hnil|].
  destruct (N.eq_dec c CR) as [->|Hne].
  - destruct s as [|d s]; [exact Hcr|].
    destruct (N.eq_dec d NL) as [->|Hd].
    + apply Hcrnl. apply (IH (length s)); [simpl in Hn; lia|reflexivity].
    + apply Hcrd; [exact Hd|].
      apply (IH (length (d :: s))); [simpl in *; lia|reflexivity].
  - apply Hc; [exact Hne|].
    apply (IH (length s)); [simpl in Hn; lia|reflexivity].
Qed.

Lemma universal_newlines_cons (c : char) (s : str) :
  c <> CR -> universal_newlines (c :: s) = c :: universal_newlines s.
Proof.
  intros H. simpl. apply N.eqb_neq in H. rewrite H. reflexivity.
Qed.

Lemma universal_newlines_cr (d : char) (s : str) :
  d <> NL ->
  universal_newlines (CR :: d :: s) = NL :: universal_newlines (d :: s).
Proof.
  intros H. apply N.eqb_neq in H.
  change (universal_newlines (CR :: d :: s))
    with (NL :: (if (d =? NL)%N then universal_newlines s
                 else universal_newlines (d :: s))).
  rewrite H. reflexivity.
Qed.

(** A text read back from a file has no carriage return. *)
Lemma universal_newlines_no_cr (s : str) :
  Forall (fun c => c <> CR) (universal_newlines s).
Proof.
  induction s using universal_newlines_length_ind.
  - constructor.
  - rewrite universal_newlines_cons by assumption. constructor; assumption.
  - repeat constructor. discriminate.
  - change (universal_newlines (CR :: NL :: s))
      with (NL :: universal_newlines s).
    constructor; [discriminate|assumption].
  - rewrite universal_newlines_cr by assumption.
    constructor; [discriminate|assumption].
Qed.

(** Reading changes nothing in a text without carriage return. *)
Lemma universal_newlines_id (s : str) :
  Forall (fun c => c <> CR) s -> universal_newlines s = s.
Proof.
  induction 1 as [|c s Hc _ IH]; [reflexivity|].
  rewrite universal_newlines_cons by assumption. f_equal. exact IH.
Qed.

Lemma universal_newlines_idem (s : str) :
  universal_newlines (universal_newlines s) = universal_newlines s.
Proof. apply universal_newlines_id, universal_newlines_no_cr. Qed.

Ltac run_world :=
  unfold bind, ret, raise, attempt, lift, pdf_exists, read_bytes,
    cache_exists, read_text, write_text, set_cache, plumber_open,
    ocr_convert, generate in *; cbn [pdf_files cache_dir plumber_calls
    ocr_calls generate_calls negb fst snd] in *.

Lemma Index_get_pdf_text_hit cap w path b t0 :
  pdf_files w !! path = Some b ->
  cache_dir w !! text_cache_file b = Some t0 ->
  Index.get_pdf_text cap path w = (Return (universal_newlines t0), w).
Proof.
  intros Hb Hc. unfold Index.get_pdf_text, text_cache_file in *. run_world.
  rewrite Hb. cbn. rewrite Hb. rewrite Hc. rewrite Hc. reflexivity.
Qed.

Ltac case_step H :=
  match type of H with
  | context [match ?x with _ => _ end] =>
      match x with
      | context [match _ with _ => _ end] => fail 1
      | _ => destruct x eqn:?; cbn [negb fst snd pdf_files cache_dir
               plumber_calls ocr_calls generate_calls] in H;
             try discriminate H
      end
  | context [if ?x then _ else _] =>
      match x with
      | context [match _ with _ => _ end] => fail 1
      | context [if _ then _ else _] => fail 1
      | _ => destruct x eqn:?; cbn [negb fst snd pdf_files cache_dir
               plumber_calls ocr_calls generate_calls] in H;
             try discriminate H
      end
  end.

Ltac exec_in H :=
  repeat (cbn [negb fst snd pdf_files cache_dir plumber_calls ocr_calls
               generate_calls] in H; case_step H);
  cbn [negb fst snd pdf_files cache_dir plumber_calls ocr_calls
       generate_calls] in H;
  simplify_eq.

Lemma Index_get_pdf_text_returns cap w path t w1 :
  Index.get_pdf_text cap path w = (Return t, w1) ->
  exists b t0,
    pdf_files w !! path = Some b
    /\ pdf_files w1 = pdf_files w
    /\ cache_dir w1 !! text_cache_file b = Some t0
    /\ universal_newlines t0 = universal_newlines t.
Proof.
  intros H. unfold Index.get_pdf_text, Index.extract_text_with_ocr in H.
  run_world. exec_in H.
  all: eexists _, _; cbn [pdf_files cache_dir].
  all: split; [first [eassumption|reflexivity]|]; split; [reflexivity|].
  all: unfold text_cache_file.
  all: first [ split; [apply lookup_insert_eq | reflexivity]
             | split; [eassumption | symmetry; apply universal_newlines_idem] ].
Qed.

Lemma PdfToCsv_get_pdf_text_returns cap w path t w1 :
  PdfToCsv.get_pdf_text cap path w = (Return t, w1) ->
  exists b t0,
    pdf_files w !! path = Some b
    /\ pdf_files w1 = pdf_files w
    /\ cache_dir w1 !! text_cache_file b = Some t0
    /\ universal_newlines t0 = universal_newlines t.
Proof.
  intros H. unfold PdfToCsv.get_pdf_text, PdfToCsv.extract_text_with_ocr in H.
  run_world. exec_in H.
  all: eexists _, _; cbn [pdf_files cache_dir].
  all: split; [first [eassumption|reflexivity]|]; split; [reflexivity|].
  all: unfold text_cache_file.
  all: first [ split; [apply lookup_insert_eq | reflexivity]
             | split; [eassumption | symmetry; apply universal_newlines_idem] ].
Qed.

Lemma PdfToCsv_get_pdf_text_hit cap w path b t0 :
  pdf_files w !! path = Some b ->
  cache_dir w !! text_cache_file b = Some t0 ->
  PdfToCsv.get_pdf_text cap path w = (Return (universal_newlines t0), w).
Proof.
  intros Hb Hc. unfold PdfToCsv.get_pdf_text, text_cache_file in *. run_world.
  rewrite Hb. cbn. rewrite Hb. rewrite Hc. rewrite Hc. reflexivity.
Qed.

(** C2 (as amended). When a call of the text extraction returns a text,
    a second call on byte-identical content, at the same or another path
    and with any behaviour of the extraction and OCR capabilities,
    returns what the cache file under the SHA-256 fingerprint reads as:
    the first text with its line ends as a text-mode read gives them
    (["\r\n"] and ["\r"] read as ["\n"]). The second call leaves the world
    as it is, so it invokes neither the text-layer extraction nor OCR.
    The two texts are identical when the first one has no carriage
    return. This holds for index.py and for test.py. *)
Theorem get_pdf_text_cached_replay
  (cap cap' : capabilities) (w w1 : world) (path path' : string) (t : str) :
  Index.get_pdf_text cap path w = (Return t, w1)
  \/ PdfToCsv.get_pdf_text cap path w = (Return t, w1) ->
  pdf_files w1 !! path' = pdf_files w !! path ->
  Index.get_pdf_text cap' path' w1 = (Return (universal_newlines t), w1)
  /\ PdfToCsv.get_pdf_text cap' path' w1 = (Return (universal_newlines t), w1)
  /\ (Forall (fun c => c <> CR) t -> universal_newlines t = t).
Proof.
  intros H Hsame.
  assert (exists b t0,
    pdf_files w !! path = Some b
    /\ pdf_files w1 = pdf_files w
    /\ cache_dir w1 !! text_cache_file b = Some t0
    /\ universal_newlines t0 = universal_newlines t)
    as (b & t0 & Hb & _ & Hc & Hnl).
  { destruct H as [H|H];
      [exact (Index_get_pdf_text_returns _ _ _ _ _ H)
      |exact (PdfToCsv_get_pdf_text_returns _ _ _ _ _ H)]. }
  rewrite Hb in Hsame. rewrite <- Hnl.
  split; [exact (Index_get_pdf_text_hit cap' w1 path' b t0 Hsame Hc)|].
  split; [exact (PdfToCsv_get_pdf_text_hit cap' w1 path' b t0 Hsame Hc)|].
  rewrite Hnl. apply universal_newlines_id.
Qed.

Lemma get_pdf_text_cached_replay_witness :
  let first := Index.get_pdf_text Examples.cap_plain "doc.pdf" Examples.fresh_world in
  let t := py "--- Page 1 Content ---" ++ [NL] ++ Examples.page_plain ++ [NL; NL] in
  first = (Return t, snd first)
  /\ plumber_calls (snd first) = 1
  /\ Index.get_pdf_text Examples.cap_down "doc.pdf" (snd first)
     = (Return t, snd first).
Proof.
  intros first t.
  assert (H1 : first = (Return t, snd first)) by (vm_compute; reflexivity).
  split; [exact H1|]. split; [vm_compute; reflexivity|].
  destruct (get_pdf_text_cached_replay Examples.cap_plain Examples.cap_down
              Examples.fresh_world (snd first) "doc.pdf" "doc.pdf" t
              (or_introl H1) ltac:(vm_compute; reflexivity)) as (H2 & _ & H3).
  rewrite H3 in H2; [exact H2|].
  vm_compute. repeat constructor; discriminate.
Defined.

(** C2 as stated fails: the text layer of the document has a carriage
    return; the first call returns it, the second call returns the cached
    file as read in text mode, where it is a line feed. *)
Lemma get_pdf_text_second_call_differs :
  let first := Index.get_pdf_text Examples.cap_cr "doc.pdf" Examples.fresh_world in
  let second := Index.get_pdf_text Examples.cap_cr "doc.pdf" (snd first) in
  fst first
  = Return (py "--- Page 1 Content ---" ++ [NL]
            ++ py "Chapter 1: Introduction to thermodynamics" ++ [CR]
            ++ py "and heat transfer." ++ [NL; NL])
  /\ fst second
     = Return (py "--- Page 1 Content ---" ++ [NL]
               ++ py "Chapter 1: Introduction to thermodynamics" ++ [NL]
               ++ py "and heat transfer." ++ [NL; NL])
  /\ fst first <> fst second.
Proof.
  intros first second.
  split; [vm_compute; reflexivity|].
  split; [vm_compute; reflexivity|].
  vm_compute. discriminate.
Qed.

(** ** OCR fallback *)


Ltac exec_goal :=
  cbn [negb fst snd pdf_files cache_dir plumber_calls ocr_calls
       generate_calls].




(** The boundary of the amended claim on one page: 26 letters still go
    to OCR, 27 letters do not. *)
Example one_page_gate_boundary :
  looks_like_bad_text
    (join_pages Index.page_block 1 [Some (repeat 0x61%N 26)]) = true
  /\ looks_like_bad_text
       (join_pages Index.page_block 1 [Some (repeat 0x61%N 27)]) = false.
Proof. split; vm_compute; reflexivity. Qed.

(** Three pages without any text layer give a primary text of 78
    characters, headers only, which passes the gate: no OCR. *)
Example three_empty_pages_pass_gate :
  looks_like_bad_text (join_pages Index.page_block 1 [None; None; None])
  = false.
Proof. vm_compute. reflexivity. Qed.

(** ** Fence removal: what the slice [[5:]] leaves *)

Lemma lstrip_with_last (p : char -> bool) (c : char) (l : str) :
  p c = false -> exists l', lstrip_with p (l ++ [c]) = l' ++ [c].
Proof.
  intros Hc. induction l as [|x l [l' IH]]; simpl.
  - rewrite Hc. exists []. reflexivity.
  - destruct (p x); [eauto|]. exists (x :: l). reflexivity.
Qed.

Lemma strip_with_head (p : char -> bool) (c : char) (s : str) :
  p c = false -> exists s', strip_with p (c :: s) = c :: s'.
Proof.
  intros Hc. unfold strip_with, rstrip_with. simpl lstrip_with. rewrite Hc.
  simpl rev. destruct (lstrip_with_last p c (rev s) Hc) as [l' ->].
  exists (rev l'). rewrite rev_app_distr. reflexivity.
Qed.

Lemma startswith_app (s p : str) :
  startswith s p = true -> exists r, s = p ++ r.
Proof.
  revert s. induction p as [|a p IH]; intros s H.
  - exists s. reflexivity.
  - destruct s as [|b s]; [discriminate|]. simpl in H.
    apply andb_true_iff in H as [Hab H]. apply N.eqb_eq in Hab as ->.
    destruct (IH _ H) as [r ->]. exists r. reflexivity.
Qed.

(** Whenever the stripped response begins with the fence [```csv], the
    cleaned text begins with the letter [v] of that fence: [[5:]] removes
    five of its six characters. *)
Lemma clean_csv_output_leaves_v (response_text : str) :
  startswith (strip response_text) (py "```csv") = true ->
  exists rest, clean_csv_output response_text = 0x76%N :: rest.
Proof.
  intros H. unfold clean_csv_output. cbv zeta. rewrite H.
  remember (strip response_text) as s0 eqn:Hs0. clear Hs0.
  destruct (startswith_app _ _ H) as [r ->]. clear H.
  change (slice_from (py "```csv" ++ r) 5) with (@cons char 0x76%N r).
  destruct (strip_with_head is_space 0x76%N r eq_refl) as [s1 E1].
  unfold strip. rewrite E1.
  match goal with
  | |- context [if ?c then _ else _] => destruct c eqn:E
  end; [|eauto].
  assert (Hlen : 3 <= length s1).
  { unfold endswith in E. simpl rev in E. rewrite <- (length_rev s1).
    change (rev (py "```")) with [0x60; 0x60; 0x60]%N in E.
    destruct (rev s1) as [|x1 [|x2 [|x3 rs]]]; simpl in E;
      rewrite ?andb_false_r in E; try discriminate E.
    simpl. lia. }
  unfold slice_to_neg. simpl length.
  replace (S (length s1) - 3) with (S (length s1 - 3)) by lia.
  simpl firstn.
  destruct (strip_with_head is_space 0x76%N (firstn (length s1 - 3) s1) eq_refl)
    as [s2 E2].
  rewrite E2. eauto.
Qed.

(** C6 (the code at the failing input). The model answers with
    [```csv\na,b\n1,2\n```]. Both [generate_csv_from_text] functions return
    and cache ["v\na,b\n1,2"]: the body with the last letter of the fence
    marker still in front of it, not the body ["a,b\n1,2"]. *)
Theorem fenced_csv_response_keeps_v :
  let cleaned := py "v" ++ [NL] ++ py "a,b" ++ [NL] ++ py "1,2" in
  let run := Index.generate_csv_from_text Examples.cap_fenced
               Examples.page_plain (py "list names") Examples.fresh_world in
  let run' := PdfToCsv.generate_csv_from_text Examples.cap_fenced
                Examples.page_plain (py "list names") Examples.fresh_world in
  clean_csv_output fenced_csv_response = cleaned
  /\ fst run = Return cleaned
  /\ fst run' = Return cleaned
  /\ match request_hash Examples.page_plain (py "list names") with
     | Return k => cache_dir (snd run) !! (k +:+ ".csv")%string
     | Raise _ => None
     end = Some cleaned
  /\ cleaned <> py "a,b" ++ [NL] ++ py "1,2".
Proof.
  intros cleaned run run'.
  split; [vm_compute; reflexivity|].
  split; [vm_compute; reflexivity|].
  split; [vm_compute; reflexivity|].
  split; [vm_compute; reflexivity|].
  vm_compute. discriminate.
Qed.

(** ** The tolerant JSON normalizer *)

Example json_clean_fenced :
  json_clean (py "```json" ++ [NL] ++ py "[1, 2,]" ++ [NL] ++ py "```")
  = py "json [1, 2]".
Proof. vm_compute. reflexivity. Qed.

Example search_array_fenced :
  search_array (py "json [1, 2]") = Some (py "[1, 2]").
Proof. vm_compute. reflexivity. Qed.

Example json_clean_object_comma :
  json_clean (py "[{a: 1,  }, {b: 2}," ++ [NL] ++ py "]")
  = py "[{a: 1}, {b: 2}]".
Proof. vm_compute. reflexivity. Qed.

Example sub_fences_multiline_inner :
  sub_fences true (py "x" ++ [NL] ++ py "```json" ++ [NL] ++ py "[]```"
                   ++ [NL] ++ py "y")
  = py "x" ++ [NL] ++ [NL] ++ py "[]" ++ [NL] ++ py "y".
Proof. vm_compute. reflexivity. Qed.

Example search_array_none : search_array (py "no ] bracket [ here") = None.
Proof. vm_compute. reflexivity. Qed.

(** Newline collapsing leaves no newline in the text that is parsed. *)
Lemma json_clean_no_newline (raw : str) : Forall (fun c => c <> NL) (json_clean raw).
Proof.
  unfold json_clean. cbv zeta.
  generalize (sub_trailing_comma 0x5D%N
                (sub_trailing_comma 0x7D%N
                   (strip (sub_fences true
                             (strip (strip_chars (py "`") (strip raw))))))).
  intros s. unfold replace_char. induction s as [|c s IH]; simpl.
  - constructor.
  - destruct (N.eqb_spec c NL) as [->|Hne].
    + constructor; [discriminate|exact IH].
    + constructor; [exact Hne|exact IH].
Qed.

Lemma lstrip_with_head_kept (p : char -> bool) (s : str) (c : char) (r : str) :
  lstrip_with p s = c :: r -> p c = false.
Proof.
  induction s as [|x s IH]; simpl; [discriminate|].
  destruct (p x) eqn:Hx; [exact IH|]. intros [= <- _]. exact Hx.
Qed.

Lemma lstrip_with_nil_all (p : char -> bool) (l : str) :
  lstrip_with p l = [] -> forall x, List.In x l -> p x = true.
Proof.
  induction l as [|y l IH]; simpl; intros E x Hin; [destruct Hin|].
  destruct (p y) eqn:Hy; [|discriminate].
  destruct Hin as [->|Hin]; [exact Hy|exact (IH E x Hin)].
Qed.

(** The span that is parsed in the second attempt runs from an opening
    bracket to a closing bracket. *)
Lemma search_array_brackets (s span : str) :
  search_array s = Some span ->
  exists body, span = [0x5B%N] ++ body ++ [0x5D%N].
Proof.
  unfold search_array.
  destruct (lstrip_with (fun c => negb (c =? 0x5B)%N) s)
    as [|open rest] eqn:E; [discriminate|].
  apply lstrip_with_head_kept in E.
  apply negb_false_iff, N.eqb_eq in E. subst open.
  destruct (existsb (fun c => (c =? 0x5D)%N) rest) eqn:Hex; [|discriminate].
  intros [= <-].
  apply existsb_exists in Hex as (x & Hin & Hx). apply N.eqb_eq in Hx. subst x.
  unfold rstrip_with.
  destruct (lstrip_with (fun c => negb (c =? 0x5D)%N) (rev rest))
    as [|c r] eqn:E.
  - exfalso. apply in_rev in Hin.
    pose proof (lstrip_with_nil_all _ _ E _ Hin) as K. discriminate K.
  - apply lstrip_with_head_kept in E.
    apply negb_false_iff, N.eqb_eq in E. subst c.
    exists (rev r). simpl. reflexivity.
Qed.

(** ** Merging the chunks of a job *)

Example chunk_count_long_page :
  length (chunk_text CHUNK_CHARS_V1
            (join_pages V1.page_block 1 [Some JobExamples.long_page])) = 2
  /\ length (chunk_text MAX_CHARS
               (join_pages V1Backup.page_block 1 [Some JobExamples.long_page]))
     = 2.
Proof. split; vm_compute; reflexivity. Qed.

(** C9 (the code at the failing input). A document of two chunks; the
    model answers chunk 1 with an array of one record and chunk 2 with
    the text [5]. In index2.py the number is truthy and is given to
    [all_results.extend]: the job ends with status 500 and no data,
    although chunk 1 contributed a record. index2_backup.py, which tests
    [isinstance(data, list)], returns that record for the same two
    chunks. *)
Theorem v1_truthy_scalar_aborts_job :
  fst (V1.extract_pdf_data JobExamples.cap_scalar JobExamples.json_loads_table
         JobExamples.json_dumps_stub (Some JobExamples.upload)
         JobExamples.empty_world)
  = Return (error_response
              ([0x27%N] ++ py "int" ++ [0x27%N] ++ py " object is not iterable")
              500)
  /\ fst (V1Backup.extract_pdf_data JobExamples.cap_scalar
            JobExamples.json_loads_table JobExamples.json_dumps_stub
            (Some JobExamples.upload) JobExamples.empty_world)
     = Return (data_response (py "Extracted successfully")
                             (JArr [JobExamples.heat_record])).
Proof. split; vm_compute; reflexivity. Qed.

Lemma utf8_py (s : string) : exists b, utf8 (py s) = Some b.
Proof.
  unfold py. induction s as [|a s [b IH]]; simpl.
  - eauto.
  - rewrite IH.
    assert (Ha : exists ba, utf8_char (N_of_ascii a) = Some ba).
    { pose proof (N_ascii_bounded a) as Hlt. unfold utf8_char.
      destruct (N.ltb_spec (N_of_ascii a) 0x80); [eauto|].
      destruct (N.ltb_spec (N_of_ascii a) 0x800); [eauto|lia]. }
    destruct Ha as [ba ->]. eauto.
Qed.

Lemma write_text_py (name : string) (s : string) (w : world) :
  write_text name (py s) w = (Return tt, set_cache name (py s) w).
Proof.
  unfold write_text, encode_utf8. destruct (utf8_py s) as [b ->]. reflexivity.
Qed.

(** The chunk loop of index2_backup.py, when every generation call
    returns: each response adds the items of the array it parses to. *)
Lemma V1Backup_chunk_loop (cap : capabilities) (json_loads : str -> result json)
  (chunks : list str) :
  forall (idx : nat) (acc : list json) (w : world) (texts : list str),
    generation_outcomes cap V1Backup.chunk_prompt (generate_calls w) idx chunks
    = List.map Return texts ->
    V1Backup.chunk_loop cap json_loads idx chunks acc w
    = (Return (acc ++ concat (List.map (backup_chunk_records json_loads) texts)),
       World (pdf_files w) (cache_dir w) (plumber_calls w) (ocr_calls w)
             (generate_calls w + length chunks)).
Proof.
  induction chunks as [|chunk rest IH]; intros idx acc w texts Hgen.
  - destruct texts; [|discriminate]. simpl.
    rewrite app_nil_r, Nat.add_0_r. destruct w; reflexivity.
  - destruct texts as [|t texts]; [discriminate|].
    simpl in Hgen. injection Hgen as Hhead Htail.
    cbn [V1Backup.chunk_loop]. unfold bind at 1, generate.
    rewrite Hhead.
    cbn [List.map concat]. unfold backup_chunk_records at 1.
    set (w' := World (pdf_files w) (cache_dir w) (plumber_calls w)
                     (ocr_calls w) (S (generate_calls w))).
    assert (Hw : forall acc',
      V1Backup.chunk_loop cap json_loads (S idx) rest acc' w'
      = (Return (acc' ++ concat (List.map (backup_chunk_records json_loads) texts)),
         World (pdf_files w) (cache_dir w) (plumber_calls w) (ocr_calls w)
               (generate_calls w + length (chunk :: rest)))).
    { intros acc'. rewrite (IH (S idx) acc' w' texts Htail).
      subst w'. cbn [pdf_files cache_dir plumber_calls ocr_calls
                     generate_calls length].
      f_equal. f_equal. lia. }
    destruct (json_loads (V1Backup.clean_response t)) as [data|e].
    + destruct data as [| b | z | f | s | items | fields]; cbn [is_list];
        try (rewrite Hw; reflexivity).
      unfold lift, extend, iterate, bind.
      rewrite Hw, app_assoc. reflexivity.
    + rewrite Hw. reflexivity.
Qed.

(** index2_backup.py does what C9 says, for every job whose generation
    calls all return: a response that does not parse to an array adds
    nothing, the job fails exactly when no chunk added a record, and
    otherwise the data are the records of the chunks in order. *)
Lemma V1Backup_job_merges_chunks (cap : capabilities)
  (json_loads : str -> result json) (json_dumps : json -> string)
  (b : bytes) (w w1 : world) (pdf_text : str) (texts : list str) :
  cache_dir w !! json_cache_file b = None ->
  V1Backup.get_pdf_text cap (pdf_cache_file b)
    (World (<[pdf_cache_file b := b]> (pdf_files w)) (cache_dir w)
           (plumber_calls w) (ocr_calls w) (generate_calls w))
  = (Return pdf_text, w1) ->
  generation_outcomes cap V1Backup.chunk_prompt (generate_calls w1) 1
    (chunk_text MAX_CHARS pdf_text) = List.map Return texts ->
  let records := concat (List.map (backup_chunk_records json_loads) texts) in
  fst (V1Backup.extract_pdf_data cap json_loads json_dumps (Some b) w)
  = Return match records with
           | [] => error_response
                     (py "Gemini returned no valid structured data") 500
           | _ :: _ => data_response (py "Extracted successfully")
                                     (JArr records)
           end.
Proof.
  intros Hc Hget Hgen records.
  unfold V1Backup.extract_pdf_data, handle_errors.
  unfold bind at 1. unfold attempt.
  unfold bind at 1. unfold write_bytes.
  unfold bind at 1. unfold cache_exists at 1.
  cbn [cache_dir]. rewrite Hc.
  unfold bind at 1. rewrite Hget.
  unfold bind at 1.
  rewrite (V1Backup_chunk_loop cap json_loads _ 1 [] w1 texts Hgen).
  cbn [app]. fold records.
  destruct records as [|r rs]; cbn [truthy negb].
  - reflexivity.
  - unfold bind at 1. rewrite write_text_py. reflexivity.
Qed.

(** The chunk loop of index2.py on responses that are arrays or falsy. *)
Lemma V1_chunk_loop (cap : capabilities) (json_loads : str -> result json)
  (chunks : list str) :
  forall (idx : nat) (acc : list json) (w : world) (texts : list str),
    generation_outcomes cap V1.chunk_prompt (generate_calls w) idx chunks
    = List.map Return texts ->
    Forall (array_or_falsy json_loads) texts ->
    V1.chunk_loop cap json_loads idx chunks acc w
    = (Return (acc ++ concat (List.map (v1_chunk_records json_loads) texts)),
       World (pdf_files w) (cache_dir w) (plumber_calls w) (ocr_calls w)
             (generate_calls w + length chunks)).
Proof.
  induction chunks as [|chunk rest IH]; intros idx acc w texts Hgen Hall.
  - destruct texts; [|discriminate]. simpl.
    rewrite app_nil_r, Nat.add_0_r. destruct w; reflexivity.
  - destruct texts as [|t texts]; [discriminate|].
    simpl in Hgen. injection Hgen as Hhead Htail.
    inversion Hall as [|? ? (v & Hv & Hshape) Hall']; subst.
    cbn [V1.chunk_loop]. unfold bind at 1, generate.
    rewrite Hhead.
    cbn [List.map concat]. unfold v1_chunk_records at 1.
    set (w' := World (pdf_files w) (cache_dir w) (plumber_calls w)
                     (ocr_calls w) (S (generate_calls w))).
    assert (Hw : forall acc',
      V1.chunk_loop cap json_loads (S idx) rest acc' w'
      = (Return (acc' ++ concat (List.map (v1_chunk_records json_loads) texts)),
         World (pdf_files w) (cache_dir w) (plumber_calls w) (ocr_calls w)
               (generate_calls w + length (chunk :: rest)))).
    { intros acc'. rewrite (IH (S idx) acc' w' texts Htail Hall').
      subst w'. cbn [pdf_files cache_dir plumber_calls ocr_calls
                     generate_calls length].
      f_equal. f_equal. lia. }
    unfold bind at 1, lift at 1. rewrite Hv.
    destruct Hshape as [Hlist|Hfalsy].
    + destruct v as [| b | z | f | s | items | fields]; try discriminate Hlist.
      destruct items as [|x items]; cbn [truthy].
      * rewrite Hw. reflexivity.
      * unfold lift, extend, iterate, bind.
        rewrite Hw, app_assoc. reflexivity.
    + rewrite Hfalsy, Hw.
      destruct v as [| b | z | f | s | items | fields]; try reflexivity.
      destruct items; [reflexivity|discriminate Hfalsy].
Qed.

(** ** Single-prompt extraction: the text past the bound *)

Lemma V3_extract_prompt_shape :
  exists head, forall t : str,
    V3.extract_prompt t = head ++ firstn (180 * 1000) t ++ [NL].
Proof.
  eexists. intros t. unfold V3.extract_prompt, slice_to.
  generalize (180 * 1000). intros n.
  rewrite !app_assoc. reflexivity.
Qed.

Lemma V2_extract_prompt_shape :
  exists head, forall t : str,
    V2.extract_prompt t = head ++ firstn (15 * 1000) t ++ [NL].
Proof.
  eexists. intros t. unfold V2.extract_prompt, slice_to.
  generalize (15 * 1000). intros n.
  rewrite !app_assoc. reflexivity.
Qed.

Lemma V3_extract_prompt_prefix (t1 t2 : str) :
  firstn (180 * 1000) t1 = firstn (180 * 1000) t2 ->
  V3.extract_prompt t1 = V3.extract_prompt t2.
Proof.
  unfold V3.extract_prompt, slice_to. generalize (180 * 1000).
  intros n H. rewrite H. reflexivity.
Qed.

Lemma V2_extract_prompt_prefix (t1 t2 : str) :
  firstn (15 * 1000) t1 = firstn (15 * 1000) t2 ->
  V2.extract_prompt t1 = V2.extract_prompt t2.
Proof.
  unfold V2.extract_prompt, slice_to. generalize (15 * 1000).
  intros n H. rewrite H. reflexivity.
Qed.

Ltac unfold_monad :=
  unfold bind, attempt, ret, raise, lift, write_bytes, cache_exists,
    plumber_open, generate;
  cbn [pdf_files cache_dir plumber_calls ocr_calls generate_calls fst snd negb].

(** The extraction of v3/app.py on a document that is not cached and
    whose text layer is read: one generation call, on the prompt of the
    text. *)
Lemma V3_extract_miss (cap : capabilities) (json_loads : str -> result json)
  (json_dumps : json -> string) (b : bytes) (w : world)
  (pages : list (option str)) :
  cache_dir w !! json_cache_file b = None ->
  pdfplumber_pages cap (plumber_calls w) b = Return pages ->
  V3.extract_pdf_data cap json_loads json_dumps (Some b) w
  = let w1 := World (<[pdf_cache_file b := b]> (pdf_files w)) (cache_dir w)
                    (S (plumber_calls w)) (ocr_calls w)
                    (S (generate_calls w)) in
    match generate_content cap (generate_calls w)
            (V3.extract_prompt (join_pages V3.page_block 1 pages)) with
    | Return text_output =>
        let data := match json_loads (V3.clean_response text_output) with
                    | Return data => data
                    | Raise _ => V3.parsing_error_data
                    end in
        (Return (Response 200
                   (JObj [(py "message", JStr (py "Extracted successfully"));
                          (py "hash", JStr (py (SHA256.hexdigest b)));
                          (py "data", data)])),
         set_cache (json_cache_file b) (py (json_dumps data)) w1)
    | Raise e => (Return (error_response (exn_str e) 500), w1)
    end.
Proof.
  intros Hc Hp.
  unfold V3.extract_pdf_data, V3.get_pdf_text, handle_errors.
  unfold_monad. rewrite Hc. exec_goal. rewrite lookup_insert_eq.
  exec_goal. rewrite Hp. exec_goal.
  destruct (generate_content cap (generate_calls w) _) as [text_output|e].
  - rewrite write_text_py. reflexivity.
  - reflexivity.
Qed.

(** The extraction of v2/index_v2.py on a document whose text layer is
    read and is not blank: one generation call, on the prompt of the
    text. *)
Lemma V2_extract_run (cap : capabilities) (json_loads : str -> result json)
  (b : bytes) (upload_uuid : string) (w : world) (pages : list (option str)) :
  let pdf_text := join_pages (fun _ page => or_empty page) 1 pages in
  pdfplumber_pages cap (plumber_calls w) b = Return pages ->
  strip pdf_text <> [] ->
  V2.extract_pdf_data cap json_loads (Some b) upload_uuid w
  = let w1 := World (<[(upload_uuid +:+ ".pdf")%string := b]> (pdf_files w))
                    (cache_dir w) (S (plumber_calls w)) (ocr_calls w)
                    (S (generate_calls w)) in
    match generate_content cap (generate_calls w) (V2.extract_prompt pdf_text)
    with
    | Return result_text =>
        let clean := V2.clean_response result_text in
        let data :=
          match json_loads clean with
          | Return data =>
              if negb (is_list data) then V2.parsing_error_data clean
              else data
          | Raise _ =>
              V2.parsing_error_data
                (if truthy (JStr clean) then clean else py "No data")
          end in
        (Return (Response 200 (JObj [(py "data", data)])), w1)
    | Raise e => (Return (error_response (exn_str e) 500), w1)
    end.
Proof.
  intros pdf_text Hp Hblank.
  unfold V2.extract_pdf_data, V2.get_pdf_text, handle_errors.
  unfold_monad. rewrite lookup_insert_eq. exec_goal. rewrite Hp. exec_goal.
  fold pdf_text.
  destruct (strip pdf_text) as [|c s] eqn:E; [congruence|].
  cbn [truthy negb]. exec_goal.
  destruct (generate_content cap (generate_calls w) _); reflexivity.
Qed.

(** A text with a character that is not white space does not strip to the
    empty string. *)
Lemma strip_nonblank (s : str) :
  existsb (fun c => negb (is_space c)) s = true -> strip s <> [].
Proof.
  intros H E.
  pose proof (strip_with_keeps is_space (fun c => negb (is_space c))
                (fun c Hc => proj1 (negb_true_iff _) Hc) s) as Hk.
  fold (strip s) in Hk. rewrite E in Hk.
  apply existsb_exists in H as [c [Hin Hc]].
  assert (In c (List.filter (fun c => negb (is_space c)) s))
    by (apply filter_In; auto).
  destruct (List.filter _ s); [contradiction | simpl in Hk; lia].
Qed.

(** C10. The prompt of the extraction in v3/app.py holds the first 180000
    characters of the text and nothing else of it, and the prompt of
    v2/index_v2.py the first 15000. Each job makes one generation call, so
    two text layers that agree up to the bound give the same response and
    leave the same world, whatever follows the bound: the text past it
    contributes nothing. (In v2 the two texts are taken not to be blank,
    the test that comes before the prompt.) *)
Theorem text_past_bound_is_dropped :
  (exists head, forall t : str,
     V3.extract_prompt t = head ++ firstn (180 * 1000) t ++ [NL])
  /\ (exists head, forall t : str,
        V2.extract_prompt t = head ++ firstn (15 * 1000) t ++ [NL])
  /\ (forall (cap1 cap2 : capabilities) (json_loads : str -> result json)
             (json_dumps : json -> string) (b : bytes) (w : world)
             (pages1 pages2 : list (option str)),
        (forall n p, generate_content cap1 n p = generate_content cap2 n p) ->
        cache_dir w !! json_cache_file b = None ->
        pdfplumber_pages cap1 (plumber_calls w) b = Return pages1 ->
        pdfplumber_pages cap2 (plumber_calls w) b = Return pages2 ->
        firstn (180 * 1000) (join_pages V3.page_block 1 pages1)
        = firstn (180 * 1000) (join_pages V3.page_block 1 pages2) ->
        V3.extract_pdf_data cap1 json_loads json_dumps (Some b) w
        = V3.extract_pdf_data cap2 json_loads json_dumps (Some b) w
        /\ generate_calls
             (snd (V3.extract_pdf_data cap1 json_loads json_dumps (Some b) w))
           = S (generate_calls w))
  /\ (forall (cap1 cap2 : capabilities) (json_loads : str -> result json)
             (b : bytes) (upload_uuid : string) (w : world)
             (pages1 pages2 : list (option str)),
        (forall n p, generate_content cap1 n p = generate_content cap2 n p) ->
        pdfplumber_pages cap1 (plumber_calls w) b = Return pages1 ->
        pdfplumber_pages cap2 (plumber_calls w) b = Return pages2 ->
        strip (join_pages (fun _ page => or_empty page) 1 pages1) <> [] ->
        strip (join_pages (fun _ page => or_empty page) 1 pages2) <> [] ->
        firstn (15 * 1000) (join_pages (fun _ page => or_empty page) 1 pages1)
        = firstn (15 * 1000) (join_pages (fun _ page => or_empty page) 1 pages2) ->
        V2.extract_pdf_data cap1 json_loads (Some b) upload_uuid w
        = V2.extract_pdf_data cap2 json_loads (Some b) upload_uuid w
        /\ generate_calls
             (snd (V2.extract_pdf_data cap1 json_loads (Some b) upload_uuid w))
           = S (generate_calls w)).
Proof.
  split; [exact V3_extract_prompt_shape|].
  split; [exact V2_extract_prompt_shape|].
  split.
  - intros cap1 cap2 jl jd b w pages1 pages2 Hgen Hc Hp1 Hp2 Hpre.
    rewrite (V3_extract_miss cap1 jl jd b w pages1 Hc Hp1).
    rewrite (V3_extract_miss cap2 jl jd b w pages2 Hc Hp2).
    rewrite (V3_extract_prompt_prefix _ _ Hpre), Hgen.
    split; [reflexivity|].
    cbv zeta. destruct (generate_content cap2 _ _); reflexivity.
  - intros cap1 cap2 jl b name w pages1 pages2 Hgen Hp1 Hp2 Hb1 Hb2 Hpre.
    rewrite (V2_extract_run cap1 jl b name w pages1 Hp1 Hb1).
    rewrite (V2_extract_run cap2 jl b name w pages2 Hp2 Hb2).
    rewrite (V2_extract_prompt_prefix _ _ Hpre), Hgen.
    split; [reflexivity|].
    cbv zeta. destruct (generate_content cap2 _ _); reflexivity.
Qed.

Lemma text_past_bound_is_dropped_witness :
  V3.extract_pdf_data BoundExamples.cap_ending_one JobExamples.json_loads_table
    JobExamples.json_dumps_stub (Some JobExamples.upload) JobExamples.empty_world
  = V3.extract_pdf_data BoundExamples.cap_ending_two JobExamples.json_loads_table
      JobExamples.json_dumps_stub (Some JobExamples.upload) JobExamples.empty_world
  /\ V2.extract_pdf_data BoundExamples.cap_ending_one JobExamples.json_loads_table
       (Some JobExamples.upload) "0f8fad5bd9cb469fa16570867728950e"
       JobExamples.empty_world
     = V2.extract_pdf_data BoundExamples.cap_ending_two JobExamples.json_loads_table
         (Some JobExamples.upload) "0f8fad5bd9cb469fa16570867728950e"
         JobExamples.empty_world.
Proof.
  split.
  - pose proof (proj1 (proj2 (proj2 text_past_bound_is_dropped))
             BoundExamples.cap_ending_one BoundExamples.cap_ending_two
             JobExamples.json_loads_table JobExamples.json_dumps_stub
             JobExamples.upload JobExamples.empty_world
             [Some (JobExamples.long_page ++ py " Chapter 9: Optics")]
             [Some (JobExamples.long_page ++ py " Chapter 9: Sound")]) as H.
    refine (proj1 (H _ _ _ _ _)); clear H.
    + intros n p. unfold BoundExamples.cap_ending_one,
        BoundExamples.cap_ending_two. cbn [generate_content]. reflexivity.
    + vm_compute. reflexivity.
    + unfold BoundExamples.cap_ending_one. cbn [pdfplumber_pages]. reflexivity.
    + unfold BoundExamples.cap_ending_two. cbn [pdfplumber_pages]. reflexivity.
    + apply (bool_decide_unpack _). vm_compute. exact I.
  - pose proof (proj2 (proj2 (proj2 text_past_bound_is_dropped))
             BoundExamples.cap_ending_one BoundExamples.cap_ending_two
             JobExamples.json_loads_table
             JobExamples.upload "0f8fad5bd9cb469fa16570867728950e"%string
             JobExamples.empty_world
             [Some (JobExamples.long_page ++ py " Chapter 9: Optics")]
             [Some (JobExamples.long_page ++ py " Chapter 9: Sound")]) as H.
    refine (proj1 (H _ _ _ _ _ _)); clear H.
    + intros n p. unfold BoundExamples.cap_ending_one,
        BoundExamples.cap_ending_two. cbn [generate_content]. reflexivity.
    + unfold BoundExamples.cap_ending_one. cbn [pdfplumber_pages]. reflexivity.
    + unfold BoundExamples.cap_ending_two. cbn [pdfplumber_pages]. reflexivity.
    + apply strip_nonblank. vm_compute. reflexivity.
    + apply strip_nonblank. vm_compute. reflexivity.
    + apply (bool_decide_unpack _). vm_compute. exact I.
Defined.

(** A text with "uuid" in it has "id" in it. *)
Lemma contains_uuid_id (s : str) :
  contains s (py "uuid") = true -> contains s (py "id") = true.
Proof.
  induction s as [|c s IH]; [discriminate|].
  cbn [contains]. intros H. apply orb_true_iff in H as [H|H].
  - apply orb_true_iff. right.
    change (py "uuid") with [0x75; 0x75; 0x69; 0x64]%N in H.
    change (py "id") with [0x69; 0x64]%N.
    destruct s as [|c1 [|c2 [|c3 s]]]; cbn in H;
      rewrite ?andb_false_r in H; try discriminate.
    repeat (apply andb_true_iff in H as [? H]).
    cbn [contains]. apply orb_true_iff. right.
    cbn [contains startswith]. apply orb_true_iff. left.
    rewrite !andb_true_iff. auto.
  - apply orb_true_iff. right. exact (IH H).
Qed.

(** The column test of v3/app.py is the test for "id" as a part of the
    lower-cased name; its first disjunct adds nothing. *)
Lemma V3_is_uuid_column_substring (c : str) :
  V3.is_uuid_column c = contains (lower c) (py "id").
Proof.
  unfold V3.is_uuid_column.
  destruct (contains (lower c) (py "uuid")) eqn:E; [|reflexivity].
  symmetry. exact (contains_uuid_id _ E).
Qed.

(** C7. A reference file with the columns [video] and [title] has no
    column whose name has "uuid" in it or is "id". The reconciliation of
    v3/app.py takes [video] for the identifier column, calls the model
    once and answers 200, where the claim has the call fail with no
    generation call; the reconciliation of v1/index2_backup.py, on the
    same file, answers 400 and calls nothing. *)
Theorem v3_substring_id_reaches_generator :
  Forall (fun c => contains (lower c) (py "uuid") = false /\ lower c <> py "id")
         (columns MapExamples.video_frame)
  /\ (let out := V3.map_extracted MapExamples.cap_records
                   JobExamples.json_loads_table JobExamples.json_dumps_stub
                   MapExamples.read_csv_table
                   (Some MapExamples.video_csv) (Some MapExamples.pdf_hash)
                   "0f8fad5bd9cb469fa16570867728950e"
                   MapExamples.extracted_world in
      fst out = Return (data_response (py "Mapping complete")
                          (JArr [JobExamples.heat_record]))
      /\ generate_calls (snd out) = 1)
  /\ (let out := V1Backup.map_extracted_data MapExamples.cap_records
                   JobExamples.json_loads_table JobExamples.json_dumps_stub
                   MapExamples.read_csv_table
                   (Some MapExamples.video_csv)
                   (Some JobExamples.records_response)
                   "0f8fad5bd9cb469fa16570867728950e"
                   MapExamples.extracted_world in
      fst out = Return (error_response
                          (py "CSV must contain a UUID or ID column") 400)
      /\ generate_calls (snd out) = 0).
Proof.
  split; [|split].
  - repeat constructor; try (intros E; vm_compute in E; discriminate E).
  - vm_compute. split; reflexivity.
  - vm_compute. split; reflexivity.
Qed.

(** ** Failures of the text extraction *)

(** index.py: when the text layer cannot be read, or reads as a text that
    the quality gate refuses, and OCR fails too, [get_pdf_text] returns
    the sentence that reports the OCR failure as the text of the
    document and stores it in the cache. Every later call on the same
    bytes returns that sentence, whatever the capabilities do by then,
    and invokes none of them. *)
Theorem Index_failed_ocr_is_cached (cap : capabilities) (w : world)
  (path : string) (b : bytes) (e : exn) :
  pdf_files w !! path = Some b ->
  cache_dir w !! text_cache_file b = None ->
  (match pdfplumber_pages cap (plumber_calls w) b with
   | Raise _ => True
   | Return pages =>
       looks_like_bad_text (join_pages Index.page_block 1 pages) = true
   end) ->
  ocr_pages cap (ocr_calls w) b = Raise e ->
  let msg := py "OCR processing failed: " ++ exn_str e in
  utf8 msg <> None ->
  let w1 := World (pdf_files w) (<[text_cache_file b := msg]> (cache_dir w))
                  (S (plumber_calls w)) (S (ocr_calls w)) (generate_calls w) in
  Index.get_pdf_text cap path w = (Return msg, w1)
  /\ forall cap' : capabilities,
       Index.get_pdf_text cap' path w1
       = (Return (universal_newlines msg), w1).
Proof.
  intros Hb Hc Hp Ho msg Henc w1. split.
  - unfold Index.get_pdf_text, Index.extract_text_with_ocr.
    unfold text_cache_file in *. run_world.
    rewrite Hb. exec_goal. rewrite Hb, Hc. exec_goal. rewrite Hb.
    destruct (pdfplumber_pages cap (plumber_calls w) b) as [pages|e1].
    + exec_goal. rewrite Hp. exec_goal. rewrite Hb, Ho. exec_goal.
      fold msg. unfold encode_utf8.
      destruct (utf8 msg); [reflexivity | congruence].
    + exec_goal. rewrite Hb, Ho. exec_goal.
      fold msg. unfold encode_utf8.
      destruct (utf8 msg); [reflexivity | congruence].
  - intros cap'. apply (Index_get_pdf_text_hit cap' w1 path b msg).
    + exact Hb.
    + subst w1. cbn [cache_dir]. apply lookup_insert_eq.
Qed.

Lemma Index_failed_ocr_is_cached_witness :
  fst (Index.get_pdf_text Examples.cap_down "doc.pdf" Examples.fresh_world)
  = Return (py "OCR processing failed: tesseract is not installed").
Proof.
  pose proof (Index_failed_ocr_is_cached Examples.cap_down Examples.fresh_world
                "doc.pdf" Examples.doc_bytes
                (LibraryError (py "tesseract is not installed"))) as H.
  cbv zeta in H.
  rewrite (proj1 (H ltac:(reflexivity) ltac:(vm_compute; reflexivity) I
                    ltac:(reflexivity) ltac:(vm_compute; discriminate))).
  reflexivity.
Defined.

(** index.py: a document that is not on disk is reported with
    [FileNotFoundError] before anything is read or written. For a
    document that is on disk and is read, no failure of the text layer or
    of OCR comes out of [get_pdf_text] as an exception: whatever the two
    capabilities do, the call returns a text, unless the text it has
    obtained cannot be encoded as UTF-8; then the error of the encoding
    is raised and the cache file is left empty. *)
Theorem Index_get_pdf_text_raises (cap : capabilities) (w : world)
  (path : string) :
  (pdf_files w !! path = None ->
   Index.get_pdf_text cap path w
   = (Raise (FileNotFoundError ([0x1F534%N] ++ py " ERROR: File not found -> "
                                ++ py path)), w))
  /\ forall b : bytes,
       pdf_files w !! path = Some b ->
       let out := Index.get_pdf_text cap path w in
       (exists text : str, fst out = Return text)
       \/ (exists text : str,
             utf8 text = None
             /\ fst out = Raise (UnicodeEncodeError (utf8_error_message text))
             /\ cache_dir (snd out) !! text_cache_file b = Some []).
Proof.
  split.
  - intros Hb. unfold Index.get_pdf_text. run_world. rewrite Hb. reflexivity.
  - intros b Hb out. subst out.
    destruct (Index.get_pdf_text cap path w) as [[t|e] w1] eqn:H;
      cbn [fst snd]; [left; eauto|right].
    unfold Index.get_pdf_text, Index.extract_text_with_ocr in H.
    unfold text_cache_file in *.
    run_world. rewrite Hb in H. unfold encode_utf8 in H. exec_in H.
    all: eexists; split; [eassumption|]; split; [reflexivity|].
    all: cbn [cache_dir]; apply lookup_insert_eq.
Qed.

(** A text layer with a lone surrogate: the error names the character
    and its position in the text with the page header. *)
Example Index_lone_surrogate_message :
  fst (Index.get_pdf_text Examples.cap_lone_surrogate "doc.pdf"
         Examples.fresh_world)
  = Raise (UnicodeEncodeError
             (py "'utf-8' codec can't encode character '\ud835' in position 29: surrogates not allowed")).
Proof. vm_compute. reflexivity. Qed.

Lemma Index_get_pdf_text_raises_witness :
  fst (Index.get_pdf_text Examples.cap_plain "other.pdf" Examples.fresh_world)
  = Raise (FileNotFoundError ([0x1F534%N] ++ py " ERROR: File not found -> "
                              ++ py "other.pdf"))
  /\ exists text : str,
       utf8 text = None
       /\ fst (Index.get_pdf_text Examples.cap_lone_surrogate "doc.pdf"
                 Examples.fresh_world)
          = Raise (UnicodeEncodeError (utf8_error_message text))
       /\ cache_dir (snd (Index.get_pdf_text Examples.cap_lone_surrogate
                            "doc.pdf" Examples.fresh_world))
          !! text_cache_file Examples.doc_bytes = Some [].
Proof.
  destruct (Index_get_pdf_text_raises Examples.cap_plain Examples.fresh_world
              "other.pdf") as [H1 _].
  split; [rewrite (H1 eq_refl); reflexivity|].
  destruct (Index_get_pdf_text_raises Examples.cap_lone_surrogate
              Examples.fresh_world "doc.pdf") as [_ H2].
  destruct (H2 Examples.doc_bytes eq_refl) as [[text Ht] | H].
  - exfalso. vm_compute in Ht. discriminate Ht.
  - exact H.
Defined.

(** test.py: [get_pdf_text] has no handler. For a document that is read
    and is not in the text cache, an exception of the text layer, or of
    OCR after a text that the quality gate refuses, comes out as the
    exception it is, and the call leaves the files and the cache as they
    were: nothing is stored, and the next call starts over. *)
Theorem PdfToCsv_failure_is_not_cached (cap : capabilities) (w : world)
  (path : string) (b : bytes) (e : exn) :
  pdf_files w !! path = Some b ->
  cache_dir w !! text_cache_file b = None ->
  (pdfplumber_pages cap (plumber_calls w) b = Raise e
   \/ exists pages,
        pdfplumber_pages cap (plumber_calls w) b = Return pages
        /\ looks_like_bad_text (join_pages PdfToCsv.page_block 1 pages) = true
        /\ ocr_pages cap (ocr_calls w) b = Raise e) ->
  let out := PdfToCsv.get_pdf_text cap path w in
  fst out = Raise e
  /\ pdf_files (snd out) = pdf_files w
  /\ cache_dir (snd out) = cache_dir w
  /\ forall (cap' : capabilities) (pages' : list (option str)),
       let text := join_pages PdfToCsv.page_block 1 pages' in
       pdfplumber_pages cap' (plumber_calls (snd out)) b = Return pages' ->
       looks_like_bad_text text = false ->
       utf8 text <> None ->
       fst (PdfToCsv.get_pdf_text cap' path (snd out)) = Return text.
Proof.
  intros Hb Hc Hfail out. subst out.
  unfold text_cache_file in Hc.
  assert (Hout : PdfToCsv.get_pdf_text cap path w
                 = (Raise e,
                    World (pdf_files w) (cache_dir w) (S (plumber_calls w))
                          (match pdfplumber_pages cap (plumber_calls w) b with
                           | Return _ => S (ocr_calls w)
                           | Raise _ => ocr_calls w
                           end) (generate_calls w))).
  { unfold PdfToCsv.get_pdf_text, PdfToCsv.extract_text_with_ocr. run_world.
    rewrite Hb. exec_goal. rewrite Hb, Hc. exec_goal. rewrite Hb.
    destruct Hfail as [Hp | (pages & Hp & Hbad & Ho)]; rewrite Hp; exec_goal.
    - reflexivity.
    - rewrite Hbad. exec_goal. rewrite Hb, Ho. reflexivity. }
  rewrite Hout. cbn [fst snd pdf_files cache_dir plumber_calls].
  split; [reflexivity|]. split; [reflexivity|]. split; [reflexivity|].
  cbv zeta. intros cap' pages' Hp' Hgood Henc.
  unfold PdfToCsv.get_pdf_text. run_world.
  repeat (exec_goal; first [rewrite Hb | rewrite Hc | rewrite Hp']).
  exec_goal. rewrite Hgood. exec_goal. unfold encode_utf8.
  destruct (utf8 _); [reflexivity|congruence].
Qed.

Lemma PdfToCsv_failure_is_not_cached_witness :
  let out := PdfToCsv.get_pdf_text Examples.cap_down "doc.pdf"
               Examples.fresh_world in
  fst out = Raise (LibraryError (py "no text layer"))
  /\ cache_dir (snd out) = cache_dir Examples.fresh_world
  /\ fst (PdfToCsv.get_pdf_text Examples.cap_plain "doc.pdf" (snd out))
     = Return (py "--- Page 1 Content ---" ++ [NL] ++ Examples.page_plain
               ++ [NL; NL]).
Proof.
  intros out.
  destruct (PdfToCsv_failure_is_not_cached Examples.cap_down
              Examples.fresh_world "doc.pdf" Examples.doc_bytes
              (LibraryError (py "no text layer"))
              ltac:(reflexivity) ltac:(vm_compute; reflexivity)
              (or_introl eq_refl)) as (H1 & _ & H2 & H3).
  split; [exact H1|]. split; [exact H2|].
  apply (H3 Examples.cap_plain [Some Examples.page_plain]).
  - reflexivity.
  - vm_compute. reflexivity.
  - vm_compute. discriminate.
Defined.

(** ** The CSV generation and its cache *)

Lemma lstrip_with_fix (p : char -> bool) (s : str) :
  lstrip_with p (lstrip_with p s) = lstrip_with p s.
Proof.
  induction s as [|c s IH]; [reflexivity|]. simpl.
  destruct (p c) eqn:E; [exact IH|]. simpl. rewrite E. reflexivity.
Qed.

Lemma lstrip_with_keeps_head (p : char -> bool) (c : char) (s : str) :
  p c = false -> lstrip_with p (c :: s) = c :: s.
Proof. intros E. simpl. rewrite E. reflexivity. Qed.

Lemma lstrip_with_starts (p : char -> bool) (s : str) :
  lstrip_with p s = []
  \/ exists c r, lstrip_with p s = c :: r /\ p c = false.
Proof.
  induction s as [|c s IH]; [left; reflexivity|]. simpl.
  destruct (p c) eqn:E; [exact IH|]. right. eauto.
Qed.

Lemma rstrip_with_fix (p : char -> bool) (s : str) :
  rstrip_with p (rstrip_with p s) = rstrip_with p s.
Proof.
  unfold rstrip_with. rewrite rev_involutive, lstrip_with_fix. reflexivity.
Qed.

(** [s.strip().strip() == s.strip()], for every set of characters to
    remove. *)
Lemma strip_with_idem (p : char -> bool) (s : str) :
  strip_with p (strip_with p s) = strip_with p s.
Proof.
  unfold strip_with at 1.
  assert (H : lstrip_with p (strip_with p s) = strip_with p s).
  { unfold strip_with.
    destruct (lstrip_with_starts p s) as [E | (c & r & E & Hc)]; rewrite E.
    - reflexivity.
    - destruct (strip_with_head p c r Hc) as [s' Es].
      unfold strip_with in Es. rewrite (lstrip_with_keeps_head p c r Hc) in Es.
      rewrite Es. apply lstrip_with_keeps_head, Hc. }
  rewrite H. unfold strip_with. apply rstrip_with_fix.
Qed.

Lemma strip_idem (s : str) : strip (strip s) = strip s.
Proof. apply strip_with_idem. Qed.

(** What [generate_csv_from_text] keeps of a response has no white space
    at either end. *)
Lemma clean_csv_output_stripped (response_text : str) :
  strip (clean_csv_output response_text) = clean_csv_output response_text.
Proof.
  unfold clean_csv_output. cbv zeta.
  repeat match goal with
         | |- context [if ?c then _ else _] => destruct c
         end; apply strip_idem.
Qed.

(** index.py: a call of [generate_csv_from_text] that finds nothing in the
    cache and returns has called the model exactly once, on the prompt
    of the text and the request; what it returns is the cleaned response,
    which is not empty and has no white space at either end, and it is
    in the cache under the key of the request. *)
Theorem Index_generate_csv_fresh (cap : capabilities) (w w1 : world)
  (pdf_text user_prompt csv : str) (key : string) :
  request_hash pdf_text user_prompt = Return key ->
  cache_dir w !! (key +:+ ".csv")%string = None ->
  Index.generate_csv_from_text cap pdf_text user_prompt w = (Return csv, w1) ->
  (exists response_text,
        generate_content cap (generate_calls w)
          (Index.csv_prompt pdf_text user_prompt) = Return response_text
        /\ csv = clean_csv_output response_text)
     /\ csv <> [] /\ strip csv = csv
     /\ w1 = World (pdf_files w) (<[(key +:+ ".csv")%string := csv]> (cache_dir w))
                   (plumber_calls w) (ocr_calls w) (S (generate_calls w)).
Proof.
  intros Hk Hc H.
  unfold Index.generate_csv_from_text in H. run_world.
  rewrite Hk in H. exec_in H.
  split; [eauto|]. split; [discriminate|]. split; [|reflexivity].
  match goal with E : clean_csv_output _ = _ |- _ => rewrite <- E end.
  apply clean_csv_output_stripped.
Qed.

Lemma Index_generate_csv_fresh_witness :
  let first := Index.generate_csv_from_text Examples.cap_fenced
                 Examples.page_plain (py "list names") Examples.fresh_world in
  fst first = Return (py "v" ++ [NL] ++ py "a,b" ++ [NL] ++ py "1,2")
  /\ generate_calls (snd first) = 1.
Proof.
  intros first.
  assert (E : first = (Return (py "v" ++ [NL] ++ py "a,b" ++ [NL] ++ py "1,2"),
                       snd first)).
  { subst first.
    destruct (Index.generate_csv_from_text Examples.cap_fenced
                Examples.page_plain (py "list names") Examples.fresh_world)
      as [r w1] eqn:E0.
    assert (Er : r = Return (py "v" ++ [NL] ++ py "a,b" ++ [NL] ++ py "1,2")).
    { apply (f_equal fst) in E0. cbn [fst] in E0. rewrite <- E0.
      vm_compute. reflexivity. }
    rewrite Er. reflexivity. }
  split; [rewrite E; reflexivity|].
  destruct (Index_generate_csv_fresh Examples.cap_fenced Examples.fresh_world
              (snd first) Examples.page_plain (py "list names") _ _
              ltac:(vm_compute; reflexivity) ltac:(vm_compute; reflexivity) E)
    as (_ & _ & _ & ->).
  reflexivity.
Defined.

(** A request that has been answered is answered from the cache: the
    second call of [generate_csv_from_text] with the same text and
    request, in index.py and in test.py, calls nothing, whatever the
    model would say by then, and returns what [read_text] makes of the
    cached answer. *)
Theorem generate_csv_cached_replay (cap cap' : capabilities) (w w1 : world)
  (pdf_text user_prompt csv : str) :
  (Index.generate_csv_from_text cap pdf_text user_prompt w = (Return csv, w1)
   -> Index.generate_csv_from_text cap' pdf_text user_prompt w1
      = (Return (universal_newlines csv), w1))
  /\ (PdfToCsv.generate_csv_from_text cap pdf_text user_prompt w
      = (Return csv, w1)
      -> PdfToCsv.generate_csv_from_text cap' pdf_text user_prompt w1
         = (Return (universal_newlines csv), w1)).
Proof.
  split; intros H.
  - unfold Index.generate_csv_from_text in *. run_world.
    destruct (request_hash pdf_text user_prompt) as [key|e]; [|discriminate].
    exec_in H.
    + exec_goal.
      match goal with E : cache_dir _ !! _ = Some _ |- _ => rewrite !E end.
      exec_goal. rewrite universal_newlines_idem. reflexivity.
    + exec_goal. rewrite lookup_insert_eq. exec_goal.
      rewrite lookup_insert_eq. reflexivity.
  - unfold PdfToCsv.generate_csv_from_text in *. run_world.
    destruct (request_hash pdf_text user_prompt) as [key|e]; [|discriminate].
    exec_in H.
    + exec_goal.
      match goal with E : cache_dir _ !! _ = Some _ |- _ => rewrite !E end.
      exec_goal. rewrite universal_newlines_idem. reflexivity.
    + exec_goal. rewrite lookup_insert_eq. exec_goal.
      rewrite lookup_insert_eq. reflexivity.
Qed.

Lemma generate_csv_cached_replay_witness :
  let first := Index.generate_csv_from_text Examples.cap_fenced
                 Examples.page_plain (py "list names") Examples.fresh_world in
  fst first = Return (py "v" ++ [NL] ++ py "a,b" ++ [NL] ++ py "1,2")
  /\ Index.generate_csv_from_text Examples.cap_down
       Examples.page_plain (py "list names") (snd first)
     = (Return (py "v" ++ [NL] ++ py "a,b" ++ [NL] ++ py "1,2"), snd first).
Proof.
  intros first.
  assert (E : first = (Return (py "v" ++ [NL] ++ py "a,b" ++ [NL] ++ py "1,2"),
                       snd first)).
  { subst first.
    destruct (Index.generate_csv_from_text Examples.cap_fenced
                Examples.page_plain (py "list names") Examples.fresh_world)
      as [r w1] eqn:E0.
    assert (Er : r = Return (py "v" ++ [NL] ++ py "a,b" ++ [NL] ++ py "1,2")).
    { apply (f_equal fst) in E0. cbn [fst] in E0. rewrite <- E0.
      vm_compute. reflexivity. }
    rewrite Er. reflexivity. }
  split; [rewrite E; reflexivity|].
  exact (proj1 (generate_csv_cached_replay Examples.cap_fenced Examples.cap_down
                  Examples.fresh_world (snd first) Examples.page_plain
                  (py "list names")
                  (py "v" ++ [NL] ++ py "a,b" ++ [NL] ++ py "1,2")) E).
Defined.

(** ** Pages without a text layer *)

Lemma py_String (a : ascii) (s : string) :
  py (String a s) = N_of_ascii a :: py s.
Proof. reflexivity. Qed.

Lemma uint_digits (d : Decimal.uint) :
  Forall (fun c => is_ascii_digit c = true) (py (NilEmpty.string_of_uint d)).
Proof.
  induction d; cbn [NilEmpty.string_of_uint]; rewrite ?py_String;
    constructor; try assumption; reflexivity.
Qed.

(** [str(n)] is made of digits. *)
Lemma str_of_nat_digits (n : nat) :
  Forall (fun c => is_ascii_digit c = true) (str_of_nat n).
Proof.
  unfold str_of_nat, NilZero.string_of_uint.
  destruct (Nat.to_uint n) eqn:E; try (rewrite <- E; apply uint_digits).
  repeat constructor.
Qed.

Lemma utf8_app (s t : str) :
  utf8 s <> None -> utf8 t <> None -> utf8 (s ++ t) <> None.
Proof.
  intros Hs Ht. induction s as [|c s IH]; [exact Ht|].
  simpl in *. destruct (utf8_char c); [|congruence].
  destruct (utf8 s); [|congruence].
  destruct (utf8 (s ++ t)); [discriminate|]. exfalso. apply IH; congruence.
Qed.

Lemma utf8_py_defined (s : string) : utf8 (py s) <> None.
Proof. destruct (utf8_py s) as [b ->]. discriminate. Qed.

Section TextlessPages.
Variable block : nat -> option str -> str.
Hypothesis block_shape : forall i page,
  block i page = py "--- Page " ++ str_of_nat i ++ py " Content ---" ++ [NL]
                 ++ or_empty page ++ [NL; NL].

Let visible (c : char) : bool := negb (is_space c).
Let odd_char (c : char) : bool := negb (is_ascii_alnum c || is_space c).

Lemma digit_not_space (c : char) :
  is_ascii_digit c = true -> is_space c = false.
Proof.
  unfold is_ascii_digit. intros H. unfold is_space. char_class.
  repeat (apply orb_false_iff; split);
    try (apply andb_false_iff);
    rewrite ?N.leb_gt, ?N.eqb_neq; lia.
Qed.

Lemma digits_visible (l : str) :
  Forall (fun c => is_ascii_digit c = true) l ->
  List.filter odd_char l = [] /\ List.filter visible l = l.
Proof.
  induction 1 as [|c l Hc _ [IH1 IH2]]; [split; reflexivity|].
  subst visible odd_char. cbn [List.filter] in *.
  unfold is_ascii_alnum. rewrite Hc, (digit_not_space c Hc), orb_true_r.
  cbn [orb negb]. rewrite IH2. split; [exact IH1|reflexivity].
Qed.

Lemma textless_block (i : nat) (page : option str) :
  or_empty page = [] ->
  24 <= length (block i page)
  /\ length (List.filter odd_char (block i page)) = 6
  /\ 17 <= length (List.filter visible (block i page))
  /\ utf8 (block i page) <> None.
Proof.
  intros E. rewrite block_shape, E.
  destruct (digits_visible _ (str_of_nat_digits i)) as [Ho Hv].
  rewrite !List.filter_app, Ho, Hv, !length_app.
  split; [|split; [|split]].
  - change (length (py "--- Page ")) with 9.
    change (length (py " Content ---")) with 12. simpl. lia.
  - reflexivity.
  - change (length (List.filter visible (py "--- Page "))) with 7.
    change (length (List.filter visible (py " Content ---"))) with 10.
    simpl. lia.
  - repeat apply utf8_app; try apply utf8_py_defined; discriminate.
Qed.

Lemma textless_pages (pages : list (option str)) :
  Forall (fun page => or_empty page = []) pages ->
  forall i,
    let text := join_pages block i pages in
    24 * length pages <= length text
    /\ length (List.filter odd_char text) = 6 * length pages
    /\ 17 * length pages <= length (List.filter visible text)
    /\ utf8 text <> None.
Proof.
  induction 1 as [|page pages Hp _ IH]; intros i; cbn zeta.
  - simpl. repeat split; try lia. discriminate.
  - cbn [join_pages length].
    destruct (textless_block i page Hp) as (B1 & B2 & B3 & B4).
    destruct (IH (S i)) as (T1 & T2 & T3 & T4).
    rewrite !List.filter_app, !length_app.
    repeat split; try lia. apply utf8_app; assumption.
Qed.

(** Three or more pages, none with any text: the headers alone have
    more than 50 characters, a quarter of them dashes, and the quality
    gate lets the text pass. *)
Lemma textless_pages_pass (pages : list (option str)) :
  Forall (fun page => or_empty page = []) pages ->
  3 <= length pages ->
  looks_like_bad_text (join_pages block 1 pages) = false
  /\ utf8 (join_pages block 1 pages) <> None.
Proof.
  intros Hp Hn. destruct (textless_pages pages Hp 1) as (T1 & T2 & T3 & T4).
  split; [|exact T4].
  unfold looks_like_bad_text.
  pose proof (strip_with_keeps is_space visible
                (fun c Hc => proj1 (negb_true_iff _) Hc)
                (join_pages block 1 pages)) as Hk.
  fold (strip (join_pages block 1 pages)) in Hk.
  destruct (Nat.ltb_spec (length (strip (join_pages block 1 pages))) 50);
    [lia|].
  destruct (negb (Qle_bool _ _)) eqn:E; [|reflexivity].
  apply ratio_exceeds_half in E. unfold count_non_alnum_space in E.
  fold odd_char in E. lia.
Qed.
End TextlessPages.

(** A scanned document of three or more pages, none of which has a text
    layer, is not sent to OCR: index.py and test.py both return the page
    headers as its text and cache them, and the OCR capability is not
    invoked. *)
Theorem textless_pages_skip_ocr (cap : capabilities) (w : world)
  (path : string) (b : bytes) (pages : list (option str)) :
  pdf_files w !! path = Some b ->
  cache_dir w !! text_cache_file b = None ->
  pdfplumber_pages cap (plumber_calls w) b = Return pages ->
  Forall (fun page => or_empty page = []) pages ->
  3 <= length pages ->
  let text := join_pages Index.page_block 1 pages in
  let w1 := World (pdf_files w) (<[text_cache_file b := text]> (cache_dir w))
                  (S (plumber_calls w)) (ocr_calls w) (generate_calls w) in
  Index.get_pdf_text cap path w = (Return text, w1)
  /\ PdfToCsv.get_pdf_text cap path w = (Return text, w1).
Proof.
  intros Hb Hc Hp Hempty Hn text w1.
  destruct (textless_pages_pass Index.page_block (fun _ _ => eq_refl)
              pages Hempty Hn) as [Hgate Henc].
  fold text in Hgate, Henc.
  unfold Index.get_pdf_text, PdfToCsv.get_pdf_text, text_cache_file in *.
  run_world. rewrite Hb. exec_goal. rewrite Hb, Hc. exec_goal.
  rewrite Hb, Hp. exec_goal.
  change (join_pages PdfToCsv.page_block 1 pages) with text.
  fold text. rewrite Hgate. exec_goal. unfold encode_utf8.
  destruct (utf8 text); [split; reflexivity | congruence].
Qed.

Lemma textless_pages_skip_ocr_witness :
  ocr_calls (snd (Index.get_pdf_text
                    (Capabilities (fun _ _ => Return [None; Some []; None])
                                  Examples.no_ocr Examples.no_model)
                    "doc.pdf" Examples.fresh_world)) = 0.
Proof.
  rewrite (proj1 (textless_pages_skip_ocr
                    (Capabilities (fun _ _ => Return [None; Some []; None])
                                  Examples.no_ocr Examples.no_model)
                    Examples.fresh_world "doc.pdf" Examples.doc_bytes
                    [None; Some []; None]
                    ltac:(reflexivity) ltac:(vm_compute; reflexivity)
                    ltac:(reflexivity)
                    ltac:(repeat constructor) ltac:(simpl; lia))).
  reflexivity.
Defined.

(** ** Jobs of index2_backup.py: calls, cache and replay *)

(** The whole run of an extraction of index2_backup.py on a document
    that is not in the JSON cache, when every generation call returns. *)
Lemma V1Backup_extract_run (cap : capabilities)
  (json_loads : str -> result json) (json_dumps : json -> string)
  (b : bytes) (w w1 : world) (pdf_text : str) (texts : list str) :
  cache_dir w !! json_cache_file b = None ->
  V1Backup.get_pdf_text cap (pdf_cache_file b)
    (World (<[pdf_cache_file b := b]> (pdf_files w)) (cache_dir w)
           (plumber_calls w) (ocr_calls w) (generate_calls w))
  = (Return pdf_text, w1) ->
  generation_outcomes cap V1Backup.chunk_prompt (generate_calls w1) 1
    (chunk_text MAX_CHARS pdf_text) = List.map Return texts ->
  let records := concat (List.map (backup_chunk_records json_loads) texts) in
  let calls := generate_calls w1 + ceil_div (length pdf_text) MAX_CHARS in
  V1Backup.extract_pdf_data cap json_loads json_dumps (Some b) w
  = match records with
    | [] =>
        (Return (error_response
                   (py "Gemini returned no valid structured data") 500),
         World (pdf_files w1) (cache_dir w1) (plumber_calls w1) (ocr_calls w1)
               calls)
    | _ :: _ =>
        (Return (data_response (py "Extracted successfully") (JArr records)),
         World (pdf_files w1)
               (<[json_cache_file b := py (json_dumps (JArr records))]>
                  (cache_dir w1))
               (plumber_calls w1) (ocr_calls w1) calls)
    end.
Proof.
  intros Hc Hget Hgen records calls.
  unfold V1Backup.extract_pdf_data, handle_errors.
  unfold bind at 1. unfold attempt.
  unfold bind at 1. unfold write_bytes.
  unfold bind at 1. unfold cache_exists at 1.
  cbn [cache_dir]. rewrite Hc.
  unfold bind at 1. rewrite Hget.
  unfold bind at 1.
  rewrite (V1Backup_chunk_loop cap json_loads _ 1 [] w1 texts Hgen).
  rewrite chunk_text_count. fold calls.
  cbn [app]. fold records.
  destruct records as [|r rs]; cbn [truthy negb].
  - reflexivity.
  - unfold bind at 1. rewrite write_text_py. reflexivity.
Qed.

(** index2_backup.py calls the model once for every [MAX_CHARS] (180000)
    characters of the text, begun ones included, whatever the model answers; a
    document whose text is empty costs no call and is answered with
    status 500. *)
Theorem V1Backup_one_call_per_chunk (cap : capabilities)
  (json_loads : str -> result json) (json_dumps : json -> string)
  (b : bytes) (w w1 : world) (pdf_text : str) (texts : list str) :
  cache_dir w !! json_cache_file b = None ->
  V1Backup.get_pdf_text cap (pdf_cache_file b)
    (World (<[pdf_cache_file b := b]> (pdf_files w)) (cache_dir w)
           (plumber_calls w) (ocr_calls w) (generate_calls w))
  = (Return pdf_text, w1) ->
  generation_outcomes cap V1Backup.chunk_prompt (generate_calls w1) 1
    (chunk_text MAX_CHARS pdf_text) = List.map Return texts ->
  let out := V1Backup.extract_pdf_data cap json_loads json_dumps (Some b) w in
  generate_calls (snd out)
  = generate_calls w + ceil_div (length pdf_text) MAX_CHARS
  /\ length texts = ceil_div (length pdf_text) MAX_CHARS
  /\ (pdf_text = [] ->
      out = (Return (error_response
                       (py "Gemini returned no valid structured data") 500),
             w1)).
Proof.
  intros Hc Hget Hgen out.
  pose proof (V1Backup_extract_run cap json_loads json_dumps b w w1 pdf_text
                texts Hc Hget Hgen) as Hrun.
  cbv zeta in Hrun. fold out in Hrun.
  assert (Hw1 : generate_calls w1 = generate_calls w).
  { unfold V1Backup.get_pdf_text, V1Backup.extract_text_with_ocr in Hget.
    run_world. unfold encode_utf8 in Hget. exec_in Hget; reflexivity. }
  assert (Hlen : length texts = ceil_div (length pdf_text) MAX_CHARS).
  { rewrite <- chunk_text_count.
    apply (f_equal (@length _)) in Hgen.
    rewrite length_map in Hgen. rewrite <- Hgen.
    clear. generalize (generate_calls w1) 1.
    induction (chunk_text MAX_CHARS pdf_text) as [|c l IH]; intros n i;
      [reflexivity|]. simpl. rewrite <- (IH (S n) (S i)). reflexivity. }
  split; [|split].
  - rewrite Hrun, <- Hw1.
    destruct (concat _); reflexivity.
  - exact Hlen.
  - intros ->. rewrite Hrun.
    rewrite chunk_text_nil in Hgen.
    destruct texts; [|discriminate Hgen].
    cbn [List.map concat length]. rewrite ceil_div_0, Nat.add_0_r.
    destruct w1; reflexivity.
Qed.

Lemma V1Backup_one_call_per_chunk_witness :
  V1Backup.extract_pdf_data CacheExamples.cap_no_pages
    JobExamples.json_loads_table JobExamples.json_dumps_stub
    (Some JobExamples.upload) JobExamples.empty_world
  = (Return (error_response
               (py "Gemini returned no valid structured data") 500),
     snd (V1Backup.get_pdf_text CacheExamples.cap_no_pages
            (pdf_cache_file JobExamples.upload)
            (World (<[pdf_cache_file JobExamples.upload := JobExamples.upload]> ∅)
                   ∅ 0 0 0))).
Proof.
  refine (proj2 (proj2 (V1Backup_one_call_per_chunk CacheExamples.cap_no_pages
            JobExamples.json_loads_table JobExamples.json_dumps_stub
            JobExamples.upload JobExamples.empty_world _ [] [] _ _ _)) eq_refl).
  - vm_compute. reflexivity.
  - destruct (V1Backup.get_pdf_text _ _ _) as [r w1] eqn:E.
    apply (f_equal fst) in E. cbn [fst snd] in *. rewrite <- E.
    vm_compute. reflexivity.
  - reflexivity.
Defined.

(** What a handler does when the JSON cache has the document: it reads
    the file and answers with what [json.loads] makes of it; extraction
    and model are not used. This part is the same in index2.py and
    index2_backup.py. *)
Lemma extract_pdf_data_hit (cap : capabilities)
  (json_loads : str -> result json) (json_dumps : json -> string)
  (b : bytes) (w : world) (t : str) :
  cache_dir w !! json_cache_file b = Some t ->
  let answer :=
    match json_loads (universal_newlines t) with
    | Return cached => data_response (py "Loaded from cache") cached
    | Raise e => error_response (exn_str e) 500
    end in
  let w' := World (<[pdf_cache_file b := b]> (pdf_files w)) (cache_dir w)
                  (plumber_calls w) (ocr_calls w) (generate_calls w) in
  V1.extract_pdf_data cap json_loads json_dumps (Some b) w = (Return answer, w')
  /\ V1Backup.extract_pdf_data cap json_loads json_dumps (Some b) w
     = (Return answer, w').
Proof.
  intros Hc answer w'. subst answer w'.
  unfold V1.extract_pdf_data, V1Backup.extract_pdf_data, handle_errors.
  run_world. unfold write_bytes. exec_goal. rewrite Hc. exec_goal. rewrite Hc.
  destruct (json_loads (universal_newlines t)); split; reflexivity.
Qed.

Lemma V1Backup_get_pdf_text_files (cap : capabilities) (w w1 : world)
  (path : string) (r : result str) :
  V1Backup.get_pdf_text cap path w = (r, w1) ->
  pdf_files w1 = pdf_files w /\ generate_calls w1 = generate_calls w.
Proof.
  intros H. unfold V1Backup.get_pdf_text, V1Backup.extract_text_with_ocr in H.
  run_world. unfold encode_utf8 in H.
  repeat (exec_goal; case_step H); simplify_eq; split; reflexivity.
Qed.

(** A document that index2_backup.py has extracted is answered from the
    cache from then on: a second request with the same bytes reads the
    stored array back, uses neither the text layer, nor OCR, nor the
    model, whatever they would do by then, and leaves files, cache and
    counters as the first request left them. *)
Theorem V1Backup_extraction_replay (cap cap' : capabilities)
  (json_loads : str -> result json) (json_dumps : json -> string)
  (b : bytes) (w w1 : world) (pdf_text : str) (texts : list str) :
  cache_dir w !! json_cache_file b = None ->
  V1Backup.get_pdf_text cap (pdf_cache_file b)
    (World (<[pdf_cache_file b := b]> (pdf_files w)) (cache_dir w)
           (plumber_calls w) (ocr_calls w) (generate_calls w))
  = (Return pdf_text, w1) ->
  generation_outcomes cap V1Backup.chunk_prompt (generate_calls w1) 1
    (chunk_text MAX_CHARS pdf_text) = List.map Return texts ->
  let records := concat (List.map (backup_chunk_records json_loads) texts) in
  records <> [] ->
  let first := V1Backup.extract_pdf_data cap json_loads json_dumps (Some b) w in
  fst first = Return (data_response (py "Extracted successfully")
                                    (JArr records))
  /\ V1Backup.extract_pdf_data cap' json_loads json_dumps (Some b) (snd first)
     = (Return
          match json_loads (universal_newlines
                              (py (json_dumps (JArr records)))) with
          | Return cached => data_response (py "Loaded from cache") cached
          | Raise e => error_response (exn_str e) 500
          end,
        snd first).
Proof.
  intros Hc Hget Hgen records Hrec first.
  pose proof (V1Backup_extract_run cap json_loads json_dumps b w w1 pdf_text
                texts Hc Hget Hgen) as Hrun.
  cbv zeta in Hrun. fold records first in Hrun.
  destruct records as [|r rs]; [congruence|].
  rewrite Hrun. cbn [fst snd]. split; [reflexivity|].
  destruct (V1Backup_get_pdf_text_files _ _ _ _ _ Hget) as [Hfiles _].
  cbn [pdf_files] in Hfiles.
  match goal with
  | |- V1Backup.extract_pdf_data _ _ _ _ ?w2 = _ =>
      rewrite (proj2 (extract_pdf_data_hit cap' json_loads json_dumps b w2
                        (py (json_dumps (JArr (r :: rs))))
                        ltac:(cbn [cache_dir]; apply lookup_insert_eq)))
  end.
  cbn [pdf_files cache_dir plumber_calls ocr_calls generate_calls].
  rewrite Hfiles, insert_insert_eq. reflexivity.
Qed.

Lemma V1Backup_extraction_replay_witness :
  let first := V1Backup.extract_pdf_data CacheExamples.cap_records
                 JobExamples.json_loads_table CacheExamples.json_dumps_records
                 (Some JobExamples.upload) JobExamples.empty_world in
  V1Backup.extract_pdf_data Examples.cap_down
    JobExamples.json_loads_table CacheExamples.json_dumps_records
    (Some JobExamples.upload) (snd first)
  = (Return (data_response (py "Loaded from cache")
                           (JArr [JobExamples.heat_record])),
     snd first).
Proof.
  intros first.
  assert (Hget : exists w1,
    V1Backup.get_pdf_text CacheExamples.cap_records
      (pdf_cache_file JobExamples.upload)
      (World (<[pdf_cache_file JobExamples.upload := JobExamples.upload]> ∅)
             ∅ 0 0 0)
    = (Return (join_pages V1Backup.page_block 1 [Some Examples.page_plain]),
       w1)).
  { destruct (V1Backup.get_pdf_text _ _ _) as [r w1] eqn:E.
    exists w1. apply (f_equal fst) in E. cbn [fst] in E. rewrite <- E.
    vm_compute. reflexivity. }
  destruct Hget as [w1 Hget].
  exact (proj2 (V1Backup_extraction_replay CacheExamples.cap_records
                  Examples.cap_down JobExamples.json_loads_table
                  CacheExamples.json_dumps_records JobExamples.upload
                  JobExamples.empty_world w1 _ [JobExamples.records_response]
                  ltac:(vm_compute; reflexivity) Hget
                  ltac:(vm_compute; reflexivity)
                  ltac:(vm_compute; discriminate))).
Defined.

(** ** Single-prompt extraction: blank documents and unparsable answers *)

(** v2/index_v2.py: a document whose text is empty or white space only
    is answered with status 400 before any prompt is built; the model is
    not called. *)
Theorem V2_blank_text_is_refused (cap : capabilities)
  (json_loads : str -> result json) (b : bytes) (upload_uuid : string)
  (w : world) (pages : list (option str)) :
  pdfplumber_pages cap (plumber_calls w) b = Return pages ->
  strip (join_pages (fun _ page => or_empty page) 1 pages) = [] ->
  V2.extract_pdf_data cap json_loads (Some b) upload_uuid w
  = (Return (error_response (py "PDF has no readable text") 400),
     World (<[(upload_uuid +:+ ".pdf")%string := b]> (pdf_files w))
           (cache_dir w) (S (plumber_calls w)) (ocr_calls w)
           (generate_calls w)).
Proof.
  intros Hp Hblank.
  unfold V2.extract_pdf_data, V2.get_pdf_text, handle_errors.
  unfold_monad. rewrite lookup_insert_eq. exec_goal. rewrite Hp. exec_goal.
  rewrite Hblank. reflexivity.
Qed.

Lemma V2_blank_text_is_refused_witness :
  fst (V2.extract_pdf_data
         (Capabilities (fun _ _ => Return [None; Some (py "  "); Some [NL]])
                       Examples.no_ocr Examples.no_model)
         JobExamples.json_loads_table (Some JobExamples.upload)
         "0f8fad5bd9cb469fa16570867728950e" JobExamples.empty_world)
  = Return (error_response (py "PDF has no readable text") 400).
Proof.
  rewrite (V2_blank_text_is_refused
             (Capabilities (fun _ _ => Return [None; Some (py "  "); Some [NL]])
                           Examples.no_ocr Examples.no_model)
             JobExamples.json_loads_table JobExamples.upload
             "0f8fad5bd9cb469fa16570867728950e" JobExamples.empty_world
             [None; Some (py "  "); Some [NL]]
             ltac:(reflexivity) ltac:(vm_compute; reflexivity)).
  reflexivity.
Defined.

(** v2/index_v2.py: once the text is read and the model has answered,
    the response has status 200 and its data are a list, whatever the
    answer was: the array that the answer parses to, or one record that
    reports a parsing error and carries the cleaned answer. *)
Theorem V2_extract_answers_array (cap : capabilities)
  (json_loads : str -> result json) (b : bytes) (upload_uuid : string)
  (w : world) (pages : list (option str)) (result_text : str) :
  let pdf_text := join_pages (fun _ page => or_empty page) 1 pages in
  let clean := V2.clean_response result_text in
  pdfplumber_pages cap (plumber_calls w) b = Return pages ->
  strip pdf_text <> [] ->
  generate_content cap (generate_calls w) (V2.extract_prompt pdf_text)
  = Return result_text ->
  exists items,
    fst (V2.extract_pdf_data cap json_loads (Some b) upload_uuid w)
    = Return (Response 200 (JObj [(py "data", JArr items)]))
    /\ (json_loads clean = Return (JArr items)
        \/ exists description,
             JArr items = V2.parsing_error_data description
             /\ json_loads clean <> Return (JArr items)
             /\ (description = clean \/ clean = [] /\ description = py "No data")).
Proof.
  intros pdf_text clean Hp Hblank Hgen.
  rewrite (V2_extract_run cap json_loads b upload_uuid w pages Hp Hblank).
  cbv zeta. fold pdf_text. rewrite Hgen. fold clean. cbn [fst].
  destruct (json_loads clean) as [data|e] eqn:E.
  - destruct data as [| ? | ? | ? | ? | items | ?]; cbn [is_list negb];
      try (eexists; split; [reflexivity|]; right; exists clean;
           split; [reflexivity|]; split; [discriminate|]; left; reflexivity).
    exists items. split; [reflexivity|]. left. reflexivity.
  - eexists. split; [reflexivity|]. right.
    destruct clean as [|c r]; cbn [truthy].
    + exists (py "No data"). split; [reflexivity|]. split; [discriminate|].
      right. split; reflexivity.
    + exists (c :: r). split; [reflexivity|]. split; [discriminate|].
      left. reflexivity.
Qed.

Lemma V2_extract_answers_array_witness :
  exists items,
    fst (V2.extract_pdf_data JobExamples.cap_scalar JobExamples.json_loads_table
           (Some JobExamples.upload) "0f8fad5bd9cb469fa16570867728950e"
           (World ∅ ∅ 0 0 1))
    = Return (Response 200 (JObj [(py "data", JArr items)])).
Proof.
  destruct (V2_extract_answers_array JobExamples.cap_scalar
              JobExamples.json_loads_table JobExamples.upload
              "0f8fad5bd9cb469fa16570867728950e" (World ∅ ∅ 0 0 1)
              [Some JobExamples.long_page] (py "5")
              ltac:(reflexivity)
              ltac:(apply strip_nonblank; vm_compute; reflexivity)
              ltac:(reflexivity)) as [items [H _]].
  exists items. exact H.
Defined.

(** ** v3/app.py: what the extraction leaves for later requests *)

Lemma V3_extract_hit (cap : capabilities) (json_loads : str -> result json)
  (json_dumps : json -> string) (b : bytes) (w : world) (t : str) :
  cache_dir w !! json_cache_file b = Some t ->
  V3.extract_pdf_data cap json_loads json_dumps (Some b) w
  = (Return
       match json_loads (universal_newlines t) with
       | Return cached =>
           Response 200
             (JObj [(py "message", JStr (py "Loaded from cache"));
                    (py "hash", JStr (py (SHA256.hexdigest b)));
                    (py "data", cached)])
       | Raise e => error_response (exn_str e) 500
       end,
     World (<[pdf_cache_file b := b]> (pdf_files w)) (cache_dir w)
           (plumber_calls w) (ocr_calls w) (generate_calls w)).
Proof.
  intros Hc. unfold V3.extract_pdf_data, handle_errors.
  run_world. unfold write_bytes. exec_goal. rewrite Hc. exec_goal. rewrite Hc.
  destruct (json_loads (universal_newlines t)); reflexivity.
Qed.

(** v3/app.py: when the answer of the model does not parse, the request
    is answered with status 200 and one record that says "Parsing
    error", and that record is written to the JSON cache as the data of
    the document. Every later request with the same bytes is answered
    from it; the model is not asked again. *)
Theorem V3_parse_failure_is_cached (cap cap' : capabilities)
  (json_loads : str -> result json) (json_dumps : json -> string)
  (b : bytes) (w : world) (pages : list (option str)) (text_output : str)
  (e : exn) :
  cache_dir w !! json_cache_file b = None ->
  pdfplumber_pages cap (plumber_calls w) b = Return pages ->
  generate_content cap (generate_calls w)
    (V3.extract_prompt (join_pages V3.page_block 1 pages))
  = Return text_output ->
  json_loads (V3.clean_response text_output) = Raise e ->
  let first := V3.extract_pdf_data cap json_loads json_dumps (Some b) w in
  let stored := py (json_dumps V3.parsing_error_data) in
  fst first
  = Return (Response 200
              (JObj [(py "message", JStr (py "Extracted successfully"));
                     (py "hash", JStr (py (SHA256.hexdigest b)));
                     (py "data", V3.parsing_error_data)]))
  /\ cache_dir (snd first) !! json_cache_file b = Some stored
  /\ V3.extract_pdf_data cap' json_loads json_dumps (Some b) (snd first)
     = (Return
          match json_loads (universal_newlines stored) with
          | Return cached =>
              Response 200
                (JObj [(py "message", JStr (py "Loaded from cache"));
                       (py "hash", JStr (py (SHA256.hexdigest b)));
                       (py "data", cached)])
          | Raise e' => error_response (exn_str e') 500
          end,
        snd first).
Proof.
  intros Hc Hp Hgen Hparse first stored. subst first.
  rewrite (V3_extract_miss cap json_loads json_dumps b w pages Hc Hp).
  cbv zeta. rewrite Hgen, Hparse. cbn [fst snd]. fold stored.
  split; [reflexivity|].
  assert (Hs : cache_dir
                 (set_cache (json_cache_file b) stored
                    (World (<[pdf_cache_file b := b]> (pdf_files w))
                           (cache_dir w) (S (plumber_calls w)) (ocr_calls w)
                           (S (generate_calls w))))
               !! json_cache_file b = Some stored).
  { unfold set_cache. cbn [cache_dir]. apply lookup_insert_eq. }
  split; [exact Hs|].
  rewrite (V3_extract_hit cap' json_loads json_dumps b _ stored Hs).
  unfold set_cache.
  cbn [pdf_files cache_dir plumber_calls ocr_calls generate_calls].
  rewrite insert_insert_eq. reflexivity.
Qed.

Lemma V3_parse_failure_is_cached_witness :
  fst (V3.extract_pdf_data AnswerExamples.cap_prose JobExamples.json_loads_table
         JobExamples.json_dumps_stub (Some JobExamples.upload)
         JobExamples.empty_world)
  = Return (Response 200
              (JObj [(py "message", JStr (py "Extracted successfully"));
                     (py "hash", JStr (py (SHA256.hexdigest JobExamples.upload)));
                     (py "data", V3.parsing_error_data)])).
Proof.
  refine (proj1 (V3_parse_failure_is_cached AnswerExamples.cap_prose
                   Examples.cap_down JobExamples.json_loads_table
                   JobExamples.json_dumps_stub JobExamples.upload
                   JobExamples.empty_world [Some Examples.page_plain]
                   AnswerExamples.prose_response
                   (ValueError (py "Expecting value")) _ _ _ _)).
  - vm_compute. reflexivity.
  - reflexivity.
  - reflexivity.
  - vm_compute. reflexivity.
Defined.

(** ** The form of the hashes *)

Lemma round_length (st : list N) (kw : N * N) :
  length st = 8 -> length (SHA256.round st kw) = 8.
Proof.
  intros H. unfold SHA256.round.
  do 9 (destruct st as [|? st]; try discriminate H). reflexivity.
Qed.

Lemma fold_round_length (l : list (N * N)) :
  forall st, length st = 8 -> length (fold_left SHA256.round l st) = 8.
Proof.
  induction l as [|kw l IH]; intros st H; [exact H|].
  cbn [fold_left]. apply IH, round_length, H.
Qed.

Lemma compress_length (h : list N) (block : bytes) :
  length h = 8 -> length (SHA256.compress h block) = 8.
Proof.
  intros H. unfold SHA256.compress. cbv zeta.
  rewrite length_map, length_combine, fold_round_length by exact H.
  rewrite H. reflexivity.
Qed.

Lemma digest_words_length (msg : bytes) :
  length (SHA256.digest_words msg) = 8.
Proof.
  unfold SHA256.digest_words. cbv zeta.
  generalize (SHA256.groups_of (length (SHA256.pad msg)) 64 (SHA256.pad msg)).
  intros blocks.
  assert (H : length SHA256.H0 = 8) by reflexivity.
  revert H. generalize SHA256.H0.
  induction blocks as [|b blocks IH]; intros h H; [exact H|].
  cbn [fold_left]. apply IH, compress_length, H.
Qed.

Lemma be_bytes_4 (x : N) :
  length (SHA256.be_bytes 4 x) = 4
  /\ Forall (fun b => (b < 256)%N) (SHA256.be_bytes 4 x).
Proof.
  split; [reflexivity|].
  unfold SHA256.be_bytes. cbn [seq rev app List.map].
  repeat constructor;
    change 255%N with (N.ones 8); rewrite N.land_ones;
    apply N.mod_lt; discriminate.
Qed.

Lemma digest_bytes (msg : bytes) :
  length (SHA256.digest msg) = 32
  /\ Forall (fun b => (b < 256)%N) (SHA256.digest msg).
Proof.
  unfold SHA256.digest. pose proof (digest_words_length msg) as H.
  destruct (SHA256.digest_words msg) as [|a [|b [|c [|d [|e [|f [|g [|h [|]]]]]]]]];
    try discriminate H.
  cbn [flat_map]. rewrite app_nil_r. split.
  - rewrite !length_app. rewrite !(proj1 (be_bytes_4 _)). reflexivity.
  - repeat (apply Forall_app; split); apply be_bytes_4.
Qed.

Lemma hex_digit_is_hex_char (n : N) :
  (n < 16)%N -> is_hex_char (SHA256.hex_digit n) = true.
Proof.
  intros H.
  assert (All : forallb (fun k => is_hex_char (SHA256.hex_digit (N.of_nat k)))
                  (seq 0 16) = true) by (vm_compute; reflexivity).
  rewrite forallb_forall in All.
  rewrite <- (N2Nat.id n). apply All. apply in_seq. lia.
Qed.

Lemma hex_pairs_length (d : bytes) :
  length (flat_map (fun b => [SHA256.hex_digit (b / 16);
                              SHA256.hex_digit (b mod 16)]) d)
  = 2 * length d.
Proof.
  induction d as [|b d IH]; [reflexivity|].
  cbn [flat_map app length]. rewrite IH. lia.
Qed.

Lemma string_of_list_ascii_length (l : list ascii) :
  String.length (string_of_list_ascii l) = length l.
Proof.
  induction l as [|a l IH]; [reflexivity|].
  cbn [string_of_list_ascii String.length length]. rewrite IH. reflexivity.
Qed.

(** Every digest that [hexdigest] gives has the form of a hex digest. *)
Lemma hexdigest_is_hex_digest (msg : bytes) :
  is_hex_digest (SHA256.hexdigest msg) = true.
Proof.
  unfold is_hex_digest, SHA256.hexdigest.
  destruct (digest_bytes msg) as [Hlen Hall].
  rewrite list_ascii_of_string_of_list_ascii.
  rewrite string_of_list_ascii_length, hex_pairs_length, Hlen.
  cbn [Nat.mul Nat.add Nat.eqb andb].
  apply forallb_forall. intros a Hin.
  apply in_flat_map in Hin as (b & Hb & Ha).
  rewrite List.Forall_forall in Hall. specialize (Hall b Hb).
  destruct Ha as [<- | [<- | []]]; apply hex_digit_is_hex_char.
  - apply N.Div0.div_lt_upper_bound. exact Hall.
  - apply N.mod_lt. discriminate.
Qed.

(** ** v3/app.py: the hash that links extraction and reconciliation *)

(** With an extraction in the cache under the hash, [map_extracted] gives
    a response, and its status is not 404. *)
Lemma V3_map_extracted_found (cap : capabilities)
  (json_loads : str -> result json) (json_dumps : json -> string)
  (read_csv : bytes -> result dataframe) (csv : bytes) (hash : string)
  (ref_uuid : string) (w : world) (t : str) :
  cache_dir w !! (hash +:+ ".json")%string = Some t ->
  exists resp,
    fst (V3.map_extracted cap json_loads json_dumps read_csv
           (Some csv) (Some hash) ref_uuid w) = Return resp
    /\ status resp <> 404.
Proof.
  intros Hc. unfold V3.map_extracted, handle_errors.
  run_world. unfold write_bytes. rewrite Hc. exec_goal. rewrite Hc.
  repeat match goal with
  | |- context [match ?x with _ => _ end] =>
      match x with
      | context [match _ with _ => _ end] => fail 1
      | _ => destruct x eqn:?; exec_goal
      end
  | |- context [if ?x then _ else _] =>
      match x with
      | context [match _ with _ => _ end] => fail 1
      | context [if _ then _ else _] => fail 1
      | _ => destruct x eqn:?; exec_goal
      end
  end.
  all: eexists; split; [reflexivity|].
  all: cbn [status error_response data_response]; discriminate.
Qed.

(** v3/app.py: for a request whose hash has the form of a hex digest,
    as every hash has that [extract_pdf_data] returns, [map_extracted]
    answers with status 404 exactly when the cache holds no extraction
    under that hash, and then it has stored nothing and called nothing.
    No exception leaves the handler: whatever happens is made a
    response. *)
Theorem V3_map_extracted_not_found (cap : capabilities)
  (json_loads : str -> result json) (json_dumps : json -> string)
  (read_csv : bytes -> result dataframe) (csv : bytes) (hash : string)
  (ref_uuid : string) (w : world) :
  is_hex_digest hash = true ->
  let out := V3.map_extracted cap json_loads json_dumps read_csv
               (Some csv) (Some hash) ref_uuid w in
  exists resp,
    fst out = Return resp
    /\ (status resp = 404 <-> cache_dir w !! (hash +:+ ".json")%string = None)
    /\ (status resp = 404 ->
        out = (Return (error_response (py "Extracted data not found") 404), w)).
Proof.
  intros _ out.
  destruct (cache_dir w !! (hash +:+ ".json")%string) as [t|] eqn:Hc.
  - destruct (V3_map_extracted_found cap json_loads json_dumps read_csv csv
                hash ref_uuid w t Hc) as (resp & Hr & Hs).
    exists resp. split; [exact Hr|]. split; [|contradiction].
    split; [contradiction|discriminate].
  - subst out. unfold V3.map_extracted, handle_errors.
    run_world. rewrite Hc. exec_goal.
    eexists. split; [reflexivity|]. split; [|destruct w; reflexivity].
    cbn [status error_response]. split; reflexivity.
Qed.

(** A digest that no extraction has produced yet is answered with 404,
    whatever the capabilities would do. *)
Lemma V3_map_extracted_not_found_witness :
  V3.map_extracted Examples.cap_down JobExamples.json_loads_table
    JobExamples.json_dumps_stub MapExamples.read_csv_table
    (Some MapExamples.id_csv) (Some (SHA256.hexdigest JobExamples.upload))
    "0f8fad5bd9cb469fa16570867728950e" JobExamples.empty_world
  = (Return (error_response (py "Extracted data not found") 404),
     JobExamples.empty_world).
Proof.
  destruct (V3_map_extracted_not_found Examples.cap_down
              JobExamples.json_loads_table JobExamples.json_dumps_stub
              MapExamples.read_csv_table MapExamples.id_csv
              (SHA256.hexdigest JobExamples.upload)
              "0f8fad5bd9cb469fa16570867728950e" JobExamples.empty_world
              ltac:(vm_compute; reflexivity))
    as (resp & _ & Hiff & Hout).
  apply Hout. apply Hiff. reflexivity.
Defined.

(** v3/app.py: the hash that [extract_pdf_data] returns is one that
    [map_extracted] knows. After an extraction that called the model,
    a reconciliation request with that hash is not answered with status
    404, whatever reference file comes with it. *)
Theorem V3_extract_then_map (cap cap' : capabilities)
  (json_loads : str -> result json) (json_dumps : json -> string)
  (read_csv : bytes -> result dataframe) (b csv : bytes) (ref_uuid : string)
  (w : world) (pages : list (option str)) (text_output : str) :
  cache_dir w !! json_cache_file b = None ->
  pdfplumber_pages cap (plumber_calls w) b = Return pages ->
  generate_content cap (generate_calls w)
    (V3.extract_prompt (join_pages V3.page_block 1 pages))
  = Return text_output ->
  let first := V3.extract_pdf_data cap json_loads json_dumps (Some b) w in
  exists data resp,
    fst first
    = Return (Response 200
                (JObj [(py "message", JStr (py "Extracted successfully"));
                       (py "hash", JStr (py (SHA256.hexdigest b)));
                       (py "data", data)]))
    /\ fst (V3.map_extracted cap' json_loads json_dumps read_csv (Some csv)
              (Some (SHA256.hexdigest b)) ref_uuid (snd first))
       = Return resp
    /\ status resp <> 404.
Proof.
  intros Hc Hp Hgen first. subst first.
  rewrite (V3_extract_miss cap json_loads json_dumps b w pages Hc Hp).
  cbv zeta. rewrite Hgen. cbn [fst snd].
  eexists.
  match goal with
  | |- exists resp, _ /\ fst (V3.map_extracted _ _ _ _ _ _ _ ?w2) = _ /\ _ =>
      destruct (V3_map_extracted_found cap' json_loads json_dumps read_csv
                  csv (SHA256.hexdigest b) ref_uuid w2
                  (py (json_dumps
                         match json_loads (V3.clean_response text_output) with
                         | Return data => data
                         | Raise _ => V3.parsing_error_data
                         end)))
        as (resp & Hresp & Hs)
  end.
  { unfold set_cache, json_cache_file. cbn [cache_dir].
    apply lookup_insert_eq. }
  exists resp. split; [reflexivity|]. split; [exact Hresp|exact Hs].
Qed.

Lemma V3_extract_then_map_witness :
  exists resp,
    fst (V3.map_extracted Examples.cap_down JobExamples.json_loads_table
           JobExamples.json_dumps_stub MapExamples.read_csv_table
           (Some MapExamples.id_csv)
           (Some (SHA256.hexdigest JobExamples.upload))
           "0f8fad5bd9cb469fa16570867728950e"
           (snd (V3.extract_pdf_data MapExamples.cap_records
                   JobExamples.json_loads_table JobExamples.json_dumps_stub
                   (Some JobExamples.upload) JobExamples.empty_world)))
    = Return resp
    /\ status resp <> 404.
Proof.
  destruct (V3_extract_then_map MapExamples.cap_records Examples.cap_down
              JobExamples.json_loads_table JobExamples.json_dumps_stub
              MapExamples.read_csv_table JobExamples.upload MapExamples.id_csv
              "0f8fad5bd9cb469fa16570867728950e" JobExamples.empty_world
              [Some Examples.page_plain] JobExamples.records_response
              ltac:(vm_compute; reflexivity) ltac:(reflexivity)
              ltac:(reflexivity))
    as (data & resp & _ & H1 & H2).
  exists resp. split; [exact H1 | exact H2].
Defined.

(** ** index2_backup.py: the identifier column of the reference file *)

Lemma find_Exists {A} (f : A -> bool) (l : list A) :
  Exists (fun x => f x = true) l ->
  exists x, List.find f l = Some x /\ f x = true.
Proof.
  induction 1 as [x l Hx | x l _ IH]; cbn [List.find].
  - rewrite Hx. eauto.
  - destruct (f x) eqn:E; eauto.
Qed.

Lemma find_Forall_false {A} (f : A -> bool) (l : list A) :
  Forall (fun x => f x = false) l -> List.find f l = None.
Proof.
  induction 1 as [|x l Hx _ IH]; cbn [List.find]; [reflexivity|].
  rewrite Hx. exact IH.
Qed.

(** index2_backup.py: a reference file without a column whose lower-cased
    name has "uuid" in it or is "id" is refused with status 400 before
    the extracted data are parsed and before any prompt is built: the
    model is not called. With such a column, and extracted data that
    parse, the model is called exactly once and the answer is no 400. *)
Theorem V1Backup_identifier_gate (cap : capabilities)
  (json_loads : str -> result json) (json_dumps : json -> string)
  (read_csv : bytes -> result dataframe) (csv : bytes) (data : str)
  (ref_uuid : string) (w : world) (ref_df : dataframe) :
  read_csv csv = Return ref_df ->
  let out := V1Backup.map_extracted_data cap json_loads json_dumps read_csv
               (Some csv) (Some data) ref_uuid w in
  let saved := World (<[("ref_" +:+ ref_uuid +:+ ".csv")%string := csv]>
                        (pdf_files w))
                     (cache_dir w) (plumber_calls w) (ocr_calls w)
                     (generate_calls w) in
  (Forall (fun c => contains (lower c) (py "uuid") = false
                    /\ lower c <> py "id") (columns ref_df) ->
   out = (Return (error_response
                    (py "CSV must contain a UUID or ID column") 400), saved))
  /\ (Exists (fun c => contains (lower c) (py "uuid") = true
                       \/ lower c = py "id") (columns ref_df) ->
      forall extracted, json_loads data = Return extracted ->
        generate_calls (snd out) = S (generate_calls w)
        /\ exists resp, fst out = Return resp /\ status resp <> 400).
Proof.
  intros Hcsv out saved. subst out saved.
  unfold V1Backup.map_extracted_data, handle_errors.
  run_world. unfold write_bytes. exec_goal. rewrite Hcsv. exec_goal.
  unfold next_column. split.
  - intros Hnone.
    rewrite (find_Forall_false V1Backup.is_uuid_column (columns ref_df)).
    + reflexivity.
    + eapply Forall_impl; [exact Hnone|]. intros c [Hu Hid].
      unfold V1Backup.is_uuid_column, str_eqb. rewrite Hu. cbn [orb].
      apply bool_decide_eq_false. congruence.
  - intros Hsome extracted Hdata.
    destruct (find_Exists V1Backup.is_uuid_column (columns ref_df))
      as (c & -> & Hc).
    + eapply Exists_impl; [exact Hsome|]. intros c [Hu | Hid];
        unfold V1Backup.is_uuid_column, str_eqb.
      * rewrite Hu. reflexivity.
      * rewrite Hid. apply orb_true_iff. right.
        apply bool_decide_eq_true. reflexivity.
    + destruct c as [|c0 c']; [discriminate Hc|].
      cbn [no_column]. rewrite Hdata. exec_goal.
      destruct (generate_content cap (generate_calls w) _) as [t|e];
        exec_goal.
      * destruct (json_loads (V1Backup.clean_response t)); exec_goal;
          (split; [reflexivity|]); eexists; (split; [reflexivity|]);
          discriminate.
      * split; [reflexivity|]. eexists. split; [reflexivity|]. discriminate.
Qed.

Lemma V1Backup_identifier_gate_witness :
  generate_calls
    (snd (V1Backup.map_extracted_data MapExamples.cap_records
            JobExamples.json_loads_table JobExamples.json_dumps_stub
            MapExamples.read_csv_table (Some MapExamples.id_csv)
            (Some JobExamples.records_response)
            "0f8fad5bd9cb469fa16570867728950e" JobExamples.empty_world)) = 1
  /\ fst (V1Backup.map_extracted_data MapExamples.cap_records
            JobExamples.json_loads_table JobExamples.json_dumps_stub
            MapExamples.read_csv_table (Some MapExamples.video_csv)
            (Some JobExamples.records_response)
            "0f8fad5bd9cb469fa16570867728950e" JobExamples.empty_world)
     = Return (error_response (py "CSV must contain a UUID or ID column") 400).
Proof.
  split.
  - apply (proj2 (V1Backup_identifier_gate MapExamples.cap_records
                    JobExamples.json_loads_table JobExamples.json_dumps_stub
                    MapExamples.read_csv_table MapExamples.id_csv
                    JobExamples.records_response
                    "0f8fad5bd9cb469fa16570867728950e" JobExamples.empty_world
                    MapExamples.id_frame ltac:(reflexivity))
             ltac:(left; right; reflexivity)
             (JArr [JobExamples.heat_record]) ltac:(reflexivity)).
  - rewrite (proj1 (V1Backup_identifier_gate MapExamples.cap_records
                      JobExamples.json_loads_table JobExamples.json_dumps_stub
                      MapExamples.read_csv_table MapExamples.video_csv
                      JobExamples.records_response
                      "0f8fad5bd9cb469fa16570867728950e"
                      JobExamples.empty_world
                      MapExamples.video_frame ltac:(reflexivity))
               ltac:(repeat constructor;
                     try (intros E; vm_compute in E; discriminate E))).
    reflexivity.
Defined.

(** ** Dicts *)

Lemma str_eqb_eq (a b : str) : str_eqb a b = true <-> a = b.
Proof. unfold str_eqb. apply bool_decide_eq_true. Qed.

Lemma str_eqb_refl (a : str) : str_eqb a a = true.
Proof. apply str_eqb_eq. reflexivity. Qed.

Lemma str_eqb_neq (a b : str) : a <> b -> str_eqb a b = false.
Proof. intros H. unfold str_eqb. apply bool_decide_eq_false. exact H. Qed.

(** After [d[key] = value], the key has the value. *)
Lemma dict_get_set (fields : list (str * json)) (key : str) (value : json) :
  dict_get (dict_set fields key value) key = Some value.
Proof.
  induction fields as [|[k v] rest IH]; cbn [dict_set dict_get].
  - rewrite str_eqb_refl. reflexivity.
  - destruct (str_eqb k key) eqn:E; cbn [dict_get]; rewrite E;
      [reflexivity | exact IH].
Qed.

(** [d[key] = value] leaves every other key as it was. *)
Lemma dict_get_set_other (fields : list (str * json)) (key other : str)
  (value : json) :
  other <> key ->
  dict_get (dict_set fields key value) other = dict_get fields other.
Proof.
  intros Hne. induction fields as [|[k v] rest IH]; cbn [dict_set dict_get].
  - rewrite str_eqb_neq by congruence. reflexivity.
  - destruct (str_eqb k key) eqn:E; cbn [dict_get].
    + apply str_eqb_eq in E. subst k.
      rewrite (str_eqb_neq key other) by congruence. reflexivity.
    + destruct (str_eqb k other); [reflexivity | exact IH].
Qed.

(** ** [process_mapping] of v2/index_v2.py *)

Lemma item_outcomes_length (cap : capabilities) (prompt : json -> str)
  (items : list json) (n : nat) :
  length (item_outcomes cap prompt n items) = length items.
Proof.
  revert n. induction items as [|item items IH]; intros n; [reflexivity|].
  cbn. rewrite IH. reflexivity.
Qed.

Lemma assign_uuid_object (json_loads : str -> result json)
  (fields : list (str * json)) (res_text : str) :
  V2Mapping.assign_uuid json_loads (JObj fields)
    (V2Mapping.clean_response res_text)
  = Return (JObj (dict_set fields (py "uuid")
                    (answered_uuid json_loads res_text))).
Proof.
  unfold V2Mapping.assign_uuid, answered_uuid, V2Mapping.get_matched_uuid.
  destruct (json_loads (V2Mapping.clean_response res_text)) as [matched|e];
    [|reflexivity].
  destruct matched; reflexivity.
Qed.

(** The loop over items that are objects, when every generation call
    returns: each item gets its [uuid], in order. *)
Lemma V2Mapping_loop (cap : capabilities) (json_loads : str -> result json)
  (json_dumps : json -> string) (csv_records : list json)
  (objects : list (list (str * json))) :
  forall (results : list json) (w : world) (texts : list str),
    item_outcomes cap (V2Mapping.item_prompt json_dumps csv_records)
      (generate_calls w) (List.map JObj objects)
    = List.map Return texts ->
    V2Mapping.mapping_loop cap json_loads json_dumps csv_records
      (List.map JObj objects) results w
    = (Return (results
               ++ List.map
                    (fun '(fields, res_text) =>
                       JObj (dict_set fields (py "uuid")
                               (answered_uuid json_loads res_text)))
                    (combine objects texts)),
       World (pdf_files w) (cache_dir w) (plumber_calls w) (ocr_calls w)
             (generate_calls w + length objects)).
Proof.
  induction objects as [|fields rest IH]; intros results w texts Hgen.
  - destruct texts; [|discriminate Hgen]. cbn.
    rewrite app_nil_r, Nat.add_0_r. destruct w; reflexivity.
  - destruct texts as [|t texts]; [discriminate Hgen|].
    cbn [List.map item_outcomes] in Hgen. injection Hgen as Hhead Htail.
    cbn [List.map V2Mapping.mapping_loop combine].
    unfold bind at 1, generate. rewrite Hhead.
    unfold bind at 1, lift. rewrite assign_uuid_object.
    set (w' := World (pdf_files w) (cache_dir w) (plumber_calls w)
                     (ocr_calls w) (S (generate_calls w))).
    rewrite (IH _ w' texts Htail).
    subst w'. cbn [pdf_files cache_dir plumber_calls ocr_calls generate_calls
                   length].
    rewrite <- app_assoc. cbn [app]. f_equal. f_equal. lia.
Qed.

(** v2/index_v2.py: [process_mapping] on a list of objects, when every
    generation call returns. The model is called once for each item; the
    response has status 200 and as many items as the request, in the
    same order; each of them is the item of the request with the key
    [uuid] set, to the [matched_uuid] of the answer or to [None] when the
    answer does not parse to an object or lacks that key, and with every
    other key as it was. An answer that cannot be read never fails the
    request. *)
Theorem V2_process_mapping_keeps_items (cap : capabilities)
  (json_loads : str -> result json) (json_dumps : json -> string)
  (read_csv : bytes -> result dataframe) (form_data : str) (csv : bytes)
  (w : world) (objects : list (list (str * json))) (df_csv : dataframe)
  (texts : list str) :
  json_loads form_data = Return (JArr (List.map JObj objects)) ->
  read_csv csv = Return df_csv ->
  item_outcomes cap (V2Mapping.item_prompt json_dumps (records df_csv))
    (generate_calls w) (List.map JObj objects)
  = List.map Return texts ->
  exists results : list (list (str * json)),
    V2Mapping.process_mapping cap json_loads json_dumps read_csv
      (Some form_data) (Some csv) w
    = (Return (Response 200
                 (JObj [(py "mapped_data", JArr (List.map JObj results))])),
       World (pdf_files w) (cache_dir w) (plumber_calls w) (ocr_calls w)
             (generate_calls w + length objects))
    /\ length results = length objects
    /\ length texts = length objects
    /\ forall i fields res_text,
         objects !! i = Some fields ->
         texts !! i = Some res_text ->
         exists fields',
           results !! i = Some fields'
           /\ dict_get fields' (py "uuid")
              = Some (answered_uuid json_loads res_text)
           /\ (forall key, key <> py "uuid" ->
                 dict_get fields' key = dict_get fields key).
Proof.
  intros Hdata Hcsv Hgen.
  assert (Hlen : length texts = length objects).
  { apply (f_equal (@length _)) in Hgen.
    rewrite length_map, item_outcomes_length, length_map in Hgen.
    symmetry. exact Hgen. }
  exists (List.map (fun '(fields, res_text) =>
                      dict_set fields (py "uuid")
                        (answered_uuid json_loads res_text))
                   (combine objects texts)).
  split; [|split; [|split]].
  - unfold V2Mapping.process_mapping, handle_errors.
    unfold bind at 1, attempt. unfold bind at 1, lift. rewrite Hdata.
    unfold bind at 1. rewrite Hcsv. unfold bind at 1. cbn [iterate].
    unfold bind at 1.
    rewrite (V2Mapping_loop cap json_loads json_dumps (records df_csv)
               objects [] w texts Hgen).
    cbn [app]. unfold ret. rewrite List.map_map.
    rewrite (List.map_ext
               (fun x : list (str * json) * str =>
                  JObj (let '(fields, res_text) := x in
                        dict_set fields (py "uuid")
                          (answered_uuid json_loads res_text)))
               (fun '(fields, res_text) =>
                  JObj (dict_set fields (py "uuid")
                          (answered_uuid json_loads res_text))))
      by (intros [fields t]; reflexivity).
    reflexivity.
  - rewrite length_map, length_combine. lia.
  - exact Hlen.
  - intros i fields res_text Ho Ht.
    exists (dict_set fields (py "uuid") (answered_uuid json_loads res_text)).
    split; [|split].
    + rewrite list_lookup_fmap.
      assert (Hc : combine objects texts !! i = Some (fields, res_text)).
      { clear - Ho Ht. revert i texts Ho Ht.
        induction objects as [|o l IH]; intros [|i] [|t texts] Ho Ht;
          try discriminate; cbn in *.
        - congruence.
        - apply IH; assumption. }
      rewrite Hc. reflexivity.
    + apply dict_get_set.
    + intros key Hkey. apply dict_get_set_other. exact Hkey.
Qed.

Lemma V2_process_mapping_keeps_items_witness :
  exists fields',
    V2Mapping.process_mapping MappingExamples.cap_match
      MappingExamples.json_loads_table JobExamples.json_dumps_stub
      MapExamples.read_csv_table (Some JobExamples.records_response)
      (Some MapExamples.id_csv) JobExamples.empty_world
    = (Return (Response 200 (JObj [(py "mapped_data", JArr [JObj fields'])])),
       World ∅ ∅ 0 0 1)
    /\ dict_get fields' (py "uuid") = Some (JInt 7)
    /\ dict_get fields' (py "title") = Some (JStr (py "Heat")).
Proof.
  destruct (V2_process_mapping_keeps_items MappingExamples.cap_match
              MappingExamples.json_loads_table JobExamples.json_dumps_stub
              MapExamples.read_csv_table JobExamples.records_response
              MapExamples.id_csv JobExamples.empty_world
              [[(py "title", JStr (py "Heat"))]] MapExamples.id_frame
              [MappingExamples.matched_response]
              ltac:(reflexivity) ltac:(reflexivity) ltac:(reflexivity))
    as (results & Hrun & Hlen & _ & Hitems).
  destruct (Hitems 0 _ _ eq_refl eq_refl) as (fields' & Hr & Huuid & Hother).
  destruct results as [|r [|r' rest]]; try discriminate Hlen.
  injection Hr as ->.
  exists fields'. split; [exact Hrun|]. split.
  - exact Huuid.
  - rewrite (Hother (py "title")) by (vm_compute; discriminate). reflexivity.
Defined.


Lemma V2Mapping_loop_app (cap : capabilities) (json_loads : str -> result json)
  (json_dumps : json -> string) (csv_records : list json)
  (front back : list json) :
  forall (results : list json) (w : world),
    V2Mapping.mapping_loop cap json_loads json_dumps csv_records
      (front ++ back) results w
    = bind (V2Mapping.mapping_loop cap json_loads json_dumps csv_records
              front results)
           (fun results' =>
              V2Mapping.mapping_loop cap json_loads json_dumps csv_records
                back results') w.
Proof.
  induction front as [|item front IH]; intros results w; [reflexivity|].
  cbn [app V2Mapping.mapping_loop]. unfold bind.
  destruct (generate cap _ w) as [[res_text|e] w1]; [|reflexivity].
  destruct (lift _ w1) as [[item'|e] w2]; [|reflexivity].
  rewrite IH. reflexivity.
Qed.

Lemma item_outcomes_app (cap : capabilities) (prompt : json -> str)
  (front back : list json) (n : nat) :
  item_outcomes cap prompt n (front ++ back)
  = item_outcomes cap prompt n front
    ++ item_outcomes cap prompt (n + length front) back.
Proof.
  revert n. induction front as [|item front IH]; intros n; cbn.
  - rewrite Nat.add_0_r. reflexivity.
  - rewrite IH. do 3 f_equal. lia.
Qed.

(** v2/index_v2.py: an item that is no object cannot take the key [uuid].
    The model is still called for it; the assignment then fails in the
    handler of the loop as it failed before it, and the request is
    answered with status 500 and the message of that exception: the
    items that were matched before it are not returned. *)
Theorem V2_process_mapping_all_or_nothing (cap : capabilities)
  (json_loads : str -> result json) (json_dumps : json -> string)
  (read_csv : bytes -> result dataframe) (form_data : str) (csv : bytes)
  (w : world) (objects : list (list (str * json))) (item : json)
  (rest : list json) (df_csv : dataframe) (texts : list str)
  (res_text : str) (e : exn) :
  json_loads form_data
  = Return (JArr (List.map JObj objects ++ item :: rest)) ->
  read_csv csv = Return df_csv ->
  item_outcomes cap (V2Mapping.item_prompt json_dumps (records df_csv))
    (generate_calls w) (List.map JObj objects ++ [item])
  = List.map Return (texts ++ [res_text]) ->
  setitem item (py "uuid") JNull = Raise e ->
  V2Mapping.process_mapping cap json_loads json_dumps read_csv
    (Some form_data) (Some csv) w
  = (Return (error_response (exn_str e) 500),
     World (pdf_files w) (cache_dir w) (plumber_calls w) (ocr_calls w)
           (generate_calls w + length objects + 1)).
Proof.
  intros Hdata Hcsv Hgen Hitem.
  assert (Hlen : length texts = length objects).
  { apply (f_equal (@length _)) in Hgen.
    rewrite length_map, length_app, item_outcomes_length, length_app,
      length_map in Hgen.
    cbn in Hgen. lia. }
  rewrite item_outcomes_app, List.map_app in Hgen.
  assert (Hl : length (item_outcomes cap
                         (V2Mapping.item_prompt json_dumps (records df_csv))
                         (generate_calls w) (List.map JObj objects))
               = length (List.map (@Return str) texts)).
  { rewrite item_outcomes_length, !length_map. symmetry. exact Hlen. }
  apply app_inj_1 in Hgen; [|exact Hl]. destruct Hgen as [Hfront Hback].
  cbn [item_outcomes List.map] in Hback. injection Hback as Hback.
  rewrite length_map in Hback.
  unfold V2Mapping.process_mapping, handle_errors.
  unfold bind at 1, attempt. unfold bind at 1, lift. rewrite Hdata.
  unfold bind at 1. rewrite Hcsv. unfold bind at 1. cbn [iterate].
  unfold bind at 1.
  rewrite (V2Mapping_loop_app cap json_loads json_dumps (records df_csv)
             (List.map JObj objects) (item :: rest) [] w).
  unfold bind at 1.
  rewrite (V2Mapping_loop cap json_loads json_dumps (records df_csv)
             objects [] w texts Hfront).
  cbn [V2Mapping.mapping_loop]. unfold bind at 1, generate.
  cbn [pdf_files cache_dir plumber_calls ocr_calls generate_calls].
  rewrite Hback. unfold bind at 1, lift.
  assert (Hassign : forall clean,
            V2Mapping.assign_uuid json_loads item clean = Raise e).
  { intros clean. unfold V2Mapping.assign_uuid.
    destruct item; try discriminate Hitem; cbn [setitem] in *;
      destruct (json_loads clean) as [matched|e'];
      try destruct (V2Mapping.get_matched_uuid matched);
      exact Hitem. }
  rewrite Hassign. unfold ret.
  do 2 f_equal. lia.
Qed.

Lemma V2_process_mapping_all_or_nothing_witness :
  V2Mapping.process_mapping MappingExamples.cap_match
    MappingExamples.json_loads_mixed JobExamples.json_dumps_stub
    MapExamples.read_csv_table (Some MappingExamples.mixed_items)
    (Some MapExamples.id_csv) JobExamples.empty_world
  = (Return (error_response
               ([0x27%N] ++ py "int" ++ [0x27%N]
                ++ py " object does not support item assignment") 500),
     World ∅ ∅ 0 0 2).
Proof.
  apply (V2_process_mapping_all_or_nothing MappingExamples.cap_match
           MappingExamples.json_loads_mixed JobExamples.json_dumps_stub
           MapExamples.read_csv_table MappingExamples.mixed_items
           MapExamples.id_csv JobExamples.empty_world
           [[]] (JInt 5) [] MapExamples.id_frame
           [MappingExamples.matched_response]
           MappingExamples.matched_response
           (TypeError ([0x27%N] ++ py "int" ++ [0x27%N]
                       ++ py " object does not support item assignment"))).
  - vm_compute. reflexivity.
  - reflexivity.
  - reflexivity.
  - reflexivity.
Defined.

(** ** The rename loop of index2.py *)

Lemma dict_get_remove_other (fields : list (str * json)) (key other : str) :
  other <> key -> dict_get (dict_remove fields key) other = dict_get fields other.
Proof.
  intros Hne. induction fields as [|[k v] rest IH]; [reflexivity|].
  cbn [dict_remove dict_get]. destruct (str_eqb k key) eqn:E.
  - apply str_eqb_eq in E. subst k.
    rewrite (str_eqb_neq key other) by congruence. reflexivity.
  - cbn [dict_get]. destruct (str_eqb k other); [reflexivity | exact IH].
Qed.

Lemma dict_get_None_notin (fields : list (str * json)) (key : str) :
  ~ In key (List.map fst fields) -> dict_get fields key = None.
Proof.
  induction fields as [|[k v] rest IH]; intros Hin; [reflexivity|].
  cbn [dict_get]. rewrite str_eqb_neq.
  - apply IH. intros H. apply Hin. right. exact H.
  - intros ->. apply Hin. left. reflexivity.
Qed.

(** In a dict, whose keys are distinct, a key that was popped is gone. *)
Lemma dict_get_remove (fields : list (str * json)) (key : str) :
  List.NoDup (List.map fst fields) -> dict_get (dict_remove fields key) key = None.
Proof.
  induction fields as [|[k v] rest IH]; intros Hnd; [reflexivity|].
  cbn [List.map fst] in Hnd. apply List.NoDup_cons_iff in Hnd as [Hnotin Hnd].
  cbn [dict_remove]. destruct (str_eqb k key) eqn:E.
  - apply str_eqb_eq in E. subst k. apply dict_get_None_notin, Hnotin.
  - cbn [dict_get]. rewrite E. apply IH, Hnd.
Qed.

Lemma dict_remove_length (fields : list (str * json)) (key : str) (v : json) :
  dict_get fields key = Some v ->
  S (length (dict_remove fields key)) = length fields.
Proof.
  induction fields as [|[k x] rest IH]; [discriminate|].
  cbn [dict_get dict_remove]. destruct (str_eqb k key); [reflexivity|].
  intros H. cbn [length]. rewrite (IH H). reflexivity.
Qed.

Lemma dict_set_length_new (fields : list (str * json)) (key : str) (v : json) :
  dict_get fields key = None ->
  length (dict_set fields key v) = S (length fields).
Proof.
  induction fields as [|[k x] rest IH]; [reflexivity|].
  cbn [dict_get dict_set]. destruct (str_eqb k key); [discriminate|].
  intros H. cbn [length]. rewrite (IH H). reflexivity.
Qed.

(** Moving the value of [key] to [pdf_summary] in a dict that has [key]
    and no [pdf_summary]. *)
Lemma move_to_pdf_summary_object (fields : list (str * json)) (key : str)
  (v : json) :
  List.NoDup (List.map fst fields) ->
  key <> py "pdf_summary" ->
  dict_get fields key = Some v ->
  dict_get fields (py "pdf_summary") = None ->
  exists fields',
    V1Mapping.move_to_pdf_summary (JObj fields) key = Return (JObj fields')
    /\ length fields' = length fields
    /\ dict_get fields' (py "pdf_summary") = Some v
    /\ dict_get fields' key = None
    /\ (forall other, other <> key -> other <> py "pdf_summary" ->
          dict_get fields' other = dict_get fields other).
Proof.
  intros Hnd Hkey Hv Hnone.
  exists (dict_set (dict_remove fields key) (py "pdf_summary") v).
  split; [|split; [|split; [|split]]].
  - unfold V1Mapping.move_to_pdf_summary, pop_key. rewrite Hv. reflexivity.
  - rewrite dict_set_length_new.
    + apply (dict_remove_length fields key v Hv).
    + rewrite dict_get_remove_other by congruence. exact Hnone.
  - apply dict_get_set.
  - rewrite dict_get_set_other by exact Hkey. apply dict_get_remove, Hnd.
  - intros other H1 H2. rewrite dict_get_set_other by exact H2.
    apply dict_get_remove_other. exact H1.
Qed.

(** The body of the loop on a dict. *)
Lemma rename_summary_object (fields : list (str * json)) :
  List.NoDup (List.map fst fields) ->
  exists fields',
    V1Mapping.rename_summary (JObj fields) = Return (JObj fields')
    /\ summary_moved fields fields'.
Proof.
  intros Hnd. unfold V1Mapping.rename_summary, V1Mapping.wants_rename,
    summary_moved. cbn [contains_key].
  destruct (dict_get fields (py "pdf_summary")) as [p|] eqn:Hp.
  - exists fields.
    destruct (dict_get fields (py "summary")), (dict_get fields (py "overview"));
      cbn [negb]; repeat split; reflexivity.
  - destruct (dict_get fields (py "summary")) as [s|] eqn:Hs; cbn [negb].
    + destruct (move_to_pdf_summary_object fields (py "summary") s Hnd
                  ltac:(vm_compute; discriminate) Hs Hp)
        as (fields' & Hrun & Hlen & H1 & H2 & H3).
      exists fields'. split; [exact Hrun|]. split; [exact Hlen|]. split.
      * intros key Ka Kb Kc. apply H3; assumption.
      * split; [exact H1|]. split; [exact H2|].
        apply H3; vm_compute; discriminate.
    + destruct (dict_get fields (py "overview")) as [o|] eqn:Ho; cbn [negb].
      * destruct (move_to_pdf_summary_object fields (py "overview") o Hnd
                    ltac:(vm_compute; discriminate) Ho Hp)
          as (fields' & Hrun & Hlen & H1 & H2 & H3).
        exists fields'. split; [exact Hrun|]. split; [exact Hlen|]. split.
        -- intros key Ka Kb Kc. apply H3; assumption.
        -- split; [exact H1|]. split; [|exact H2].
           rewrite H3 by (vm_compute; discriminate). exact Hs.
      * exists fields. repeat split; reflexivity.
Qed.

Lemma rename_each_objects (objects : list (list (str * json))) :
  Forall (fun fields => List.NoDup (List.map fst fields)) objects ->
  exists results,
    V1Mapping.rename_each (List.map JObj objects)
    = Return (List.map JObj results)
    /\ Forall2 summary_moved objects results.
Proof.
  induction 1 as [|fields objects Hnd _ (results & Hrun & Hall)].
  - exists []. split; [reflexivity | constructor].
  - destruct (rename_summary_object fields Hnd) as (fields' & Hone & Hmoved).
    exists (fields' :: results). split.
    + cbn [List.map V1Mapping.rename_each]. rewrite Hone, Hrun. reflexivity.
    + constructor; assumption.
Qed.

(** index2.py: [map_extracted_data] has no test of the columns of the
    reference file; whatever [read_csv] reads goes into the prompt. When
    the answer of the model is read as a list of objects, the response
    has status 200 and holds these objects in their order, each with its
    summary under the key [pdf_summary]: the value that was under
    [summary], or else under [overview], is moved there, nothing else
    changes, and a [pdf_summary] that the object has is never replaced.
    The model is called once. *)
Theorem V1_mapping_moves_summaries (cap : capabilities)
  (json_loads : str -> result json) (json_dumps : json -> string)
  (read_csv : bytes -> result dataframe) (csv : bytes) (form_data : str)
  (ref_uuid : string) (w : world) (ref_df : dataframe)
  (extracted_data shown_data : json) (text_output : str)
  (objects : list (list (str * json))) :
  read_csv csv = Return ref_df ->
  json_loads form_data = Return extracted_data ->
  slice_value extracted_data 60 = Return shown_data ->
  generate_content cap (generate_calls w)
    (V1Mapping.map_prompt json_dumps (records ref_df) shown_data)
  = Return text_output ->
  safe_json_loads json_loads text_output
  = Return (JArr (List.map JObj objects)) ->
  objects <> [] ->
  Forall (fun fields => List.NoDup (List.map fst fields)) objects ->
  exists results,
    V1Mapping.map_extracted_data cap json_loads json_dumps read_csv
      (Some csv) (Some form_data) ref_uuid w
    = (Return (data_response (py "AI Mapping complete")
                 (JArr (List.map JObj results))),
       World (<[("ref_" +:+ ref_uuid +:+ ".csv")%string := csv]> (pdf_files w))
             (cache_dir w) (plumber_calls w) (ocr_calls w)
             (S (generate_calls w)))
    /\ Forall2 summary_moved objects results.
Proof.
  intros Hcsv Hdata Hshown Hgen Hparse Hne Hnd.
  destruct (rename_each_objects objects Hnd) as (results & Hrun & Hall).
  exists results. split; [|exact Hall].
  unfold V1Mapping.map_extracted_data, handle_errors.
  run_world. unfold write_bytes. exec_goal.
  rewrite Hcsv. exec_goal. rewrite Hdata. exec_goal.
  rewrite Hshown. exec_goal. rewrite Hgen. exec_goal. rewrite Hparse.
  exec_goal. destruct objects as [|o objects]; [congruence|].
  cbn [List.map truthy negb]. unfold V1Mapping.rename_all. cbn [iterate].
  change (JObj o :: List.map JObj objects) with (List.map JObj (o :: objects)).
  rewrite Hrun. reflexivity.
Qed.

Lemma V1_mapping_moves_summaries_witness :
  fst (V1Mapping.map_extracted_data RenameExamples.cap_summary
         RenameExamples.json_loads_table JobExamples.json_dumps_stub
         MapExamples.read_csv_table (Some MapExamples.video_csv)
         (Some JobExamples.records_response)
         "0f8fad5bd9cb469fa16570867728950e" JobExamples.empty_world)
  = Return (data_response (py "AI Mapping complete")
              (JArr [JObj [(py "title", JStr (py "Heat"));
                           (py "pdf_summary", JStr (py "On heat."))]])).
Proof.
  destruct (V1_mapping_moves_summaries RenameExamples.cap_summary
              RenameExamples.json_loads_table JobExamples.json_dumps_stub
              MapExamples.read_csv_table MapExamples.video_csv
              JobExamples.records_response
              "0f8fad5bd9cb469fa16570867728950e" JobExamples.empty_world
              MapExamples.video_frame (JArr [JobExamples.heat_record])
              (JArr [JobExamples.heat_record]) RenameExamples.summary_response
              [RenameExamples.summary_record]
              ltac:(reflexivity) ltac:(vm_compute; reflexivity)
              ltac:(reflexivity) ltac:(reflexivity)
              ltac:(vm_compute; reflexivity) ltac:(discriminate)
              ltac:(repeat constructor; vm_compute; intuition discriminate))
    as (results & Hrun & _).
  rewrite Hrun. cbn [fst].
  apply (f_equal fst) in Hrun. vm_compute in Hrun.
  injection Hrun as Hrun. vm_compute. rewrite <- Hrun. reflexivity.
Defined.

(** ** Code fences around an answer *)

Lemma lstrip_with_app_keep (p : char -> bool) (l : str) (c : char) (r : str) :
  p c = false -> exists x, lstrip_with p (l ++ c :: r) = x ++ c :: r.
Proof.
  intros Hc. induction l as [|a l [x IH]]; cbn [app lstrip_with].
  - rewrite Hc. exists []. reflexivity.
  - destruct (p a); [eauto|]. exists (a :: l). reflexivity.
Qed.

(** Stripping at the right end keeps a prefix whose last character is
    not one of those that are stripped. *)
Lemma rstrip_with_keeps_prefix (p : char -> bool) (a : str) (c : char)
  (b : str) :
  p c = false -> exists b', rstrip_with p ((a ++ [c]) ++ b) = (a ++ [c]) ++ b'.
Proof.
  intros Hc. unfold rstrip_with.
  rewrite !rev_app_distr. cbn [rev app].
  destruct (lstrip_with_app_keep p (rev b) c (rev a) Hc) as [x ->].
  exists (rev x). rewrite rev_app_distr. cbn [rev].
  rewrite rev_involutive. reflexivity.
Qed.

Lemma strip_with_keeps_prefix (p : char -> bool) (c0 : char) (a : str)
  (c : char) (b : str) :
  p c0 = false -> p c = false ->
  exists b', strip_with p ((c0 :: a ++ [c]) ++ b) = (c0 :: a ++ [c]) ++ b'.
Proof.
  intros H0 Hc. unfold strip_with. cbn [app lstrip_with]. rewrite H0.
  exact (rstrip_with_keeps_prefix p (c0 :: a) c b Hc).
Qed.

Lemma sub_trailing_comma_keeps_json (close : char) (r : str) :
  sub_trailing_comma close (py "json" ++ r)
  = py "json" ++ sub_trailing_comma close r.
Proof. reflexivity. Qed.

(** index2.py: [safe_json_loads] strips the backquotes from both ends of
    the answer before its pattern for the opening fence is tried, so the
    pattern finds no fence there and the word [json] of the fence
    stays: for every answer that begins, white space apart, with
    [```json], the text that is given to [json.loads] first begins with
    the word [json]. Only the search for a bracketed array, which comes
    after that parse, looks past it. *)
Theorem safe_json_loads_keeps_fence_word (raw : str) :
  startswith (strip raw) (py "```json") = true ->
  exists rest, json_clean raw = py "json" ++ rest.
Proof.
  intros H. unfold json_clean. cbv zeta.
  destruct (startswith_app _ _ H) as [r0 ->]. clear H.
  assert (H1 : exists r1, strip_chars (py "`") (py "```json" ++ r0)
                          = py "json" ++ r1).
  { unfold strip_chars, strip_with.
    change (lstrip_with (fun c => existsb (N.eqb c) (py "`"))
              (py "```json" ++ r0))
      with ((py "jso" ++ [0x6E%N]) ++ r0).
    apply (rstrip_with_keeps_prefix _ (py "jso") 0x6E%N r0). reflexivity. }
  destruct H1 as [r1 ->].
  destruct (strip_with_keeps_prefix is_space 0x6A%N (py "so") 0x6E%N r1
              eq_refl eq_refl) as [r2 E2].
  change ((0x6A%N :: py "so" ++ [0x6E%N]) ++ r1) with (py "json" ++ r1) in E2.
  change ((0x6A%N :: py "so" ++ [0x6E%N]) ++ r2) with (py "json" ++ r2) in E2.
  unfold strip at 2. rewrite E2.
  change (sub_fences true (py "json" ++ r2))
    with (py "json" ++ sub_fences_from true 0 false r2).
  destruct (strip_with_keeps_prefix is_space 0x6A%N (py "so") 0x6E%N
              (sub_fences_from true 0 false r2) eq_refl eq_refl) as [r3 E3].
  change ((0x6A%N :: py "so" ++ [0x6E%N]) ++ ?x) with (py "json" ++ x) in E3.
  unfold strip. rewrite E3.
  rewrite !sub_trailing_comma_keeps_json.
  eexists. reflexivity.
Qed.

Lemma safe_json_loads_keeps_fence_word_witness :
  exists rest,
    json_clean (py "```json" ++ [NL] ++ py "{}" ++ [NL] ++ py "```")
    = py "json" ++ rest.
Proof.
  apply safe_json_loads_keeps_fence_word. vm_compute. reflexivity.
Defined.


Lemma sub_fences_body (multiline : bool) (body : str) :
  Forall (fun c => c <> 0x60%N) body ->
  forall bol, sub_fences_from multiline 0 bol (body ++ py "```") = body.
Proof.
  induction 1 as [|c body Hc _ IH]; intros bol.
  - destruct bol, multiline; reflexivity.
  - cbn [app sub_fences_from].
    assert (E : forall p, startswith (c :: body ++ py "```") (0x60%N :: p)
                          = false).
    { intros p. cbn [startswith]. apply N.eqb_neq in Hc.
      rewrite N.eqb_sym, Hc. reflexivity. }
    pose proof (E (py "``json")) as E1. pose proof (E (py "``")) as E2.
    change (0x60%N :: py "``json") with (py "```json") in E1.
    change (0x60%N :: py "``") with (py "```") in E2.
    repeat match goal with
    | |- context [startswith ?s ?p] =>
        replace (startswith s p) with false by (symmetry; assumption)
    end.
    rewrite andb_false_r. cbn [andb]. rewrite IH. reflexivity.
Qed.

Lemma startswith_prefix (p s : str) : startswith (p ++ s) p = true.
Proof.
  induction p as [|a p IH]; [destruct s; reflexivity|].
  cbn [app startswith]. rewrite N.eqb_refl. exact IH.
Qed.

Lemma strip_with_ends (p : char -> bool) (c : char) (l : str) (d : char) :
  p c = false -> p d = false ->
  strip_with p (c :: l ++ [d]) = c :: l ++ [d].
Proof.
  intros Hc Hd. unfold strip_with, rstrip_with. cbn [lstrip_with].
  rewrite Hc. change (c :: l ++ [d]) with ((c :: l) ++ [d]).
  rewrite rev_app_distr. cbn [rev app lstrip_with]. rewrite Hd.
  change (d :: rev l ++ [c]) with ([d] ++ rev (c :: l)).
  rewrite rev_app_distr, rev_involutive. reflexivity.
Qed.

Lemma sub_fences_fenced (multiline : bool) (body : str) :
  Forall (fun c => c <> 0x60%N) body ->
  sub_fences multiline (strip (py "```json" ++ body ++ py "```")) = body.
Proof.
  intros Hbody.
  assert (E : strip (py "```json" ++ body ++ py "```")
              = py "```json" ++ body ++ py "```").
  { replace (py "```json" ++ body ++ py "```")
      with (0x60%N :: (py "``json" ++ body ++ py "``") ++ [0x60%N]).
    - apply strip_with_ends; reflexivity.
    - change (py "```") with (py "``" ++ [0x60%N]).
      change (py "```json") with (0x60%N :: py "``json").
      cbn [app]. rewrite <- !app_assoc. reflexivity. }
  rewrite E. unfold sub_fences.
  rewrite <- (sub_fences_body multiline body Hbody false) at 2.
  generalize (body ++ py "```"). intros s.
  change (py "```json" ++ s) with (0x60%N :: py "``json" ++ s).
  cbn [sub_fences_from].
  change (0x60%N :: py "``json" ++ s) with (py "```json" ++ s).
  rewrite startswith_prefix. reflexivity.
Qed.

(** The cleaning of an answer in index2_backup.py, v3/app.py and
    v2/index_v2.py (both handlers) does what it is there for: of an
    answer that is a body between [```json] and [```], where the body
    has no backquote, it keeps the body, without the white space at
    its ends. *)
Theorem clean_response_unwraps (body : str) :
  Forall (fun c => c <> 0x60%N) body ->
  let answer := py "```json" ++ body ++ py "```" in
  V1Backup.clean_response answer = strip body
  /\ V3.clean_response answer = strip body
  /\ V2.clean_response answer = strip body
  /\ V2Mapping.clean_response answer = strip body.
Proof.
  intros Hbody answer. subst answer.
  unfold V1Backup.clean_response, V3.clean_response, V2.clean_response,
    V2Mapping.clean_response.
  rewrite !sub_fences_fenced by exact Hbody.
  repeat split; reflexivity.
Qed.

Lemma clean_response_unwraps_witness :
  V3.clean_response (py "```json" ++ [NL] ++ py "[1, 2]" ++ [NL] ++ py "```")
  = py "[1, 2]".
Proof.
  apply (clean_response_unwraps ([NL] ++ py "[1, 2]" ++ [NL])).
  repeat constructor; discriminate.
Defined.

(** ** File names *)

Lemma is_filename_char_underscore : is_filename_char 0x5F%N = true.
Proof. reflexivity. Qed.

(** index.py: the name under which [process_pdf] stores an upload has the
    length of the name that was sent, consists of letters, digits, [_],
    [.] and [-] only, so that it has no [/] and no [\] in it, and is the
    name that was sent when that one already was of this kind. Two dots
    in a row are kept. *)
Theorem safe_filename_sound (filename : str) :
  length (safe_filename filename) = length filename
  /\ Forall (fun c => is_filename_char c = true) (safe_filename filename)
  /\ ~ In 0x2F%N (safe_filename filename)
  /\ ~ In 0x5C%N (safe_filename filename)
  /\ safe_filename (safe_filename filename) = safe_filename filename
  /\ (Forall (fun c => is_filename_char c = true) filename ->
      safe_filename filename = filename)
  /\ safe_filename (py "..") = py "..".
Proof.
  assert (Hall : Forall (fun c => is_filename_char c = true)
                        (safe_filename filename)).
  { unfold safe_filename. induction filename as [|c l IH]; cbn [List.map].
    - constructor.
    - constructor; [|exact IH].
      destruct (is_filename_char c) eqn:E; [exact E | reflexivity]. }
  assert (Hid : forall l, Forall (fun c => is_filename_char c = true) l ->
                          safe_filename l = l).
  { induction 1 as [|c l Hc _ IH]; [reflexivity|].
    unfold safe_filename in *. cbn [List.map]. rewrite Hc, IH. reflexivity. }
  split; [apply length_map|]. split; [exact Hall|].
  split; [|split; [|split; [|split]]].
  - intros Hin.
    pose proof (proj1 (List.Forall_forall _ _) Hall _ Hin) as H.
    discriminate H.
  - intros Hin.
    pose proof (proj1 (List.Forall_forall _ _) Hall _ Hin) as H.
    discriminate H.
  - apply Hid, Hall.
  - apply Hid.
  - reflexivity.
Qed.


Lemma Forall_lstrip_with (P : char -> Prop) (p : char -> bool) (s : str) :
  Forall P s -> Forall P (lstrip_with p s).
Proof.
  induction 1 as [|c s Hc Hs IH]; cbn [lstrip_with]; [constructor|].
  destruct (p c); [exact IH | constructor; assumption].
Qed.

Lemma Forall_strip_with (P : char -> Prop) (p : char -> bool) (s : str) :
  Forall P s -> Forall P (strip_with p s).
Proof.
  intros H. unfold strip_with, rstrip_with.
  apply List.Forall_rev, Forall_lstrip_with, List.Forall_rev,
    Forall_lstrip_with, H.
Qed.

(** What one character of an ASCII request becomes in the name. *)
Lemma saved_name_char (c : char) :
  (c < 0x80)%N ->
  (is_ascii_alnum c || (c =? 0x5F)%N) || is_space c || (c =? 0x2D)%N = true ->
  let l := if ((0x41 <=? c) && (c <=? 0x5A))%N then (c + 32)%N else c in
  Forall (fun d => is_saved_name_char d = true)
         (if (l =? 0x20)%N then py "_" else [l]).
Proof.
  intros Hlt Hkeep l. subst l.
  destruct (N.leb_spec 0x41 c) as [H1|H1];
    destruct (N.leb_spec c 0x5A) as [H2|H2]; cbn [andb].
  - replace ((c + 32 =? 32)%N) with false by (symmetry; apply N.eqb_neq; lia).
    constructor; [|constructor]. unfold is_saved_name_char.
    replace ((97 <=? c + 32)%N) with true by (symmetry; apply N.leb_le; lia).
    replace ((c + 32 <=? 122)%N) with true by (symmetry; apply N.leb_le; lia).
    reflexivity.
  - destruct (N.eqb_spec c 0x20) as [E|E]; [lia|].
    constructor; [|constructor]. unfold is_saved_name_char.
    unfold is_ascii_alnum, is_ascii_alpha in Hkeep.
    replace ((65 <=? c)%N) with true in Hkeep
      by (symmetry; apply N.leb_le; lia).
    replace ((c <=? 90)%N) with false in Hkeep
      by (symmetry; apply N.leb_gt; lia).
    replace ((c =? 32)%N) with false by (symmetry; apply N.eqb_neq; lia).
    cbn [andb orb negb] in *. rewrite andb_true_r.
    rewrite !orb_true_iff in *. tauto.
  - destruct (N.eqb_spec c 0x20) as [E|E]; [repeat constructor|].
    constructor; [|constructor]. unfold is_saved_name_char.
    unfold is_ascii_alnum, is_ascii_alpha in Hkeep.
    replace ((65 <=? c)%N) with false in Hkeep
      by (symmetry; apply N.leb_gt; lia).
    replace ((97 <=? c)%N) with false in Hkeep
      by (symmetry; apply N.leb_gt; lia).
    replace ((97 <=? c)%N) with false by (symmetry; apply N.leb_gt; lia).
    replace ((c =? 32)%N) with false by (symmetry; apply N.eqb_neq; lia).
    cbn [andb orb negb] in *. rewrite andb_true_r.
    rewrite !orb_true_iff in *. tauto.
  - lia.
Qed.

Section SavedName.
Variable unicode_alnum : char -> bool.
Variable unicode_lower : str -> str.

Lemma safe_prompt_chars (user_prompt : str) :
  Forall (fun c => (c < 0x80)%N) user_prompt ->
  Forall (fun d => is_saved_name_char d = true)
         (safe_prompt unicode_alnum unicode_lower user_prompt).
Proof.
  intros Hascii. unfold safe_prompt.
  set (kept := strip (List.filter _ user_prompt)).
  assert (Hkept : Forall (fun c => (c < 0x80)%N
                    /\ (is_ascii_alnum c || (c =? 0x5F)%N) || is_space c
                       || (c =? 0x2D)%N = true) kept).
  { subst kept. apply Forall_strip_with.
    induction Hascii as [|c l Hc _ IH]; cbn [List.filter]; [constructor|].
    destruct (is_word _ c || is_space c || (c =? 0x2D)%N) eqn:E; [|exact IH].
    constructor; [|exact IH]. split; [exact Hc|].
    unfold is_word in E.
    replace ((c <? 0x80)%N) with true in E
      by (symmetry; apply N.ltb_lt; exact Hc).
    exact E. }
  clearbody kept. unfold str_lower.
  replace (forallb (fun c => (c <? 0x80)%N) kept) with true.
  - unfold replace_char. induction Hkept as [|c l [Hc Hk] _ IH];
      cbn [List.map flat_map]; [constructor|].
    apply Forall_app. split; [|exact IH].
    exact (saved_name_char c Hc Hk).
  - symmetry. apply forallb_forall. intros c Hin.
    apply N.ltb_lt.
    exact (proj1 (proj1 (List.Forall_forall _ _) Hkept c Hin)).
Qed.
End SavedName.


Lemma startswith_nil (s : str) : startswith s [] = true.
Proof. destruct s; reflexivity. Qed.

(** Two dots in a row in [a ++ b], when [b] does not begin with a dot,
    are two dots in a row in [a] or in [b]. *)
Lemma contains_dots_app (a : str) (c : char) (b : str) :
  c <> 0x2E%N ->
  contains (a ++ c :: b) (py "..")
  = contains a (py "..") || contains (c :: b) (py "..").
Proof.
  intros Hc. change (py "..") with [0x2E; 0x2E]%N.
  induction a as [|x a IH]; [reflexivity|].
  cbn [app]. cbn [contains]. rewrite IH. rewrite orb_assoc. f_equal. f_equal.
  cbn [startswith]. f_equal.
  destruct a as [|y a]; cbn [app startswith]; rewrite ?startswith_nil;
    [|reflexivity].
  rewrite !andb_true_r. apply N.eqb_neq. congruence.
Qed.

Lemma contains_dots_none (l tail : str) :
  Forall (fun d => d <> 0x2E%N) l ->
  contains tail (py "..") = false ->
  contains (l ++ tail) (py "..") = false.
Proof.
  intros Hl Ht. change (py "..") with [0x2E; 0x2E]%N in *.
  induction Hl as [|d l Hd _ IH]; [exact Ht|].
  cbn [app]. cbn [contains]. rewrite IH, orb_false_r.
  cbn [startswith]. apply andb_false_iff. left.
  apply N.eqb_neq. congruence.
Qed.

(** [download_file] on a name that goes on after [a] with a character
    that is no dot and no slash. *)
Lemma download_refused_app (a : str) (c : char) (b : str) :
  c <> 0x2E%N -> c <> 0x2F%N ->
  contains (c :: b) (py "..") = false ->
  download_refused (a ++ c :: b) = download_refused a.
Proof.
  intros Hdot Hslash Htail. unfold download_refused.
  rewrite (contains_dots_app a c b Hdot), Htail, orb_false_r. f_equal.
  change (py "/") with [0x2F%N].
  destruct a as [|x a]; cbn [app startswith];
    rewrite !startswith_nil, ?andb_true_r; [|reflexivity].
  apply N.eqb_neq. congruence.
Qed.

Lemma saved_name_char_no_dot (d : char) :
  is_saved_name_char d = true -> d <> 0x2E%N.
Proof. intros H ->. discriminate H. Qed.

(** index.py: the name of a saved CSV, for an ASCII request. The part of
    the name that comes from the request has at most 30 characters, all
    of them lower-case letters, digits, [_], [-] or white space other
    than the space, so that it has no [/] and no [.]; and
    [download_file] refuses the name exactly when it would refuse the
    stem of the document alone, that is, when the stem has two dots in a
    row or begins with [/]. *)
Theorem csv_filename_downloadable (unicode_alnum : char -> bool)
  (unicode_lower : str -> str) (base_name user_prompt : str) :
  Forall (fun c => (c < 0x80)%N) user_prompt ->
  let part := slice_to (safe_prompt unicode_alnum unicode_lower user_prompt)
                       30 in
  csv_filename unicode_alnum unicode_lower base_name user_prompt
  = base_name ++ py "_" ++ part ++ py ".csv"
  /\ length part <= 30
  /\ Forall (fun d => is_saved_name_char d = true) part
  /\ download_refused
       (csv_filename unicode_alnum unicode_lower base_name user_prompt)
     = download_refused base_name.
Proof.
  intros Hascii part.
  assert (Hpart : Forall (fun d => is_saved_name_char d = true) part).
  { subst part. unfold slice_to. apply Forall_take.
    apply safe_prompt_chars, Hascii. }
  split; [reflexivity|]. split; [|split; [exact Hpart|]].
  - subst part. unfold slice_to. rewrite length_firstn. lia.
  - unfold csv_filename. fold part.
    apply (download_refused_app base_name 0x5F%N (part ++ py ".csv"));
      try discriminate.
    apply (contains_dots_none (0x5F%N :: part) (py ".csv")).
    + constructor; [discriminate|].
      eapply Forall_impl; [exact Hpart|]. apply saved_name_char_no_dot.
    + reflexivity.
Qed.

Lemma csv_filename_downloadable_witness :
  csv_filename (fun _ => false) (fun s => s) (py "report")
    (py "List ALL action items!")
  = py "report_list_all_action_items.csv"
  /\ download_refused
       (csv_filename (fun _ => false) (fun s => s) (py "report")
          (py "List ALL action items!")) = false.
Proof.
  split; [reflexivity|].
  rewrite (proj2 (proj2 (proj2
             (csv_filename_downloadable (fun _ => false) (fun s => s)
                (py "report") (py "List ALL action items!")
                ltac:(repeat constructor))))).
  reflexivity.
Defined.

(** ** index2.py: the text layer and the merged chunks *)

(** index2.py and index2_backup.py have no quality gate. Whatever text
    pdfplumber returns for a document that is not in the text cache,
    empty or garbled as it may be, is the text of the document: it is
    returned and cached and OCR is not invoked. *)
Theorem V1_text_layer_is_trusted (cap : capabilities) (w : world)
  (path : string) (b : bytes) (pages : list (option str)) :
  pdf_files w !! path = Some b ->
  cache_dir w !! text_cache_file b = None ->
  pdfplumber_pages cap (plumber_calls w) b = Return pages ->
  let text := join_pages V1.page_block 1 pages in
  utf8 text <> None ->
  let w1 := World (pdf_files w) (<[text_cache_file b := text]> (cache_dir w))
                  (S (plumber_calls w)) (ocr_calls w) (generate_calls w) in
  V1.get_pdf_text cap path w = (Return text, w1)
  /\ V1Backup.get_pdf_text cap path w = (Return text, w1).
Proof.
  intros Hb Hc Hp text Henc w1.
  unfold V1.get_pdf_text, V1Backup.get_pdf_text, text_cache_file in *.
  run_world. rewrite Hb. exec_goal. rewrite Hc. exec_goal.
  rewrite Hb, Hp. exec_goal.
  change (join_pages V1Backup.page_block 1 pages) with text. fold text.
  unfold encode_utf8. destruct (utf8 text); [split; reflexivity|congruence].
Qed.

Lemma V1_text_layer_is_trusted_witness :
  V1.get_pdf_text (Capabilities (fun _ _ => Return []) Examples.no_ocr
                                Examples.no_model)
    "doc.pdf" Examples.fresh_world
  = (Return [],
     World (pdf_files Examples.fresh_world)
           (<[text_cache_file Examples.doc_bytes := []]> ∅) 1 0 0).
Proof.
  apply (V1_text_layer_is_trusted
           (Capabilities (fun _ _ => Return []) Examples.no_ocr
                         Examples.no_model)
           Examples.fresh_world "doc.pdf" Examples.doc_bytes []).
  - reflexivity.
  - vm_compute. reflexivity.
  - reflexivity.
  - discriminate.
Defined.

Lemma V1_get_pdf_text_calls (cap : capabilities) (w w1 : world)
  (path : string) (r : result str) :
  V1.get_pdf_text cap path w = (r, w1) ->
  pdf_files w1 = pdf_files w /\ generate_calls w1 = generate_calls w.
Proof.
  intros H. unfold V1.get_pdf_text, V1.extract_text_with_ocr in H.
  run_world. unfold encode_utf8 in H.
  repeat (exec_goal; case_step H); simplify_eq; split; reflexivity.
Qed.

(** index2.py: as long as every answer of the model is read as an array
    or as a falsy value, the job does what index2_backup.py does: the
    model is called once for every 150000 characters of the text, begun
    ones included, the data of the response are the items of the arrays
    in the order of the chunks, and they are written to the JSON cache;
    the job is answered with status 500 exactly when there is no item
    at all. *)
Theorem V1_job_merges_arrays (cap : capabilities)
  (json_loads : str -> result json) (json_dumps : json -> string)
  (b : bytes) (w w1 : world) (pdf_text : str) (texts : list str) :
  cache_dir w !! json_cache_file b = None ->
  V1.get_pdf_text cap (pdf_cache_file b)
    (World (<[pdf_cache_file b := b]> (pdf_files w)) (cache_dir w)
           (plumber_calls w) (ocr_calls w) (generate_calls w))
  = (Return pdf_text, w1) ->
  generation_outcomes cap V1.chunk_prompt (generate_calls w1) 1
    (chunk_text CHUNK_CHARS_V1 pdf_text) = List.map Return texts ->
  Forall (array_or_falsy json_loads) texts ->
  let records := concat (List.map (v1_chunk_records json_loads) texts) in
  let calls := generate_calls w + ceil_div (length pdf_text) CHUNK_CHARS_V1 in
  V1.extract_pdf_data cap json_loads json_dumps (Some b) w
  = match records with
    | [] =>
        (Return (error_response (py "No valid structured data returned") 500),
         World (pdf_files w1) (cache_dir w1) (plumber_calls w1) (ocr_calls w1)
               calls)
    | _ :: _ =>
        (Return (data_response (py "Extracted successfully") (JArr records)),
         World (pdf_files w1)
               (<[json_cache_file b := py (json_dumps (JArr records))]>
                  (cache_dir w1))
               (plumber_calls w1) (ocr_calls w1) calls)
    end.
Proof.
  intros Hc Hget Hgen Hall records calls.
  destruct (V1_get_pdf_text_calls _ _ _ _ _ Hget) as [_ Hcalls].
  cbn [generate_calls] in Hcalls.
  unfold V1.extract_pdf_data, handle_errors.
  unfold bind at 1. unfold attempt.
  unfold bind at 1. unfold write_bytes.
  unfold bind at 1. unfold cache_exists at 1.
  cbn [cache_dir]. rewrite Hc.
  unfold bind at 1. rewrite Hget.
  unfold bind at 1.
  rewrite (V1_chunk_loop cap json_loads _ 1 [] w1 texts Hgen Hall).
  rewrite chunk_text_count, Hcalls. fold calls.
  cbn [app]. fold records.
  destruct records as [|r rs]; cbn [truthy negb].
  - reflexivity.
  - unfold bind at 1. rewrite write_text_py. reflexivity.
Qed.

Lemma V1_job_merges_arrays_witness :
  fst (V1.extract_pdf_data CacheExamples.cap_records
         JobExamples.json_loads_table JobExamples.json_dumps_stub
         (Some JobExamples.upload) JobExamples.empty_world)
  = Return (data_response (py "Extracted successfully")
              (JArr [JobExamples.heat_record])).
Proof.
  assert (Hget : exists w1,
    V1.get_pdf_text CacheExamples.cap_records
      (pdf_cache_file JobExamples.upload)
      (World (<[pdf_cache_file JobExamples.upload := JobExamples.upload]> ∅)
             ∅ 0 0 0)
    = (Return (join_pages V1.page_block 1 [Some Examples.page_plain]), w1)).
  { destruct (V1.get_pdf_text _ _ _) as [r w1] eqn:E.
    exists w1. apply (f_equal fst) in E. cbn [fst] in E. rewrite <- E.
    vm_compute. reflexivity. }
  destruct Hget as [w1 Hget].
  rewrite (V1_job_merges_arrays CacheExamples.cap_records
             JobExamples.json_loads_table JobExamples.json_dumps_stub
             JobExamples.upload JobExamples.empty_world w1 _
             [JobExamples.records_response]
             ltac:(vm_compute; reflexivity) Hget
             ltac:(vm_compute; reflexivity)).
  - reflexivity.
  - constructor; [|constructor].
    exists (JArr [JobExamples.heat_record]).
    split; [vm_compute; reflexivity | left; reflexivity].
Defined.

(** ** index.py: answers that are refused *)

(** index.py: an answer of the model that is empty once it is cleaned is
    not returned and not cached. [generate_csv_from_text] raises a
    [ValueError] that says so, and so it does, with the message of the
    failure, when the model itself fails. The cache is as it was: the
    next call with the same text and request asks the model again. *)
Theorem Index_empty_csv_is_refused (cap : capabilities) (w : world)
  (pdf_text user_prompt : str) (key : string) :
  request_hash pdf_text user_prompt = Return key ->
  cache_dir w !! (key +:+ ".csv")%string = None ->
  let asked := World (pdf_files w) (cache_dir w) (plumber_calls w)
                     (ocr_calls w) (S (generate_calls w)) in
  let failure (reason : str) :=
    Raise (ValueError (py "Failed to generate content from AI model: "
                       ++ reason)) in
  match generate_content cap (generate_calls w)
          (Index.csv_prompt pdf_text user_prompt) with
  | Raise e =>
      Index.generate_csv_from_text cap pdf_text user_prompt w
      = (failure (exn_str e), asked)
  | Return response_text =>
      clean_csv_output response_text = [] ->
      Index.generate_csv_from_text cap pdf_text user_prompt w
      = (failure (py "Generated CSV is empty."), asked)
  end.
Proof.
  intros Hk Hc asked failure.
  unfold Index.generate_csv_from_text.
  run_world. rewrite Hk. exec_goal. rewrite Hc. exec_goal.
  destruct (generate_content cap (generate_calls w) _) as [response_text|e].
  - intros Hempty. rewrite Hempty. reflexivity.
  - reflexivity.
Qed.

Lemma Index_empty_csv_is_refused_witness :
  fst (Index.generate_csv_from_text
         (Capabilities (fun _ _ => Return [Some Examples.page_plain])
                       Examples.no_ocr (fun _ _ => Return (py " ``` ")))
         Examples.page_plain (py "list names") Examples.fresh_world)
  = Raise (ValueError (py "Failed to generate content from AI model: "
                       ++ py "Generated CSV is empty.")).
Proof.
  destruct (request_hash Examples.page_plain (py "list names")) as [key|e]
    eqn:Hk; [|vm_compute in Hk; discriminate Hk].
  pose proof (Index_empty_csv_is_refused
                (Capabilities (fun _ _ => Return [Some Examples.page_plain])
                              Examples.no_ocr (fun _ _ => Return (py " ``` ")))
                Examples.fresh_world Examples.page_plain (py "list names")
                key Hk ltac:(reflexivity)) as H.
  cbv zeta in H. cbn [generate_content] in H.
  rewrite (H ltac:(vm_compute; reflexivity)). reflexivity.
Defined.

(** ** The tolerant normalizer, step by step *)

Lemma lstrip_with_skip_all (p : char -> bool) (l : str) (c : char) (r : str) :
  Forall (fun x => p x = true) l -> p c = false ->
  lstrip_with p (l ++ c :: r) = c :: r.
Proof.
  intros Hl Hc. induction Hl as [|x l Hx _ IH]; cbn [app lstrip_with].
  - rewrite Hc. reflexivity.
  - rewrite Hx. exact IH.
Qed.

Lemma lstrip_with_app_all (p : char -> bool) (l s : str) :
  Forall (fun x => p x = true) l -> lstrip_with p (l ++ s) = lstrip_with p s.
Proof.
  induction 1 as [|x l Hx _ IH]; cbn [app lstrip_with]; [reflexivity|].
  rewrite Hx. exact IH.
Qed.

Lemma lstrip_with_none (p : char -> bool) (s : str) :
  Forall (fun x => p x = false) s -> lstrip_with p s = s.
Proof.
  destruct 1 as [|x l Hx _]; cbn [lstrip_with]; [reflexivity|].
  rewrite Hx. reflexivity.
Qed.

Lemma lstrip_with_app_stop (p : char -> bool) (l : str) (c : char) (r : str) :
  p c = false -> lstrip_with p (l ++ c :: r) = lstrip_with p (l ++ [c]) ++ r.
Proof.
  intros Hc. induction l as [|x l IH]; cbn [app lstrip_with].
  - rewrite Hc. reflexivity.
  - destruct (p x); [exact IH|].
    cbn [app]. rewrite <- app_assoc. reflexivity.
Qed.

Lemma lstrip_with_app_started (p : char -> bool) (s t : str) (c : char)
  (r : str) :
  lstrip_with p s = c :: r -> lstrip_with p (s ++ t) = (c :: r) ++ t.
Proof.
  induction s as [|x s IH]; cbn [app lstrip_with]; [discriminate|].
  destruct (p x); [exact IH|]. intros [= -> ->]. reflexivity.
Qed.

Lemma rstrip_with_app_stop (p : char -> bool) (u : str) (c : char) (b : str) :
  p c = false -> rstrip_with p (u ++ c :: b) = u ++ rstrip_with p (c :: b).
Proof.
  intros Hc. unfold rstrip_with. rewrite rev_app_distr. cbn [rev].
  rewrite <- app_assoc. cbn [app].
  rewrite (lstrip_with_app_stop p (rev b) c (rev u) Hc).
  rewrite rev_app_distr, rev_involutive. reflexivity.
Qed.

Lemma rstrip_with_app_all (p : char -> bool) (s l : str) :
  Forall (fun x => p x = true) l -> rstrip_with p (s ++ l) = rstrip_with p s.
Proof.
  intros Hl. unfold rstrip_with. rewrite rev_app_distr.
  rewrite lstrip_with_app_all; [reflexivity|].
  apply List.Forall_rev. exact Hl.
Qed.

(** Characters that [strip] removes anyway may be added at both ends. *)
Lemma strip_with_surrounded (p : char -> bool) (l1 s l2 : str) :
  Forall (fun x => p x = true) l1 -> Forall (fun x => p x = true) l2 ->
  strip_with p (l1 ++ s ++ l2) = strip_with p s.
Proof.
  intros H1 H2. unfold strip_with. rewrite (lstrip_with_app_all p l1 _ H1).
  destruct (lstrip_with_starts p s) as [E | (c & r & E & Hc)].
  - rewrite E.
    assert (Hs : Forall (fun x => p x = true) s).
    { apply List.Forall_forall. exact (lstrip_with_nil_all p s E). }
    rewrite (lstrip_with_app_all p s l2 Hs).
    rewrite <- (app_nil_r l2), (lstrip_with_app_all p l2 [] H2).
    reflexivity.
  - rewrite (lstrip_with_app_started p s l2 c r E), E.
    apply rstrip_with_app_all. exact H2.
Qed.

(** A text without any character of the kind that [strip] removes is
    left as it is. *)
Lemma strip_with_none (p : char -> bool) (s : str) :
  Forall (fun x => p x = false) s -> strip_with p s = s.
Proof.
  intros H. unfold strip_with, rstrip_with.
  rewrite (lstrip_with_none p s H).
  rewrite (lstrip_with_none p (rev s)); [apply rev_involutive|].
  apply List.Forall_rev. exact H.
Qed.

(** The white space at the two ends is removed independently once the
    text has a character on each side that stays. *)
Lemma strip_with_mid (p : char -> bool) (a : str) (z : char) (m : str)
  (c : char) (b : str) :
  p z = false -> p c = false ->
  strip_with p (a ++ [z] ++ m ++ [c] ++ b)
  = lstrip_with p (a ++ [z]) ++ m ++ rstrip_with p ([c] ++ b).
Proof.
  intros Hz Hc. unfold strip_with. cbn [app].
  rewrite (lstrip_with_app_stop p a z (m ++ c :: b) Hz).
  rewrite app_assoc.
  rewrite (rstrip_with_app_stop p (lstrip_with p (a ++ [z]) ++ m) c b Hc).
  rewrite <- app_assoc. reflexivity.
Qed.

Lemma rstrip_with_first (p : char -> bool) (c : char) (b : str) :
  p c = false -> exists b', rstrip_with p (c :: b) = c :: b'.
Proof.
  intros Hc. unfold rstrip_with. cbn [rev].
  destruct (lstrip_with_last p c (rev b) Hc) as [l' E]. rewrite E.
  rewrite rev_app_distr. cbn [rev app]. eauto.
Qed.

(** [s.strip("`")] of a text without backquotes. *)
Lemma strip_chars_plain (s : str) :
  Forall (fun c => c <> 0x60%N) s -> strip_chars (py "`") s = s.
Proof.
  intros H. unfold strip_chars. apply strip_with_none.
  revert H. apply List.Forall_impl. intros c Hc.
  change (py "`") with [0x60%N]. cbn [existsb].
  apply N.eqb_neq in Hc. rewrite Hc. reflexivity.
Qed.

(** Without a backquote in the text the fence pattern finds nothing. *)
Lemma sub_fences_plain (multiline : bool) (t : str) :
  Forall (fun c => c <> 0x60%N) t ->
  forall bol, sub_fences_from multiline 0 bol t = t.
Proof.
  induction 1 as [|c t Hc _ IH]; intros bol; [reflexivity|].
  cbn [sub_fences_from].
  assert (E : forall p, startswith (c :: t) (0x60%N :: p) = false).
  { intros p. cbn [startswith]. apply N.eqb_neq in Hc.
    rewrite N.eqb_sym, Hc. reflexivity. }
  pose proof (E (py "``json")) as E1. pose proof (E (py "``")) as E2.
  change (0x60%N :: py "``json") with (py "```json") in E1.
  change (0x60%N :: py "``") with (py "```") in E2.
  repeat match goal with
  | |- context [startswith ?s ?p] =>
      replace (startswith s p) with false by (symmetry; assumption)
  end.
  rewrite andb_false_r. cbn [andb]. rewrite IH. reflexivity.
Qed.

(** What [json_clean] does to a text without backquotes. *)
Lemma json_clean_plain (s : str) :
  Forall (fun c => c <> 0x60%N) s ->
  json_clean s
  = replace_char NL (py " ")
      (sub_trailing_comma 0x5D%N (sub_trailing_comma 0x7D%N (strip s))).
Proof.
  intros H. unfold json_clean. cbv zeta.
  assert (Hs : Forall (fun c => c <> 0x60%N) (strip s))
    by (apply Forall_strip_with; exact H).
  rewrite (strip_chars_plain (strip s) Hs).
  rewrite strip_idem. unfold sub_fences.
  rewrite (sub_fences_plain true (strip s) Hs). rewrite strip_idem.
  reflexivity.
Qed.

(** *** Trailing commas *)

Lemma space_not_comma (c : char) : is_space c = true -> (c =? 0x2C)%N = false.
Proof.
  intros H. destruct (N.eqb_spec c 0x2C%N) as [->|]; [|reflexivity].
  vm_compute in H. discriminate H.
Qed.

(** The characters of a match that are still to be dropped. *)
Lemma sub_trailing_comma_skip (close : char) (l rest : str) :
  sub_trailing_comma_from close (length l) (l ++ rest)
  = sub_trailing_comma_from close 0 rest.
Proof.
  induction l as [|x l IH]; [reflexivity|].
  cbn [length app sub_trailing_comma_from]. exact IH.
Qed.

(** A comma, white space and the closing bracket become the bracket. *)
Lemma sub_trailing_comma_match (close : char) (ws b : str) :
  Forall (fun c => is_space c = true) ws -> is_space close = false ->
  sub_trailing_comma close (0x2C%N :: ws ++ close :: b)
  = close :: sub_trailing_comma close b.
Proof.
  intros Hws Hclose. unfold sub_trailing_comma.
  cbn [sub_trailing_comma_from].
  rewrite (lstrip_with_skip_all is_space ws close b Hws Hclose).
  rewrite !N.eqb_refl. cbn [andb].
  replace (S (length (ws ++ close :: b) - length (close :: b)))
    with (length (ws ++ [close]))
    by (rewrite !length_app; cbn [length]; lia).
  replace (ws ++ close :: b) with ((ws ++ [close]) ++ b)
    by (rewrite <- app_assoc; reflexivity).
  rewrite sub_trailing_comma_skip. reflexivity.
Qed.

Lemma sub_trailing_comma_other (close x : char) (r : str) :
  (x =? 0x2C)%N = false ->
  sub_trailing_comma close (x :: r) = x :: sub_trailing_comma close r.
Proof.
  intros H. unfold sub_trailing_comma. cbn [sub_trailing_comma_from].
  rewrite H. reflexivity.
Qed.

(** A comma before something else than the bracket stays. *)
Lemma sub_trailing_comma_kept (close : char) (ws : str) (d : char) (r : str) :
  Forall (fun c => is_space c = true) ws -> is_space d = false ->
  d <> close ->
  sub_trailing_comma close (0x2C%N :: ws ++ d :: r)
  = 0x2C%N :: sub_trailing_comma close (ws ++ d :: r).
Proof.
  intros Hws Hd Hne. unfold sub_trailing_comma.
  cbn [sub_trailing_comma_from].
  rewrite (lstrip_with_skip_all is_space ws d r Hws Hd).
  apply N.eqb_neq in Hne. rewrite Hne, andb_false_r. reflexivity.
Qed.

Lemma sub_trailing_comma_spaces (close : char) (ws r : str) :
  Forall (fun c => is_space c = true) ws ->
  sub_trailing_comma close (ws ++ r) = ws ++ sub_trailing_comma close r.
Proof.
  induction 1 as [|x ws Hx _ IH]; [reflexivity|].
  cbn [app]. rewrite (sub_trailing_comma_other close x _ (space_not_comma x Hx)).
  rewrite IH. reflexivity.
Qed.

(** After a character that is neither white space nor a comma, what
    follows is treated on its own. *)
Lemma sub_trailing_comma_from_app (close d : char) (Y : str) :
  is_space d = false -> d <> 0x2C%N ->
  forall (X : str) (n : nat),
    n <= S (length X) ->
    sub_trailing_comma_from close n (X ++ d :: Y)
    = sub_trailing_comma_from close n (X ++ [d])
      ++ sub_trailing_comma_from close 0 Y.
Proof.
  intros Hd Hne. apply N.eqb_neq in Hne.
  induction X as [|x X IH]; intros n Hn.
  - cbn [app length] in *. destruct n as [|[|n]]; [| |lia].
    + cbn [sub_trailing_comma_from]. rewrite Hne. reflexivity.
    + reflexivity.
  - cbn [app length] in *. destruct n as [|n].
    + cbn [sub_trailing_comma_from].
      rewrite (lstrip_with_app_stop is_space X d Y Hd).
      destruct (lstrip_with_last is_space d X Hd) as [l' E]. rewrite E.
      replace (length (X ++ d :: Y) - length ((l' ++ [d]) ++ Y))
        with (length (X ++ [d]) - length (l' ++ [d])).
      2:{ rewrite !length_app. cbn [length]. lia. }
      assert (Hlen : S (length (X ++ [d]) - length (l' ++ [d])) <= S (length X)).
      { rewrite !length_app. cbn [length]. lia. }
      assert (Hhead : match (l' ++ [d]) ++ Y with
                      | d0 :: _ => (d0 =? close)%N
                      | [] => false
                      end
                      = match l' ++ [d] with
                        | d0 :: _ => (d0 =? close)%N
                        | [] => false
                        end).
      { destruct l'; reflexivity. }
      rewrite Hhead.
      destruct ((x =? 0x2C)%N
                && match l' ++ [d] with
                   | d0 :: _ => (d0 =? close)%N
                   | [] => false
                   end).
      * cbn [app]. rewrite (IH _ Hlen). reflexivity.
      * cbn [app]. rewrite (IH 0 ltac:(lia)). reflexivity.
    + cbn [sub_trailing_comma_from]. apply IH. lia.
Qed.

Lemma sub_trailing_comma_app (close d : char) (X Y : str) :
  is_space d = false -> d <> 0x2C%N ->
  sub_trailing_comma close (X ++ d :: Y)
  = sub_trailing_comma close (X ++ [d]) ++ sub_trailing_comma close Y.
Proof.
  intros Hd Hne. unfold sub_trailing_comma.
  apply sub_trailing_comma_from_app; [exact Hd|exact Hne|lia].
Qed.

(** A last character that is not white space is still the last one
    afterwards. *)
Lemma sub_trailing_comma_from_last (close z : char) :
  is_space z = false ->
  forall (X : str) (n : nat),
    n <= length X ->
    exists t, sub_trailing_comma_from close n (X ++ [z]) = t ++ [z].
Proof.
  intros Hz. induction X as [|x X IH]; intros n Hn.
  - cbn [length] in Hn. replace n with 0 by lia.
    cbn [app sub_trailing_comma_from lstrip_with].
    rewrite andb_false_r. exists []. reflexivity.
  - cbn [app length] in *. destruct n as [|n].
    + cbn [sub_trailing_comma_from].
      destruct (lstrip_with_last is_space z X Hz) as [l' E]. rewrite E.
      destruct ((x =? 0x2C)%N
                && match l' ++ [z] with
                   | d0 :: _ => (d0 =? close)%N
                   | [] => false
                   end) eqn:Hcond.
      * destruct l' as [|h l'].
        -- cbn [app length] in *.
           apply andb_prop in Hcond as [_ Hcl]. apply N.eqb_eq in Hcl.
           subst close.
           replace (S (length (X ++ [z]) - 1)) with (length (X ++ [z]))
             by (rewrite length_app; cbn [length]; lia).
           pose proof (sub_trailing_comma_skip z (X ++ [z]) []) as K.
           rewrite app_nil_r in K. rewrite K. exists []. reflexivity.
        -- assert (Hlen : S (length (X ++ [z]) - length ((h :: l') ++ [z]))
                          <= length X).
           { pose proof (lstrip_with_length is_space (X ++ [z])) as Hl.
             rewrite E in Hl. rewrite !length_app in *. cbn [length] in *.
             rewrite ?length_app in *. cbn [length] in *. lia. }
           destruct (IH _ Hlen) as [t Et]. rewrite Et.
           exists (close :: t). reflexivity.
      * destruct (IH 0 ltac:(lia)) as [t Et]. rewrite Et.
        exists (x :: t). reflexivity.
    + cbn [sub_trailing_comma_from]. apply IH. lia.
Qed.

Lemma sub_trailing_comma_last (close z : char) (X : str) :
  is_space z = false ->
  exists t, sub_trailing_comma close (X ++ [z]) = t ++ [z].
Proof.
  intros Hz. unfold sub_trailing_comma.
  apply sub_trailing_comma_from_last; [exact Hz|lia].
Qed.

(** The two substitutions of [safe_json_loads], one after the other,
    on a text with a comma before a closing bracket or brace: they give
    what they give on the text without that comma and the white space
    after it. *)
Lemma trailing_comma_dropped (close : char) (A : str) (z : char)
  (ws B : str) :
  close = 0x5D%N \/ close = 0x7D%N ->
  is_space z = false -> z <> 0x2C%N ->
  Forall (fun c => is_space c = true) ws ->
  sub_trailing_comma 0x5D%N
    (sub_trailing_comma 0x7D%N (A ++ z :: 0x2C%N :: ws ++ close :: B))
  = sub_trailing_comma 0x5D%N
      (sub_trailing_comma 0x7D%N (A ++ z :: close :: B)).
Proof.
  intros Hclose Hz Hne Hws.
  rewrite (sub_trailing_comma_app 0x7D%N z A _ Hz Hne).
  rewrite (sub_trailing_comma_app 0x7D%N z A (close :: B) Hz Hne).
  destruct Hclose as [-> | ->].
  - rewrite (sub_trailing_comma_kept 0x7D%N ws 0x5D%N B Hws eq_refl)
      by discriminate.
    rewrite (sub_trailing_comma_spaces 0x7D%N ws _ Hws).
    rewrite (sub_trailing_comma_other 0x7D%N 0x5D%N B eq_refl).
    destruct (sub_trailing_comma_last 0x7D%N z A Hz) as [T ET]. rewrite ET.
    rewrite <- !app_assoc. cbn [app].
    rewrite (sub_trailing_comma_app 0x5D%N z T _ Hz Hne).
    rewrite (sub_trailing_comma_app 0x5D%N z T (0x5D%N :: _) Hz Hne).
    rewrite (sub_trailing_comma_match 0x5D%N ws _ Hws eq_refl).
    rewrite (sub_trailing_comma_other 0x5D%N 0x5D%N _ eq_refl).
    reflexivity.
  - rewrite (sub_trailing_comma_match 0x7D%N ws B Hws eq_refl).
    rewrite (sub_trailing_comma_other 0x7D%N 0x7D%N B eq_refl).
    reflexivity.
Qed.

(** Where no comma stands before the bracket, nothing changes. *)
Lemma sub_trailing_comma_none (close : char) (s : str) :
  has_comma_before close s = false -> sub_trailing_comma close s = s.
Proof.
  unfold sub_trailing_comma.
  induction s as [|x s IH]; [reflexivity|].
  cbn [has_comma_before sub_trailing_comma_from]. intros H.
  apply orb_false_elim in H as [H1 H2]. rewrite H1, (IH H2). reflexivity.
Qed.

Lemma replace_char_none (a : char) (b s : str) :
  Forall (fun c => c <> a) s -> replace_char a b s = s.
Proof.
  unfold replace_char. induction 1 as [|c s Hc _ IH]; [reflexivity|].
  cbn [flat_map]. apply N.eqb_neq in Hc. rewrite Hc, IH. reflexivity.
Qed.

(** *** Fences inside the text *)

Lemma sub_fences_plain_line (P rest : str) :
  Forall (fun c => c <> 0x60%N) P ->
  forall bol,
    sub_fences_from true 0 bol (P ++ NL :: rest)
    = P ++ NL :: sub_fences_from true 0 true rest.
Proof.
  assert (E : forall (c : char) (s p : str),
             c <> 0x60%N -> startswith (c :: s) (0x60%N :: p) = false).
  { intros c s p Hc. cbn [startswith]. apply N.eqb_neq in Hc.
    rewrite N.eqb_sym, Hc. reflexivity. }
  assert (Step : forall (c : char) (s : str) bol,
             c <> 0x60%N ->
             sub_fences_from true 0 bol (c :: s)
             = c :: sub_fences_from true 0 (c =? NL)%N s).
  { intros c s bol Hc. cbn [sub_fences_from].
    pose proof (E c s (py "``json") Hc) as E1.
    pose proof (E c s (py "``") Hc) as E2.
    change (0x60%N :: py "``json") with (py "```json") in E1.
    change (0x60%N :: py "``") with (py "```") in E2.
    repeat match goal with
    | |- context [startswith ?s ?p] =>
        replace (startswith s p) with false by (symmetry; assumption)
    end.
    rewrite andb_false_r. reflexivity. }
  induction 1 as [|c P Hc _ IH]; intros bol; cbn [app].
  - rewrite Step by discriminate. reflexivity.
  - rewrite (Step c _ bol Hc), IH. reflexivity.
Qed.

Lemma sub_fences_newline (rest : str) (bol : bool) :
  sub_fences_from true 0 bol (NL :: rest)
  = NL :: sub_fences_from true 0 true rest.
Proof. exact (sub_fences_plain_line [] rest ltac:(constructor) bol). Qed.

Lemma sub_fences_skip (multiline : bool) (l rest : str) :
  forall (x : char) (bol : bool),
    sub_fences_from multiline (S (length l)) bol (x :: l ++ rest)
    = sub_fences_from multiline 0 false rest.
Proof.
  induction l as [|y l IH]; intros x bol.
  - reflexivity.
  - cbn [length app sub_fences_from]. apply (IH y false).
Qed.

(** [re.sub(r"^```json|```$", "", s, flags=re.MULTILINE)] on a text with
    one fenced block on lines of its own: the two fence lines are
    emptied. *)
Lemma sub_fences_inner (h : char) (a body b : str) (t : char) :
  h <> 0x60%N -> t <> 0x60%N ->
  Forall (fun c => c <> 0x60%N) a ->
  Forall (fun c => c <> 0x60%N) body ->
  Forall (fun c => c <> 0x60%N) b ->
  sub_fences true
    (h :: a ++ NL :: py "```json" ++ NL :: body ++ NL :: py "```" ++ NL
       :: b ++ [t])
  = h :: a ++ NL :: NL :: body ++ NL :: NL :: b ++ [t].
Proof.
  intros Hh Ht Ha Hbody Hb. unfold sub_fences.
  change (h :: a ++ NL :: ?r) with ((h :: a) ++ NL :: r).
  rewrite sub_fences_plain_line by (constructor; assumption).
  cbn [app]. f_equal. f_equal. f_equal.
  (* the opening fence, at the start of a line *)
  change (py "```json" ++ ?r) with (0x60%N :: py "``json" ++ r).
  cbn [sub_fences_from].
  change (0x60%N :: py "``json" ++ ?r) with (py "```json" ++ r).
  rewrite startswith_prefix. cbn [andb].
  change (py "``json" ++ ?r) with (0x60%N :: py "`json" ++ r).
  change 6 with (S (length (py "`json"))).
  rewrite sub_fences_skip.
  rewrite sub_fences_newline.
  f_equal.
  rewrite (sub_fences_plain_line body _ Hbody true). f_equal. f_equal.
  (* the closing fence, at the end of a line *)
  change (py "```" ++ ?r) with (0x60%N :: py "``" ++ r).
  cbn [sub_fences_from].
  repeat match goal with
  | |- context [startswith ?s ?p] =>
      let v := eval lazy in (startswith s p) in
      change (startswith s p) with v
  end.
  cbn [andb skipn app at_line_end].
  change (NL =? NL)%N with true. cbn [andb orb].
  change (py "``" ++ ?r) with (0x60%N :: py "`" ++ r).
  change 2 with (S (length (py "`"))).
  rewrite sub_fences_skip.
  rewrite sub_fences_newline.
  f_equal.
  apply sub_fences_plain. apply Forall_app. split; [exact Hb|].
  constructor; [exact Ht|constructor].
Qed.

(** *** The bracketed span *)

Lemma lstrip_with_suffix (p : char -> bool) (s : str) :
  exists pre, s = pre ++ lstrip_with p s.
Proof.
  induction s as [|x s [pre IH]]; [exists []; reflexivity|].
  cbn [lstrip_with]. destruct (p x).
  - exists (x :: pre). cbn [app]. rewrite <- IH. reflexivity.
  - exists []. reflexivity.
Qed.

(** [re.search(r"\[.*\]", s, re.DOTALL)] finds the text from the first
    opening bracket to the last closing bracket. *)
Lemma search_array_span (pre mid post : str) :
  Forall (fun c => c <> 0x5B%N) pre ->
  Forall (fun c => c <> 0x5D%N) post ->
  search_array (pre ++ [0x5B%N] ++ mid ++ [0x5D%N] ++ post)
  = Some ([0x5B%N] ++ mid ++ [0x5D%N]).
Proof.
  intros Hpre Hpost. unfold search_array. cbn [app].
  rewrite lstrip_with_skip_all.
  - assert (Hex : existsb (fun c => (c =? 0x5D)%N) (mid ++ 0x5D%N :: post)
                  = true).
    { apply existsb_exists. exists 0x5D%N. split; [|reflexivity].
      apply in_or_app. right. left. reflexivity. }
    rewrite Hex. f_equal. f_equal.
    unfold rstrip_with. rewrite rev_app_distr. cbn [rev].
    rewrite <- app_assoc. cbn [app].
    rewrite lstrip_with_skip_all.
    + cbn [rev]. rewrite rev_involutive. reflexivity.
    + apply List.Forall_rev. revert Hpost. apply List.Forall_impl.
      intros c Hc. apply N.eqb_neq in Hc. rewrite Hc. reflexivity.
    + reflexivity.
  - revert Hpre. apply List.Forall_impl.
    intros c Hc. apply N.eqb_neq in Hc. rewrite Hc. reflexivity.
  - reflexivity.
Qed.

(** It finds nothing only when no opening bracket has a closing bracket
    after it. *)
Lemma search_array_none_iff (s : str) :
  search_array s = None
  <-> forall pre mid post, s <> pre ++ [0x5B%N] ++ mid ++ [0x5D%N] ++ post.
Proof.
  split.
  - intros Hnone pre mid post ->. unfold search_array in Hnone.
    destruct (lstrip_with_app_keep (fun c => negb (c =? 0x5B)%N) pre 0x5B%N
                (mid ++ [0x5D%N] ++ post) eq_refl) as [x Ex].
    cbn [app] in *. unfold char in *. rewrite Ex in Hnone.
    assert (Hex : forall l, In 0x5D%N l ->
                            existsb (fun c => (c =? 0x5D)%N) l = true).
    { intros l Hl. apply existsb_exists. exists 0x5D%N.
      split; [exact Hl|reflexivity]. }
    destruct x as [|h x]; cbn [app] in Hnone.
    + rewrite Hex in Hnone; [discriminate Hnone|].
      apply in_or_app. right. left. reflexivity.
    + rewrite Hex in Hnone; [discriminate Hnone|].
      apply in_or_app. right. right.
      apply in_or_app. right. left. reflexivity.
  - intros Hno. unfold search_array.
    destruct (lstrip_with (fun c => negb (c =? 0x5B)%N) s)
      as [|open rest] eqn:E; [reflexivity|].
    destruct (existsb (fun c => (c =? 0x5D)%N) rest) eqn:Hex; [|reflexivity].
    exfalso.
    pose proof (lstrip_with_head_kept _ _ _ _ E) as Hopen.
    apply negb_false_iff, N.eqb_eq in Hopen. subst open.
    apply existsb_exists in Hex as (x & Hin & Hx). apply N.eqb_eq in Hx.
    subst x. apply in_split in Hin as (mid & post & ->).
    destruct (lstrip_with_suffix (fun c => negb (c =? 0x5B)%N) s) as [pre Es].
    rewrite E in Es. exact (Hno pre mid post Es).
Qed.

(** *** The cleaning as a whole *)

Lemma strip_chars_surrounded (l1 s l2 : str) :
  Forall (fun c => c = 0x60%N) l1 -> Forall (fun c => c = 0x60%N) l2 ->
  strip_chars (py "`") (l1 ++ s ++ l2) = strip_chars (py "`") s.
Proof.
  intros H1 H2. unfold strip_chars. apply strip_with_surrounded.
  - revert H1. apply List.Forall_impl. intros c ->. reflexivity.
  - revert H2. apply List.Forall_impl. intros c ->. reflexivity.
Qed.

Lemma strip_surrounded (l1 s l2 : str) :
  Forall (fun c => is_space c = true) l1 ->
  Forall (fun c => is_space c = true) l2 ->
  strip (l1 ++ s ++ l2) = strip s.
Proof. apply strip_with_surrounded. Qed.

Lemma strip_ends (c : char) (l : str) (d : char) :
  is_space c = false -> is_space d = false ->
  strip (c :: l ++ [d]) = c :: l ++ [d].
Proof. apply strip_with_ends. Qed.

Lemma strip_chars_ends (c : char) (l : str) (d : char) :
  c <> 0x60%N -> d <> 0x60%N ->
  strip_chars (py "`") (c :: l ++ [d]) = c :: l ++ [d].
Proof.
  intros Hc Hd. unfold strip_chars. apply strip_with_ends.
  - change (py "`") with [0x60%N]. cbn [existsb].
    apply N.eqb_neq in Hc. rewrite Hc. reflexivity.
  - change (py "`") with [0x60%N]. cbn [existsb].
    apply N.eqb_neq in Hd. rewrite Hd. reflexivity.
Qed.

Lemma space_not_backquote (ws : str) :
  Forall (fun c => is_space c = true) ws -> Forall (fun c => c <> 0x60%N) ws.
Proof.
  apply List.Forall_impl. intros c Hc ->. vm_compute in Hc. discriminate Hc.
Qed.

(** Fence markers at the two ends go with [strip("`")]. *)
Lemma json_clean_end_fences (ws1 body ws2 : str) :
  Forall (fun c => is_space c = true) ws1 ->
  Forall (fun c => is_space c = true) ws2 ->
  Forall (fun c => c <> 0x60%N) body ->
  json_clean (ws1 ++ py "```" ++ body ++ py "```" ++ ws2) = json_clean body.
Proof.
  intros H1 H2 Hbody.
  assert (F : py "```" ++ body ++ py "```"
              = 0x60%N :: (py "``" ++ body ++ py "``") ++ [0x60%N]).
  { change (py "```") with (py "``" ++ [0x60%N]) at 2.
    change (py "```") with (0x60%N :: py "``").
    cbn [app]. rewrite <- !app_assoc. reflexivity. }
  assert (E1 : strip (ws1 ++ py "```" ++ body ++ py "```" ++ ws2)
               = py "```" ++ body ++ py "```").
  { transitivity (strip (py "```" ++ body ++ py "```")).
    - transitivity (strip (ws1 ++ (py "```" ++ body ++ py "```") ++ ws2)).
      + f_equal. rewrite <- !app_assoc. reflexivity.
      + exact (strip_surrounded ws1 _ ws2 H1 H2).
    - rewrite F. exact (strip_ends 0x60%N _ 0x60%N eq_refl eq_refl). }
  assert (E2 : strip_chars (py "`") (py "```" ++ body ++ py "```") = body).
  { transitivity (strip_chars (py "`") body).
    - apply strip_chars_surrounded;
        change (py "```") with [0x60%N; 0x60%N; 0x60%N]; repeat constructor.
    - exact (strip_chars_plain body Hbody). }
  assert (E3 : strip (strip_chars (py "`") (strip body)) = strip body).
  { transitivity (strip (strip body)).
    - f_equal. apply strip_chars_plain. apply Forall_strip_with. exact Hbody.
    - apply strip_idem. }
  assert (E : strip (strip_chars (py "`")
                       (strip (ws1 ++ py "```" ++ body ++ py "```" ++ ws2)))
              = strip (strip_chars (py "`") (strip body))).
  { transitivity (strip body); [|symmetry; exact E3].
    f_equal. transitivity (strip_chars (py "`") (py "```" ++ body ++ py "```")).
    - f_equal. exact E1.
    - exact E2. }
  unfold json_clean. cbv zeta. rewrite E. reflexivity.
Qed.

(** A fenced block inside the text: the fence lines are emptied by the
    pattern. *)
Lemma json_clean_inner_fence (h : char) (a body b : str) (t : char) :
  is_space h = false -> h <> 0x60%N ->
  is_space t = false -> t <> 0x60%N ->
  Forall (fun c => c <> 0x60%N) a ->
  Forall (fun c => c <> 0x60%N) body ->
  Forall (fun c => c <> 0x60%N) b ->
  json_clean ([h] ++ a ++ [NL] ++ py "```json" ++ [NL] ++ body ++ [NL]
              ++ py "```" ++ [NL] ++ b ++ [t])
  = json_clean ([h] ++ a ++ [NL; NL] ++ body ++ [NL; NL] ++ b ++ [t]).
Proof.
  intros Hh Hh' Ht Ht' Ha Hbody Hb.
  set (R := a ++ NL :: NL :: body ++ NL :: NL :: b).
  set (M := a ++ NL :: py "```json" ++ NL :: body ++ NL :: py "```" ++ NL :: b).
  assert (ER : [h] ++ a ++ [NL; NL] ++ body ++ [NL; NL] ++ b ++ [t]
               = h :: R ++ [t]).
  { subst R. cbn [app]. repeat (rewrite <- app_assoc; cbn [app]).
    reflexivity. }
  assert (EM : [h] ++ a ++ [NL] ++ py "```json" ++ [NL] ++ body ++ [NL]
               ++ py "```" ++ [NL] ++ b ++ [t]
               = h :: M ++ [t]).
  { subst M. cbn [app]. repeat (rewrite <- app_assoc; cbn [app]).
    reflexivity. }
  assert (HR : Forall (fun c => c <> 0x60%N) (h :: R ++ [t])).
  { subst R. constructor; [exact Hh'|].
    repeat first [apply Forall_app; split | apply List.Forall_cons
                 | apply List.Forall_nil | assumption | discriminate]. }
  rewrite ER, EM. rewrite (json_clean_plain _ HR).
  rewrite (strip_ends h R t Hh Ht).
  unfold json_clean. cbv zeta.
  rewrite (strip_ends h M t Hh Ht).
  rewrite (strip_chars_ends h M t Hh' Ht').
  rewrite (strip_ends h M t Hh Ht).
  assert (ES : sub_fences true (h :: M ++ [t]) = h :: R ++ [t]).
  { subst M R.
    pose proof (sub_fences_inner h a body b t Hh' Ht' Ha Hbody Hb) as K.
    repeat (rewrite <- app_assoc; cbn [app]).
    repeat (rewrite <- app_assoc in K; cbn [app] in K).
    exact K. }
  rewrite ES. rewrite (strip_ends h R t Hh Ht). reflexivity.
Qed.

(** A comma before a closing bracket or brace, after a value: the text
    is cleaned to what the text without the comma is cleaned to. *)
Lemma json_clean_trailing_comma (a : str) (z : char) (ws : str)
  (close : char) (b : str) :
  close = 0x5D%N \/ close = 0x7D%N ->
  is_space z = false -> z <> 0x2C%N -> z <> 0x60%N ->
  Forall (fun c => is_space c = true) ws ->
  Forall (fun c => c <> 0x60%N) a ->
  Forall (fun c => c <> 0x60%N) b ->
  json_clean (a ++ [z] ++ [0x2C%N] ++ ws ++ [close] ++ b)
  = json_clean (a ++ [z] ++ [close] ++ b).
Proof.
  intros Hclose Hz Hcomma Hbq Hws Ha Hb.
  assert (Hcs : is_space close = false)
    by (destruct Hclose as [-> | ->]; reflexivity).
  assert (Hcb : close <> 0x60%N)
    by (destruct Hclose as [-> | ->]; discriminate).
  assert (H1 : Forall (fun c => c <> 0x60%N)
                 (a ++ [z] ++ [0x2C%N] ++ ws ++ [close] ++ b)).
  { pose proof (space_not_backquote ws Hws).
    repeat first [apply Forall_app; split | apply List.Forall_cons
                 | apply List.Forall_nil | assumption | discriminate]. }
  assert (H2 : Forall (fun c => c <> 0x60%N) (a ++ [z] ++ [close] ++ b)).
  { repeat first [apply Forall_app; split | apply List.Forall_cons
                 | apply List.Forall_nil | assumption | discriminate]. }
  rewrite (json_clean_plain _ H1), (json_clean_plain _ H2).
  f_equal.
  change (a ++ [z] ++ [0x2C%N] ++ ws ++ [close] ++ b)
    with (a ++ [z] ++ (0x2C%N :: ws) ++ [close] ++ b).
  change (a ++ [z] ++ [close] ++ b) with (a ++ [z] ++ [] ++ [close] ++ b).
  destruct (lstrip_with_last is_space z a Hz) as [A EA].
  destruct (rstrip_with_first is_space close b Hcs) as [B EB].
  assert (S1 : strip (a ++ [z] ++ (0x2C%N :: ws) ++ [close] ++ b)
               = A ++ z :: 0x2C%N :: ws ++ close :: B).
  { transitivity (lstrip_with is_space (a ++ [z]) ++ (0x2C%N :: ws)
                  ++ rstrip_with is_space ([close] ++ b)).
    - exact (strip_with_mid is_space a z (0x2C%N :: ws) close b Hz Hcs).
    - transitivity ((A ++ [z]) ++ (0x2C%N :: ws) ++ close :: B).
      + f_equal; [exact EA|]. f_equal. exact EB.
      + rewrite <- !app_assoc. reflexivity. }
  assert (S2 : strip (a ++ [z] ++ [] ++ [close] ++ b) = A ++ z :: close :: B).
  { transitivity (lstrip_with is_space (a ++ [z]) ++ []
                  ++ rstrip_with is_space ([close] ++ b)).
    - exact (strip_with_mid is_space a z [] close b Hz Hcs).
    - transitivity ((A ++ [z]) ++ [] ++ close :: B).
      + f_equal; [exact EA|]. f_equal. exact EB.
      + rewrite <- !app_assoc. reflexivity. }
  transitivity (sub_trailing_comma 0x5D%N
                  (sub_trailing_comma 0x7D%N
                     (A ++ z :: 0x2C%N :: ws ++ close :: B))).
  { f_equal. f_equal. exact S1. }
  transitivity (sub_trailing_comma 0x5D%N
                  (sub_trailing_comma 0x7D%N (A ++ z :: close :: B))).
  { apply trailing_comma_dropped; assumption. }
  f_equal. f_equal. symmetry. exact S2.
Qed.

(** A text that needs no cleaning but for its newlines. *)
Lemma json_clean_newlines (s : str) :
  strip s = s ->
  Forall (fun c => c <> 0x60%N) s ->
  has_comma_before 0x5D%N s = false ->
  has_comma_before 0x7D%N s = false ->
  json_clean s = replace_char NL (py " ") s.
Proof.
  intros Hs Hbq H1 H2. rewrite (json_clean_plain s Hbq), Hs.
  rewrite (sub_trailing_comma_none 0x7D%N s H2).
  rewrite (sub_trailing_comma_none 0x5D%N s H1). reflexivity.
Qed.

(** C8. For every input string and every behaviour of [json.loads],
    [safe_json_loads] returns and never raises. What it returns is the
    strict parse of the cleaned text when that succeeds; otherwise the
    parse of the span from the first opening bracket to the last closing
    bracket of the cleaned text, when there is such a span and it
    parses; and [None] in every other case. The cleaned text has no
    newline, and the cleaning does what the steps say:
    - fence markers at the two ends are stripped;
    - a fenced block that stands on lines of its own inside the text
      has its two fence lines emptied;
    - a comma that follows a value and stands, white space apart,
      before a closing bracket or brace is removed with that white
      space;
    - a text without backquotes, without white space at its ends and
      without such a comma is changed in its newlines only, each of
      which becomes a space. *)
Theorem safe_json_loads_never_raises (json_loads : str -> result json) :
  (forall raw : str,
     let clean := json_clean raw in
     exists v : json,
       safe_json_loads json_loads raw = Return v
       /\ (forall x, json_loads clean = Return x -> v = x)
       /\ (forall e pre mid post,
             json_loads clean = Raise e ->
             clean = pre ++ [0x5B%N] ++ mid ++ [0x5D%N] ++ post ->
             Forall (fun c => c <> 0x5B%N) pre ->
             Forall (fun c => c <> 0x5D%N) post ->
             v = match json_loads ([0x5B%N] ++ mid ++ [0x5D%N]) with
                 | Return x => x
                 | Raise _ => JNull
                 end)
       /\ (forall e,
             json_loads clean = Raise e ->
             (forall pre mid post,
                clean <> pre ++ [0x5B%N] ++ mid ++ [0x5D%N] ++ post) ->
             v = JNull)
       /\ Forall (fun c => c <> NL) clean)
  /\ (forall ws1 body ws2 : str,
        Forall (fun c => is_space c = true) ws1 ->
        Forall (fun c => is_space c = true) ws2 ->
        Forall (fun c => c <> 0x60%N) body ->
        json_clean (ws1 ++ py "```" ++ body ++ py "```" ++ ws2)
        = json_clean body)
  /\ (forall (h : char) (a body b : str) (t : char),
        is_space h = false -> h <> 0x60%N ->
        is_space t = false -> t <> 0x60%N ->
        Forall (fun c => c <> 0x60%N) a ->
        Forall (fun c => c <> 0x60%N) body ->
        Forall (fun c => c <> 0x60%N) b ->
        json_clean ([h] ++ a ++ [NL] ++ py "```json" ++ [NL] ++ body ++ [NL]
                    ++ py "```" ++ [NL] ++ b ++ [t])
        = json_clean ([h] ++ a ++ [NL; NL] ++ body ++ [NL; NL] ++ b ++ [t]))
  /\ (forall (a : str) (z : char) (ws : str) (close : char) (b : str),
        close = 0x5D%N \/ close = 0x7D%N ->
        is_space z = false -> z <> 0x2C%N -> z <> 0x60%N ->
        Forall (fun c => is_space c = true) ws ->
        Forall (fun c => c <> 0x60%N) a ->
        Forall (fun c => c <> 0x60%N) b ->
        json_clean (a ++ [z] ++ [0x2C%N] ++ ws ++ [close] ++ b)
        = json_clean (a ++ [z] ++ [close] ++ b))
  /\ (forall s : str,
        strip s = s ->
        Forall (fun c => c <> 0x60%N) s ->
        has_comma_before 0x5D%N s = false ->
        has_comma_before 0x7D%N s = false ->
        json_clean s = replace_char NL (py " ") s).
Proof.
  split; [|split; [|split; [|split]]].
  - intros raw. cbv zeta.
    pose proof (json_clean_no_newline raw) as Hnl.
    unfold safe_json_loads, try_except. cbv zeta.
    generalize dependent (json_clean raw). intros clean Hnl.
    destruct (json_loads clean) as [x|e] eqn:E1.
    + exists x. split; [reflexivity|].
      split; [intros x' [= ->]; reflexivity|].
      split; [intros; discriminate|]. split; [intros; discriminate|].
      exact Hnl.
    + destruct (search_array clean) as [span|] eqn:E2.
      * exists (match json_loads span with
                | Return x => x
                | Raise _ => JNull
                end).
        split; [destruct (json_loads span); reflexivity|].
        split; [intros; discriminate|].
        split.
        { intros e' pre mid post _ Hc Hpre Hpost.
          assert (K : search_array clean
                      = Some ([0x5B%N] ++ mid ++ [0x5D%N]))
            by (rewrite Hc; exact (search_array_span pre mid post Hpre Hpost)).
          rewrite K in E2. injection E2 as <-. reflexivity. }
        split; [|exact Hnl].
        intros e' _ Hno. apply search_array_none_iff in Hno. congruence.
      * exists JNull. split; [reflexivity|].
        split; [intros; discriminate|].
        split; [|split; [reflexivity|exact Hnl]].
        intros e' pre mid post _ Hc Hpre Hpost.
        assert (K : search_array clean
                    = Some ([0x5B%N] ++ mid ++ [0x5D%N]))
          by (rewrite Hc; exact (search_array_span pre mid post Hpre Hpost)).
        rewrite K in E2. discriminate E2.
  - exact json_clean_end_fences.
  - exact json_clean_inner_fence.
  - exact json_clean_trailing_comma.
  - exact json_clean_newlines.
Qed.

(** An answer in fences with a comma after its last record: the comma
    is removed, the strict parse fails on the word [json] that
    [strip("`")] leaves, and the span from [[] to []] is what is
    parsed. *)
Lemma safe_json_loads_never_raises_witness :
  let body := [NL] ++ py "[{" ++ [DQ] ++ py "title" ++ [DQ] ++ py ": " ++ [DQ]
              ++ py "Heat" ++ [DQ] ++ py "},]" ++ [NL] in
  safe_json_loads JobExamples.json_loads_table (py "```json" ++ body ++ py "```")
  = Return (JArr [JobExamples.heat_record])
  /\ json_clean (py "```" ++ body ++ py "```" ++ [NL]) = json_clean body
  /\ json_clean (py "Data:" ++ [NL] ++ py "```json" ++ [NL] ++ py "[1]" ++ [NL]
                 ++ py "```" ++ [NL] ++ py "Done.")
     = py "Data:  [1]  Done."
  /\ json_clean (py "[1, 2, ]") = json_clean (py "[1, 2]")
  /\ json_clean (py "[1," ++ [NL] ++ py " 2]") = py "[1,  2]".
Proof.
  intros body.
  destruct (safe_json_loads_never_raises JobExamples.json_loads_table)
    as (Hret & Hfence & Hinner & Hcomma & Hplain).
  split; [|split; [|split; [|split]]].
  - destruct (Hret (py "```json" ++ body ++ py "```"))
      as (v & Hv & _ & Hspan & _).
    rewrite Hv. f_equal.
    rewrite (Hspan (ValueError (py "Expecting value")) (py "json ")
               (py "{" ++ [DQ] ++ py "title" ++ [DQ] ++ py ": " ++ [DQ]
                ++ py "Heat" ++ [DQ] ++ py "}") []).
    + vm_compute. reflexivity.
    + vm_compute. reflexivity.
    + vm_compute. reflexivity.
    + vm_compute. repeat constructor; discriminate.
    + constructor.
  - apply (Hfence [] body [NL]).
    + constructor.
    + repeat constructor.
    + vm_compute. repeat constructor; discriminate.
  - transitivity (json_clean ([0x44%N] ++ py "ata:" ++ [NL; NL] ++ py "[1]"
                              ++ [NL; NL] ++ py "Done" ++ [0x2E%N])).
    + refine (Hinner 0x44%N (py "ata:") (py "[1]") (py "Done") 0x2E%N
                _ _ _ _ _ _ _).
      * reflexivity.
      * discriminate.
      * reflexivity.
      * discriminate.
      * vm_compute. repeat constructor; discriminate.
      * vm_compute. repeat constructor; discriminate.
      * vm_compute. repeat constructor; discriminate.
    + vm_compute. reflexivity.
  - refine (Hcomma (py "[1, ") 0x32%N [0x20%N] 0x5D%N [] _ _ _ _ _ _ _).
    + left. reflexivity.
    + reflexivity.
    + discriminate.
    + discriminate.
    + repeat constructor.
    + vm_compute. repeat constructor; discriminate.
    + constructor.
  - transitivity (replace_char NL (py " ") (py "[1," ++ [NL] ++ py " 2]")).
    + refine (Hplain (py "[1," ++ [NL] ++ py " 2]") _ _ _ _).
      * vm_compute. reflexivity.
      * vm_compute. repeat constructor; discriminate.
      * vm_compute. reflexivity.
      * vm_compute. reflexivity.
    + vm_compute. reflexivity.
Defined.
